(** * F.-Framework: the fantasy-league analysis pipeline

    A shallow embedding of [src/api/fpl_client.py],
    [src/analysis/player_analyzer.py], [src/analysis/fixture_analyzer.py]
    and [src/analysis/transfer_advisor.py], and the properties of the
    specification stated over it.

    Conventions of the embedding.
    - A pandas DataFrame is the list of its rows, in row order; a boolean
      mask is a [bool] predicate given to [List.filter].
    - A float64 column is a column of [num]: the rational its decimal
      reading denotes, or one of the three special values a division by
      zero produces.  Arithmetic is exact here and binary in the code, so
      a [round(2)] whose exact argument lies on a half cent (x.xx5) can
      fall to either neighbour in the code, while [round2] takes the even
      one.  Where such an argument can occur (value per price, transfer,
      sell and differential score) the properties are stated with
      [rounds_to], which admits both neighbours, and never as an equation
      with [round2].
    - The decimal strings of the payload (form, points_per_game,
      selected_by_percent) are carried as the rationals they denote.
    - A Python exception is the [Raise] branch of [result]. *)

From Stdlib Require Import QArith Qround ZArith String Ascii List Permutation Sorted Lia Lqa DecimalString.
From stdpp Require Import base gmap strings list sorting.
Import ListNotations.

Local Open Scope string_scope.
Local Open Scope list_scope.
Local Open Scope Z_scope.

(** ** Numbers *)

Module Num.

(** A float64 value: finite (an exact rational here), [inf], [-inf] or
    [NaN]. *)
Inductive num : Type :=
| Fin (q : Q)
| PInf
| NInf
| NaN.

(** Round half to even, to the nearest integer (numpy's [rint], Python's
    [round]). *)
Definition round_half_even (q : Q) : Z :=
  let f := Qfloor q in
  match (q - inject_Z f ?= 1 # 2)%Q with
  | Lt => f
  | Gt => f + 1
  | Eq => if Z.even f then f else f + 1
  end.

(** [round(q, 2)] of an exact value, a tie going to the even neighbour.
    The result is kept in lowest terms.  The code rounds the binary
    value of [q], which at a tie lies on one side of it: there the code
    gives one of the two values [rounds_to] admits, not always this
    one. *)
Definition round2 (q : Q) : Q :=
  Qred (inject_Z (round_half_even (q * 100)) / 100).

(** [Series.round(2)] on a float column: the special values are kept. *)
Definition xround2 (x : num) : num :=
  match x with
  | Fin q => Fin (round2 q)
  | other => other
  end.

Definition Qsign (q : Q) : comparison := (q ?= 0)%Q.

Definition xadd (x y : num) : num :=
  match x, y with
  | NaN, _ | _, NaN => NaN
  | PInf, NInf | NInf, PInf => NaN
  | PInf, _ | _, PInf => PInf
  | NInf, _ | _, NInf => NInf
  | Fin a, Fin b => Fin (a + b)
  end.

Definition xopp (x : num) : num :=
  match x with
  | Fin a => Fin (- a)
  | PInf => NInf
  | NInf => PInf
  | NaN => NaN
  end.

Definition xsub (x y : num) : num :=
  match x, y with
  | Fin a, Fin b => Fin (a - b)
  | _, _ => xadd x (xopp y)
  end.

(** The infinity of the given sign; [inf * 0] is [NaN]. *)
Definition signed_inf (s : comparison) : num :=
  match s with
  | Gt => PInf
  | Lt => NInf
  | Eq => NaN
  end.

Definition xsign (x : num) : option comparison :=
  match x with
  | Fin q => Some (Qsign q)
  | PInf => Some Gt
  | NInf => Some Lt
  | NaN => None
  end.

Definition mul_sign (s t : comparison) : comparison :=
  match s, t with
  | Eq, _ | _, Eq => Eq
  | Gt, Gt | Lt, Lt => Gt
  | _, _ => Lt
  end.

Definition xmul (x y : num) : num :=
  match x, y with
  | Fin a, Fin b => Fin (a * b)
  | _, _ =>
      match xsign x, xsign y with
      | Some s, Some t => signed_inf (mul_sign s t)
      | _, _ => NaN
      end
  end.

(** Float division of two finite values; a zero divisor gives an infinity
    of the sign of the dividend, and [0 / 0] gives [NaN], without any
    exception (numpy semantics, the divisor being [+0.0]). *)
Definition xdiv (a b : Q) : num :=
  if Qeq_bool b 0 then signed_inf (Qsign a) else Fin (a / b).

(** [x] may stand before [y] in a column sorted in descending order;
    pandas puts [NaN] last. *)
Definition desc_b (x y : num) : bool :=
  match x, y with
  | _, NaN => true
  | NaN, _ => false
  | PInf, _ => true
  | _, PInf => false
  | _, NInf => true
  | NInf, _ => false
  | Fin a, Fin b => Qle_bool b a
  end.

(** [x] may stand before [y] in a column sorted in ascending order;
    [NaN] is last again. *)
Definition asc_b (x y : num) : bool :=
  match x, y with
  | _, NaN => true
  | NaN, _ => false
  | NInf, _ => true
  | _, NInf => false
  | _, PInf => true
  | PInf, _ => false
  | Fin a, Fin b => Qle_bool a b
  end.


(** [x] is a rounding of [q] to two decimals: a finite multiple of 0.01
    at most 0.005 away from [q].  A [q] on a half cent has two such
    roundings; any other has one. *)
Definition rounds_to (q : Q) (x : num) : Prop :=
  exists s, x = Fin s /\
    (exists k : Z, (s == inject_Z k / 100)%Q) /\
    (q - (1 # 200) <= s <= q + (1 # 200))%Q.

End Num.
Export Num.

(** ** Python strings and truthiness *)

Module Py.

Definition lower_ascii (c : ascii) : ascii :=
  let n := nat_of_ascii c in
  if ((65 <=? n)%nat && (n <=? 90)%nat)%bool then ascii_of_nat (n + 32) else c.

Definition upper_ascii (c : ascii) : ascii :=
  let n := nat_of_ascii c in
  if ((97 <=? n)%nat && (n <=? 122)%nat)%bool then ascii_of_nat (n - 32) else c.

(** [str.lower] and [str.upper], on ASCII text. *)
Fixpoint lower (s : string) : string :=
  match s with
  | EmptyString => EmptyString
  | String c s' => String (lower_ascii c) (lower s')
  end.

Fixpoint upper (s : string) : string :=
  match s with
  | EmptyString => EmptyString
  | String c s' => String (upper_ascii c) (upper s')
  end.

(** [p in s] for two strings. *)
Fixpoint str_in (p s : string) : bool :=
  (String.prefix p s ||
   match s with
   | EmptyString => false
   | String _ s' => str_in p s'
   end)%bool.

(** The characters with a meaning of their own in a regular expression
    of Python's [re]. *)
Definition regex_special (c : ascii) : bool :=
  existsb (Ascii.eqb c) (list_ascii_of_string ".^$*+?{}[]\|()").

(** A pattern that [re] reads as the text it spells: ASCII characters,
    none of them special. *)
Definition literal_pattern (pat : string) : bool :=
  forallb (fun c => (nat_of_ascii c <? 128)%nat && negb (regex_special c))%bool
          (list_ascii_of_string pat).

(** [Series.str.contains(pat, case=False)] on one cell, for a
    [literal_pattern] and a cell that is present: the regular-expression
    search is then a case-insensitive substring test.  Outside of that
    domain the code searches for the expression the pattern denotes, or
    raises [re.error] for a pattern that denotes none, and what a missing
    cell gives depends on the version of pandas: there the value below
    (the substring test, and no match for a missing cell) is not the
    code's. *)
Definition str_contains_nocase (cell : option string) (pat : string) : bool :=
  match cell with
  | Some s => str_in (lower pat) (lower s)
  | None => false
  end.

(** Truth value of an [Optional[str]] argument: [None] and the empty
    string are false. *)
Definition truthy_str (o : option string) : bool :=
  match o with
  | Some s => negb (s =? "")%string
  | None => false
  end.

(** Truth value of an [Optional[float]] argument: [None] and zero are
    false. *)
Definition truthy_float (o : option Q) : bool :=
  match o with
  | Some x => negb (Qeq_bool x 0)
  | None => false
  end.

(** [DataFrame.head(n)]: the first [n] rows, or all but the last [-n]
    for a negative [n]. *)
Definition head {A : Type} (n : Z) (l : list A) : list A :=
  if 0 <=? n then firstn (Z.to_nat n) l
  else firstn (length l - Z.to_nat (- n)) l.

(** [Series.unique()]: the distinct values, in order of first
    appearance. *)
Fixpoint unique (l : list Z) : list Z :=
  match l with
  | [] => []
  | x :: l' => x :: List.filter (fun y => negb (y =? x)) (unique l')
  end.

(** [Series.unique()] on a column with missing values: [NaN] is one
    value. *)
Fixpoint unique_opt (l : list (option Z)) : list (option Z) :=
  match l with
  | [] => []
  | x :: l' =>
      x :: List.filter (fun y => negb (bool_decide (y = x))) (unique_opt l')
  end.

(** The last element of a list that passes a test: the entry that stays
    when a dict is filled from the list, key by key. *)
Definition last_match {A} (test : A -> bool) (l : list A) : option A :=
  List.find test (rev l).

End Py.

(** ** Exceptions *)

Inductive exn : Type :=
| RequestFailed (endpoint : string)   (* Exception("FPL API request failed: ...") *)
| ValueError (fixture_id : Z)         (* ValueError("Fixture ... not found") *)
| KeyError (key : string)
| IndexError                          (* .iloc[0] on an empty frame *)
| AttributeError.                     (* .lower() on a missing (NaN) cell *)

Inductive result (A : Type) : Type :=
| Ok (a : A)
| Raise (e : exn).
Arguments Ok {A} a.
Arguments Raise {A} e.

#[export] Instance result_ret : MRet result := fun A a => Ok a.
#[export] Instance result_bind : MBind result := fun A B f m =>
  match m with
  | Ok a => f a
  | Raise e => Raise e
  end.

(** ** Data model: the records of the JSON payloads *)

(** One entry of [data['elements']]: a player. *)
Module Element.
Record t : Type := {
  id : Z;
  web_name : string;
  team : Z;
  element_type : Z;
  now_cost : Z;                 (* price in tenths *)
  total_points : Z;
  form : Q;                     (* "5.3" *)
  points_per_game : Q;
  selected_by_percent : Q;
  status : string               (* "a", "i", "d", "s", "u" *)
}.
End Element.

(** One entry of [data['teams']]. *)
Module Team.
Record t : Type := {
  id : Z;
  name : string;
  short_name : string
}.
End Team.

(** One entry of [data['events']]: a gameweek. *)
Module Event.
Record t : Type := {
  id : Z;
  is_current : bool;
  is_next : bool
}.
End Event.

(** One entry of the fixtures list.  [event] is missing for a match that
    has no gameweek yet. *)
Module Fixture.
Record t : Type := {
  id : Z;
  event : option Z;
  team_h : Z;
  team_a : Z;
  team_h_difficulty : Z;
  team_a_difficulty : Z;
  finished : bool
}.
End Fixture.

(** What [response.json()] returns. *)
Module Payload.

Inductive t : Type :=
| Bootstrap (elements : list Element.t) (teams : list Team.t)
            (events : list Event.t)          (* /bootstrap-static/ *)
| Fixtures (fixtures : list Fixture.t)       (* /fixtures/ *)
| Object (fields : list (string * string)).  (* any other JSON object *)

(** Python truth value: an empty list or dict is false.  The bootstrap
    dict has its three keys, so it is never empty. *)
Definition truthy (p : t) : bool :=
  match p with
  | Bootstrap _ _ _ => true
  | Fixtures fs => negb (bool_decide (length fs = 0%nat))
  | Object fields => negb (bool_decide (length fields = 0%nat))
  end.

(** [data['elements']], [data['teams']], [data['events']]. *)
Definition elements (p : t) : result (list Element.t) :=
  match p with
  | Bootstrap es _ _ => Ok es
  | _ => Raise (KeyError "elements")
  end.

Definition teams (p : t) : result (list Team.t) :=
  match p with
  | Bootstrap _ ts _ => Ok ts
  | _ => Raise (KeyError "teams")
  end.

Definition events (p : t) : result (list Event.t) :=
  match p with
  | Bootstrap _ _ evs => Ok evs
  | _ => Raise (KeyError "events")
  end.

(** The payload of /fixtures/ used as a list of fixture dicts. *)
Definition fixtures (p : t) : result (list Fixture.t) :=
  match p with
  | Fixtures fs => Ok fs
  | _ => Raise (KeyError "id")
  end.

End Payload.

(** ** The API client ([src/api/fpl_client.py]) *)

Module FPLClient.

(** The fields of a client object. *)
Record t : Type := {
  cache : gmap string (Payload.t * Q);
  cache_duration : Q;
  last_request_time : Q;
  min_request_interval : Q
}.

(** What lies outside the process: the clock read by [time.time()], the
    requests sent so far, and the answer and duration of the k-th
    request ([None]: a [RequestException]). *)
Record World : Type := {
  clock : Q;
  requests : list string;
  respond : nat -> string -> option Payload.t;
  latency : nat -> Q
}.

(** A method of the client: it may change the client and the world, and
    returns or raises. *)
Definition M (A : Type) : Type := t * World -> result A * (t * World).

Definition ret {A} (a : A) : M A := fun s => (Ok a, s).
Definition raise {A} (e : exn) : M A := fun s => (Raise e, s).
Definition bind {A B} (m : M A) (k : A -> M B) : M B := fun s =>
  match m s with
  | (Ok a, s') => k a s'
  | (Raise e, s') => (Raise e, s')
  end.
Definition lift {A} (r : result A) : M A := fun s => (r, s).

Module MonadNotation.
Notation "x <- m ;; k" := (bind m (fun x => k))
  (at level 100, m at next level, right associativity).
Notation "m ;;; k" := (bind m (fun _ => k))
  (at level 100, right associativity).
End MonadNotation.
Import MonadNotation.

Definition BASE_URL : string := "https://fantasy.premierleague.com/api".

(** [__init__]. *)
Definition init (cache_duration : Q) : t :=
  {| cache := ∅; cache_duration := cache_duration;
     last_request_time := 0; min_request_interval := 1 |}.

Definition Qltb (a b : Q) : bool :=
  match (a ?= b)%Q with
  | Lt => true
  | _ => false
  end.

(** Primitive effects. *)
Definition time_time : M Q := fun '(c, w) => (Ok (clock w), (c, w)).

Definition time_sleep (d : Q) : M unit := fun '(c, w) =>
  (Ok tt, (c, {| clock := (clock w + d)%Q; requests := requests w;
                 respond := respond w; latency := latency w |})).

Definition self : M t := fun '(c, w) => (Ok c, (c, w)).

Definition set_last_request_time (x : Q) : M unit := fun '(c, w) =>
  (Ok tt, ({| cache := cache c; cache_duration := cache_duration c;
              last_request_time := x;
              min_request_interval := min_request_interval c |}, w)).

Definition set_cache_field (m : gmap string (Payload.t * Q)) : M unit :=
  fun '(c, w) =>
  (Ok tt, ({| cache := m; cache_duration := cache_duration c;
              last_request_time := last_request_time c;
              min_request_interval := min_request_interval c |}, w)).

(** [self.session.get(url, timeout=10)], [raise_for_status()] and
    [response.json()]: one request goes out, time passes, and the
    payload or a failure comes back. *)
Definition session_get (url : string) : M (option Payload.t) := fun '(c, w) =>
  let k := length (requests w) in
  (Ok (respond w k url),
   (c, {| clock := (clock w + latency w k)%Q; requests := requests w ++ [url];
          respond := respond w; latency := latency w |})).

Definition _rate_limit : M unit :=
  current_time <- time_time ;;
  c <- self ;;
  let time_since_last := (current_time - last_request_time c)%Q in
  (if Qltb time_since_last (min_request_interval c)
   then time_sleep (min_request_interval c - time_since_last)%Q
   else ret tt) ;;;
  t1 <- time_time ;;
  set_last_request_time t1.

Definition _get_cached (key : string) : M (option Payload.t) :=
  c <- self ;;
  match cache c !! key with
  | Some (data, timestamp) =>
      t1 <- time_time ;;
      if Qltb (t1 - timestamp)%Q (cache_duration c) then ret (Some data)
      else ret None
  | None => ret None
  end.

Definition _set_cache (key : string) (data : Payload.t) : M unit :=
  t1 <- time_time ;;
  c <- self ;;
  set_cache_field (<[key := (data, t1)]> (cache c)).

(** The part of [_make_request] after the cache check. *)
Definition fetch (endpoint : string) (use_cache : bool) : M Payload.t :=
  _rate_limit ;;;
  let url := BASE_URL +:+ endpoint in
  response <- session_get url ;;
  match response with
  | Some data =>
      (if use_cache then _set_cache endpoint data else ret tt) ;;;
      ret data
  | None => raise (RequestFailed endpoint)
  end.

Definition _make_request (endpoint : string) (use_cache : bool) : M Payload.t :=
  if use_cache then
    cached <- _get_cached endpoint ;;
    match cached with
    | Some data => if Payload.truthy data then ret data else fetch endpoint use_cache
    | None => fetch endpoint use_cache
    end
  else fetch endpoint use_cache.

Definition get_bootstrap_static (use_cache : bool) : M Payload.t :=
  _make_request "/bootstrap-static/" use_cache.

Definition get_fixtures (use_cache : bool) : M (list Fixture.t) :=
  p <- _make_request "/fixtures/" use_cache ;;
  lift (Payload.fixtures p).

(** The first element of the list that passes the test: the [for] loops
    that return at the first match. *)
Definition first_match {A} (test : A -> bool) (l : list A) : option A :=
  List.find test l.

Definition get_fixture (fixture_id : Z) (use_cache : bool) : M Fixture.t :=
  fixtures <- get_fixtures use_cache ;;
  match first_match (fun f => Fixture.id f =? fixture_id) fixtures with
  | Some fixture => ret fixture
  | None => raise (ValueError fixture_id)
  end.

Definition decimal (z : Z) : string :=
  NilZero.string_of_int (Z.to_int z).

Definition get_player_summary (player_id : Z) (use_cache : bool) : M Payload.t :=
  _make_request ("/element-summary/" +:+ decimal player_id +:+ "/") use_cache.

(** [use_cache] defaults to [False] here: live data is not cached. *)
Definition get_live_gameweek (gameweek : Z) (use_cache : bool) : M Payload.t :=
  _make_request ("/event/" +:+ decimal gameweek +:+ "/live/") use_cache.

Definition get_current_gameweek : M (option Z) :=
  data <- get_bootstrap_static true ;;
  events <- lift (Payload.events data) ;;
  ret (option_map Event.id (first_match Event.is_current events)).

Definition get_next_gameweek : M (option Z) :=
  data <- get_bootstrap_static true ;;
  events <- lift (Payload.events data) ;;
  ret (option_map Event.id (first_match Event.is_next events)).

Definition get_all_players : M (list Element.t) :=
  data <- get_bootstrap_static true ;;
  lift (Payload.elements data).

Definition get_all_teams : M (list Team.t) :=
  data <- get_bootstrap_static true ;;
  lift (Payload.teams data).

Definition get_player_by_id (player_id : Z) : M (option Element.t) :=
  players <- get_all_players ;;
  ret (first_match (fun player => Element.id player =? player_id) players).

Definition get_team_by_id (team_id : Z) : M (option Team.t) :=
  teams <- get_all_teams ;;
  ret (first_match (fun team => Team.id team =? team_id) teams).

Definition clear_cache : M unit := set_cache_field ∅.

(** The time at which [_rate_limit] lets a request go: now, or when
    [min_request_interval] has passed since the last stamp. *)
Definition send_time (c : t) (w : World) : Q :=
  if Qltb (clock w - last_request_time c) (min_request_interval c)
  then (clock w + (min_request_interval c - (clock w - last_request_time c)))%Q
  else clock w.

(** The client and the world a call leaves behind. *)
Definition client_after {A} (r : result A * (t * World)) : t := fst (snd r).
Definition world_after {A} (r : result A * (t * World)) : World := snd (snd r).

End FPLClient.

(** ** Sorting a frame by one column *)

Module Frame.

(** [DataFrame.sort_values(col, ascending=False)] and
    [DataFrame.sort_values(col)], the column being read by [key].  Rows
    with equal keys keep some order; no statement below depends on
    which. *)
Definition by_desc {A} (key : A -> num) : relation A :=
  fun a b => Is_true (desc_b (key a) (key b)).

Definition by_asc {A} (key : A -> num) : relation A :=
  fun a b => Is_true (asc_b (key a) (key b)).

#[export] Instance by_desc_dec {A} (key : A -> num) a b :
  Decision (by_desc key a b) := _.
#[export] Instance by_asc_dec {A} (key : A -> num) a b :
  Decision (by_asc key a b) := _.

Definition sort_desc {A} (key : A -> num) (df : list A) : list A :=
  merge_sort (by_desc key) df.

Definition sort_asc {A} (key : A -> num) (df : list A) : list A :=
  merge_sort (by_asc key) df.

(** An integer column with missing values, as the float column pandas
    makes of it. *)
Definition of_event (e : option Z) : num :=
  match e with
  | Some z => Fin (inject_Z z)
  | None => NaN
  end.

(** [column == gw] on that column: a missing value equals nothing, not
    even another missing value. *)
Definition event_eqb (e gw : option Z) : bool :=
  match e, gw with
  | Some a, Some b => a =? b
  | _, _ => false
  end.

End Frame.

(** ** The player table and its scoring functions
       ([src/analysis/player_analyzer.py]) *)

Module PlayerAnalyzer.

(** A row of [players_df]: the element and the columns [_load_data]
    adds. *)
Record PlayerRow : Type := {
  element : Element.t;
  team_name : option string;
  position : option string;
  value : Q;
  points_per_million : num
}.

Record t : Type := {
  players_df : list PlayerRow;
  teams_df : list Team.t
}.

(** [dict(zip(teams_df['id'], teams_df['name']))]: a later team with the
    same id replaces an earlier one. *)
Definition team_map (teams : list Team.t) : gmap Z string :=
  foldl (fun m team => <[Team.id team := Team.name team]> m) ∅ teams.

Definition positions : gmap Z string :=
  <[1 := "GKP"]> (<[2 := "DEF"]> (<[3 := "MID"]> (<[4 := "FWD"]> ∅))).

(** One row of the player table.  [points_per_million] is the quotient
    rounded with [round2]; the code's value can be the other rounding of
    a quotient on a half cent (175 points at a price of 11.2 give 15.625:
    15.62 here, 15.63 in the code). *)
Definition player_row (teams : list Team.t) (e : Element.t) : PlayerRow :=
  let value := Qred (inject_Z (Element.now_cost e) / 10) in
  {| element := e;
     team_name := team_map teams !! Element.team e;
     position := positions !! Element.element_type e;
     value := value;
     points_per_million :=
       xround2 (xdiv (inject_Z (Element.total_points e)) value) |}.

(** The frames [_load_data] builds from the payload. *)
Definition frames (elements : list Element.t) (teams : list Team.t) : t :=
  {| players_df := map (player_row teams) elements; teams_df := teams |}.

Import FPLClient.MonadNotation.

(** A frame made of an empty list has no columns: reading the [id]
    column of the teams, or the [team] column of the players, is then a
    [KeyError]. *)
Definition _load_data : FPLClient.M t :=
  data <- FPLClient.get_bootstrap_static true ;;
  elements <- FPLClient.lift (Payload.elements data) ;;
  teams <- FPLClient.lift (Payload.teams data) ;;
  match teams, elements with
  | [], _ => FPLClient.raise (KeyError "id")
  | _, [] => FPLClient.raise (KeyError "team")
  | _, _ => FPLClient.ret (frames elements teams)
  end.

(** Column readers and masks. *)
Definition status (r : PlayerRow) : string := Element.status (element r).
Definition total_points (r : PlayerRow) : Z := Element.total_points (element r).
Definition form (r : PlayerRow) : Q := Element.form (element r).
Definition ownership (r : PlayerRow) : Q := Element.selected_by_percent (element r).
Definition team (r : PlayerRow) : Z := Element.team (element r).

Definition is_available (r : PlayerRow) : bool := (status r =? "a")%string.

(** [df['position'] == position.upper()] *)
Definition position_is (pos : string) (r : PlayerRow) : bool :=
  bool_decide (position r = Some (Py.upper pos)).

(** [df['value'] <= max_price] *)
Definition within_price (max_price : Q) (r : PlayerRow) : bool :=
  Qle_bool (value r) max_price.

(** The two optional filters at the head of the scoring functions:
    [if position: ...] and [if max_price: ...]. *)
Definition filter_position (pos : option string) (df : list PlayerRow) :=
  match pos with
  | Some p => if Py.truthy_str pos then List.filter (position_is p) df else df
  | None => df
  end.

Definition filter_price (max_price : option Q) (df : list PlayerRow) :=
  match max_price with
  | Some m => if Py.truthy_float max_price then List.filter (within_price m) df else df
  | None => df
  end.

(** *** get_top_form_players *)

Record FormRow : Type := {
  f_web_name : string;
  f_team_name : option string;
  f_position : option string;
  f_value : Q;
  f_form : Q;
  f_total_points : Z;
  f_points_per_game : Q;
  f_selected_by_percent : Q;
  f_points_per_million : num
}.

Definition form_columns (r : PlayerRow) : FormRow :=
  {| f_web_name := Element.web_name (element r);
     f_team_name := team_name r;
     f_position := position r;
     f_value := value r;
     f_form := form r;
     f_total_points := total_points r;
     f_points_per_game := Element.points_per_game (element r);
     f_selected_by_percent := ownership r;
     f_points_per_million := points_per_million r |}.

Definition get_top_form_players (self : t) (n : Z) (pos : option string)
  : list FormRow :=
  let df := players_df self in
  let df := filter_position pos df in
  let df := List.filter is_available df in
  let df := Frame.sort_desc (fun r => Fin (form r)) df in
  Py.head n (map form_columns df).

(** *** get_best_value_players *)

Record ValueRow : Type := {
  v_web_name : string;
  v_team_name : option string;
  v_position : option string;
  v_value : Q;
  v_total_points : Z;
  v_points_per_million : num;
  v_form : Q;
  v_selected_by_percent : Q
}.

Definition value_columns (r : PlayerRow) : ValueRow :=
  {| v_web_name := Element.web_name (element r);
     v_team_name := team_name r;
     v_position := position r;
     v_value := value r;
     v_total_points := total_points r;
     v_points_per_million := points_per_million r;
     v_form := form r;
     v_selected_by_percent := ownership r |}.

Definition get_best_value_players (self : t) (n : Z) (pos : option string)
    (max_price : option Q) : list ValueRow :=
  let df := players_df self in
  let df := filter_position pos df in
  let df := filter_price max_price df in
  let df := List.filter (fun r => is_available r && (0 <? total_points r))%bool df in
  let df := Frame.sort_desc points_per_million df in
  Py.head n (map value_columns df).

(** *** get_differential_picks *)

Record DiffRow : Type := {
  d_web_name : string;
  d_team_name : option string;
  d_position : option string;
  d_value : Q;
  d_total_points : Z;
  d_form : Q;
  d_selected_by_percent : Q;
  d_diff_score : num;
  d_points_per_million : num
}.

(** [(points_per_million * form).round(2)], the product being exact
    here: on a half cent the code can give the other rounding. *)
Definition diff_score (r : PlayerRow) : num :=
  xround2 (xmul (points_per_million r) (Fin (form r))).

Definition diff_columns (r : PlayerRow) : DiffRow :=
  {| d_web_name := Element.web_name (element r);
     d_team_name := team_name r;
     d_position := position r;
     d_value := value r;
     d_total_points := total_points r;
     d_form := form r;
     d_selected_by_percent := ownership r;
     d_diff_score := diff_score r;
     d_points_per_million := points_per_million r |}.

Definition get_differential_picks (self : t) (n : Z) (max_ownership : Q)
    (min_points : Z) : list DiffRow :=
  let df := players_df self in
  let df := List.filter (fun r => is_available r
                                  && Qle_bool (ownership r) max_ownership
                                  && (min_points <=? total_points r))%bool df in
  let df := Frame.sort_desc diff_score df in
  Py.head n (map diff_columns df).

End PlayerAnalyzer.

(** ** The fixture table and its scoring functions
       ([src/analysis/fixture_analyzer.py]) *)

Module FixtureAnalyzer.

(** A row of [fixtures_df]: the fixture and the four name columns
    [_load_data] adds; a team id that is not in the team table gives a
    missing name. *)
Record FixtureRow : Type := {
  fixture : Fixture.t;
  home_team_name : option string;
  away_team_name : option string;
  home_short : option string;
  away_short : option string
}.

Record t : Type := {
  fixtures_df : list FixtureRow;
  teams_df : list Team.t
}.

Definition team_map (teams : list Team.t) : gmap Z string :=
  foldl (fun m team => <[Team.id team := Team.name team]> m) ∅ teams.

Definition short_map (teams : list Team.t) : gmap Z string :=
  foldl (fun m team => <[Team.id team := Team.short_name team]> m) ∅ teams.

Definition fixture_row (teams : list Team.t) (f : Fixture.t) : FixtureRow :=
  {| fixture := f;
     home_team_name := team_map teams !! Fixture.team_h f;
     away_team_name := team_map teams !! Fixture.team_a f;
     home_short := short_map teams !! Fixture.team_h f;
     away_short := short_map teams !! Fixture.team_a f |}.

Definition frames (fixtures : list Fixture.t) (teams : list Team.t) : t :=
  {| fixtures_df := map (fixture_row teams) fixtures; teams_df := teams |}.

Import FPLClient.MonadNotation.

(** As for the players: an empty team or fixture list gives a frame
    without the column that is read. *)
Definition _load_data : FPLClient.M t :=
  fixtures <- FPLClient.get_fixtures true ;;
  data <- FPLClient.get_bootstrap_static true ;;
  teams <- FPLClient.lift (Payload.teams data) ;;
  match teams, fixtures with
  | [], _ => FPLClient.raise (KeyError "id")
  | _, [] => FPLClient.raise (KeyError "team_h")
  | _, _ => FPLClient.ret (frames fixtures teams)
  end.

Definition event (r : FixtureRow) : option Z := Fixture.event (fixture r).
Definition finished (r : FixtureRow) : bool := Fixture.finished (fixture r).
Definition team_h (r : FixtureRow) : Z := Fixture.team_h (fixture r).
Definition team_a (r : FixtureRow) : Z := Fixture.team_a (fixture r).

(** *** get_upcoming_fixtures *)

(** The five columns [get_upcoming_fixtures] returns; the team ids are
    not among them. *)
Record UpcomingRow : Type := {
  u_event : option Z;
  u_home_short : option string;
  u_away_short : option string;
  u_team_h_difficulty : Z;
  u_team_a_difficulty : Z
}.

Definition upcoming_columns (r : FixtureRow) : UpcomingRow :=
  {| u_event := event r;
     u_home_short := home_short r;
     u_away_short := away_short r;
     u_team_h_difficulty := Fixture.team_h_difficulty (fixture r);
     u_team_a_difficulty := Fixture.team_a_difficulty (fixture r) |}.

(** [row.get(column, default)] for an integer column of such a row: a
    column the row does not have gives the default. *)
Definition get_int (row : UpcomingRow) (column : string) (default : Z) : Z :=
  if (column =? "team_h_difficulty")%string then u_team_h_difficulty row
  else if (column =? "team_a_difficulty")%string then u_team_a_difficulty row
  else match u_event row with
       | Some gw => if (column =? "event")%string then gw else default
       | None => default
       end.

(** The mask of the rows in which the team plays, by name. *)
Definition plays (team_name : string) (r : FixtureRow) : bool :=
  (Py.str_contains_nocase (home_team_name r) team_name
   || Py.str_contains_nocase (away_team_name r) team_name)%bool.

Definition get_upcoming_fixtures (self : t) (team_name : string) (n : Z)
  : list UpcomingRow :=
  let df := fixtures_df self in
  let df := List.filter (plays team_name) df in
  let df := List.filter (fun r => negb (finished r)) df in
  let df := Frame.sort_asc (fun r => Frame.of_event (event r)) df in
  Py.head n (map upcoming_columns df).

(** *** get_fixture_difficulty *)

Record FixtureEntry : Type := {
  gameweek : option Z;
  opponent : option string;
  venue : string;
  difficulty : Z
}.

Record Difficulty : Type := {
  team : string;
  avg_difficulty : Q;
  total_difficulty : option Z;     (* no such key in the empty result *)
  fixtures : list FixtureEntry
}.

(** The body of the [for] loop. *)
Definition fixture_entry (team_name : string) (row : UpcomingRow)
  : result FixtureEntry :=
  match u_home_short row with
  | None => Raise AttributeError
  | Some home =>
      if Py.str_in (Py.lower team_name) (Py.lower home) then
        Ok {| gameweek := u_event row; opponent := u_away_short row;
              venue := "H"; difficulty := u_team_h_difficulty row |}
      else
        Ok {| gameweek := u_event row; opponent := u_home_short row;
              venue := "A"; difficulty := u_team_a_difficulty row |}
  end.

Fixpoint traverse {A B} (f : A -> result B) (l : list A) : result (list B) :=
  match l with
  | [] => Ok []
  | a :: l' =>
      match f a with
      | Ok b =>
          match traverse f l' with
          | Ok bs => Ok (b :: bs)
          | Raise e => Raise e
          end
      | Raise e => Raise e
      end
  end.

Definition sum (l : list Z) : Z := fold_right Z.add 0 l.

Definition get_fixture_difficulty (self : t) (team_name : string) (n : Z)
  : result Difficulty :=
  let fixtures := get_upcoming_fixtures self team_name n in
  match fixtures with
  | [] => Ok {| team := team_name; avg_difficulty := 0;
                total_difficulty := None; fixtures := [] |}
  | _ :: _ =>
      match traverse (fixture_entry team_name) fixtures with
      | Raise e => Raise e
      | Ok fixture_list =>
          let difficulties := map difficulty fixture_list in
          Ok {| team := team_name;
                avg_difficulty :=
                  round2 (inject_Z (sum difficulties)
                          / inject_Z (Z.of_nat (length difficulties)));
                total_difficulty := Some (sum difficulties);
                fixtures := fixture_list |}
      end
  end.

(** *** get_double_gameweeks and get_blank_gameweeks *)

Definition unfinished (self : t) : list FixtureRow :=
  List.filter (fun r => negb (finished r)) (fixtures_df self).

(** [len(df[(df['event'] == gw) & (df['team_h'] == team_id)])] and the
    same for the away side. *)
Definition home_count (df : list FixtureRow) (gw : option Z) (team_id : Z) : Z :=
  Z.of_nat (length (List.filter
    (fun r => Frame.event_eqb (event r) gw && (team_h r =? team_id))%bool df)).

Definition away_count (df : list FixtureRow) (gw : option Z) (team_id : Z) : Z :=
  Z.of_nat (length (List.filter
    (fun r => Frame.event_eqb (event r) gw && (team_a r =? team_id))%bool df)).

Definition total (df : list FixtureRow) (gw : option Z) (team_id : Z) : Z :=
  home_count df gw team_id + away_count df gw team_id.

Record DoubleRow : Type := {
  dgw_gameweek : option Z;
  dgw_team : string;
  dgw_fixtures : Z
}.

(** The rows one team adds to [dgw_data]: the inner loop. *)
Definition double_rows (df : list FixtureRow) (team : Team.t) : list DoubleRow :=
  flat_map (fun gw =>
    let total := total df gw (Team.id team) in
    if 1 <? total then
      [{| dgw_gameweek := gw; dgw_team := Team.short_name team;
          dgw_fixtures := total |}]
    else [])
    (Py.unique_opt (map event df)).

Definition get_double_gameweeks (self : t) : list DoubleRow :=
  let df := unfinished self in
  let dgw_data := flat_map (double_rows df) (teams_df self) in
  Frame.sort_asc (fun r => Frame.of_event (dgw_gameweek r)) dgw_data.

Record BlankRow : Type := {
  bgw_gameweek : option Z;
  bgw_team : string
}.

(** [len(df[(df['event'] == gw) & ((df['team_h'] == team_id) |
    (df['team_a'] == team_id))]) > 0] *)
Definition has_fixture (df : list FixtureRow) (gw : option Z) (team_id : Z) : bool :=
  0 <? Z.of_nat (length (List.filter
    (fun r => Frame.event_eqb (event r) gw
              && ((team_h r =? team_id) || (team_a r =? team_id)))%bool df)).

(** The number of rows of [df] in gameweek [gw] in which the team
    plays on either side: the length [has_fixture] tests. *)
Definition fixture_count (df : list FixtureRow) (gw : option Z) (team_id : Z) : nat :=
  length (List.filter
    (fun r => Frame.event_eqb (event r) gw
              && ((team_h r =? team_id) || (team_a r =? team_id)))%bool df).

Definition blank_rows (df : list FixtureRow) (team : Team.t) : list BlankRow :=
  let all_gws := merge_sort (Frame.by_asc Frame.of_event)
                            (Py.unique_opt (map event df)) in
  flat_map (fun gw =>
    if has_fixture df gw (Team.id team) then []
    else [{| bgw_gameweek := gw; bgw_team := Team.short_name team |}])
    all_gws.

Definition get_blank_gameweeks (self : t) : list BlankRow :=
  let df := unfinished self in
  let blank_data := flat_map (blank_rows df) (teams_df self) in
  Frame.sort_asc (fun r => Frame.of_event (bgw_gameweek r)) blank_data.

(** *** get_best_fixtures and get_worst_fixtures *)

Record BestRow : Type := {
  b_team : string;
  b_team_name : string;
  b_avg_difficulty : Q;
  b_fixtures : string
}.

(** [f"{f['opponent']}({f['venue']})"]; a missing opponent prints as
    [nan]. *)
Definition render_fixture (f : FixtureEntry) : string :=
  match opponent f with
  | Some o => o
  | None => "nan"
  end +:+ "(" +:+ venue f +:+ ")".

(** The body of the loop over the teams. *)
Definition best_row (self : t) (n_gameweeks : Z) (team : Team.t) : result BestRow :=
  match get_fixture_difficulty self (Team.name team) n_gameweeks with
  | Raise e => Raise e
  | Ok analysis =>
      Ok {| b_team := Team.short_name team;
            b_team_name := Team.name team;
            b_avg_difficulty := avg_difficulty analysis;
            b_fixtures :=
              String.concat " " (map render_fixture (firstn 5 (fixtures analysis))) |}
  end.

(** A frame made of no rows has no [avg_difficulty] column to sort by. *)
Definition get_best_fixtures (self : t) (n_gameweeks : Z) : result (list BestRow) :=
  match traverse (best_row self n_gameweeks) (teams_df self) with
  | Raise e => Raise e
  | Ok [] => Raise (KeyError "avg_difficulty")
  | Ok results => Ok (Frame.sort_asc (fun r => Fin (b_avg_difficulty r)) results)
  end.

Definition get_worst_fixtures (self : t) (n_gameweeks : Z) : result (list BestRow) :=
  match get_best_fixtures self n_gameweeks with
  | Raise e => Raise e
  | Ok df => Ok (Frame.sort_desc (fun r => Fin (b_avg_difficulty r)) df)
  end.

End FixtureAnalyzer.

(** ** Transfer recommendations ([src/analysis/transfer_advisor.py]) *)

Module TransferAdvisor.

Import PlayerAnalyzer.

Record t : Type := {
  player_analyzer : PlayerAnalyzer.t;
  fixture_analyzer : FixtureAnalyzer.t
}.

(** [teams_df[teams_df['id'] == team_id].iloc[0]] on the player
    analyzer's team table. *)
Definition team_of (self : t) (team_id : Z) : result Team.t :=
  match FPLClient.first_match (fun team => Team.id team =? team_id)
          (PlayerAnalyzer.teams_df (player_analyzer self)) with
  | Some team => Ok team
  | None => Raise IndexError
  end.

(** The loops [for team_id in df['team'].unique(): ...] that fill a
    dict with one entry per team; [entry] is the body, given the team
    row. *)
Fixpoint team_loop {V} (self : t) (entry : Z -> Team.t -> result V)
    (team_ids : list Z) (scores : gmap Z V) : result (gmap Z V) :=
  match team_ids with
  | [] => Ok scores
  | team_id :: rest =>
      match team_of self team_id with
      | Raise e => Raise e
      | Ok team =>
          match entry team_id team with
          | Raise e => Raise e
          | Ok v => team_loop self entry rest (<[team_id := v]> scores)
          end
      end
  end.

(** [df['team'].map(scores)]: a team without entry gives [NaN]. *)
Definition map_score (scores : gmap Z Q) (team_id : Z) : num :=
  match scores !! team_id with
  | Some q => Fin q
  | None => NaN
  end.

(** *** get_transfer_targets *)

Record TargetRow : Type := {
  t_web_name : string;
  t_team_name : option string;
  t_position : option string;
  t_value : Q;
  t_form : Q;
  t_points_per_million : num;
  t_selected_by_percent : Q;
  t_transfer_score : num;
  t_total_points : Z
}.

(** The body of the loop: [5 - avg_difficulty] of the team's next five
    fixtures. *)
Definition fixture_score_entry (self : t) (team_id : Z) (team : Team.t)
  : result Q :=
  match FixtureAnalyzer.get_fixture_difficulty (fixture_analyzer self)
          (Team.name team) 5 with
  | Raise e => Raise e
  | Ok fixture_data => Ok (5 - FixtureAnalyzer.avg_difficulty fixture_data)%Q
  end.

(** [(form_float * 4 + points_per_million * 0.3 + fixture_score *
    3).round(2)], the sum being exact here: on a half cent the code can
    give the other rounding. *)
Definition transfer_score (fixture_score : num) (r : PlayerRow) : num :=
  xround2 (xadd (xadd (xmul (Fin (form r)) (Fin 4))
                      (xmul (points_per_million r) (Fin (3 # 10))))
                (xmul fixture_score (Fin 3))).

Definition target_columns (scores : gmap Z Q) (r : PlayerRow) : TargetRow :=
  {| t_web_name := Element.web_name (element r);
     t_team_name := team_name r;
     t_position := position r;
     t_value := value r;
     t_form := form r;
     t_points_per_million := points_per_million r;
     t_selected_by_percent := ownership r;
     t_transfer_score := transfer_score (map_score scores (team r)) r;
     t_total_points := total_points r |}.

Definition get_transfer_targets (self : t) (pos : option string)
    (max_price : option Q) (n : Z) : result (list TargetRow) :=
  let df := players_df (player_analyzer self) in
  let df := filter_position pos df in
  let df := filter_price max_price df in
  let df := List.filter (fun r => is_available r && (20 <? total_points r))%bool df in
  match team_loop self (fixture_score_entry self) (Py.unique (map team df)) ∅ with
  | Raise e => Raise e
  | Ok fixture_scores =>
      let df := map (target_columns fixture_scores) df in
      let df := Frame.sort_desc t_transfer_score df in
      Ok (Py.head n df)
  end.

(** *** get_transfer_out_candidates *)

Record SellRow : Type := {
  s_web_name : string;
  s_team_name : option string;
  s_position : option string;
  s_value : Q;
  s_form : Q;
  s_status : string;
  s_selected_by_percent : Q;
  s_fixture_difficulty : num;
  s_sell_score : num
}.

Definition difficulty_entry (self : t) (team_id : Z) (team : Team.t)
  : result Q :=
  match FixtureAnalyzer.get_fixture_difficulty (fixture_analyzer self)
          (Team.name team) 5 with
  | Raise e => Raise e
  | Ok fixture_data => Ok (FixtureAnalyzer.avg_difficulty fixture_data)
  end.

(** [((5 - form_float) * 2 + fixture_difficulty * 2 + value *
    0.5).round(2)], then [*= 1.5] for the players who are not available.
    Sum and product are exact here; the code's product is the binary one
    (14.95 x 1.5 is 22.425 here and 22.424999999999997 in the code). *)
Definition sell_score (fixture_difficulty : num) (r : PlayerRow) : num :=
  let score :=
    xround2 (xadd (xadd (xmul (Fin (5 - form r)) (Fin 2))
                        (xmul fixture_difficulty (Fin 2)))
                  (xmul (Fin (value r)) (Fin (1 # 2)))) in
  if is_available r then score else xmul score (Fin (3 # 2)).

Definition sell_columns (scores : gmap Z Q) (r : PlayerRow) : SellRow :=
  {| s_web_name := Element.web_name (element r);
     s_team_name := team_name r;
     s_position := position r;
     s_value := value r;
     s_form := form r;
     s_status := status r;
     s_selected_by_percent := ownership r;
     s_fixture_difficulty := map_score scores (team r);
     s_sell_score := sell_score (map_score scores (team r)) r |}.

Definition get_transfer_out_candidates (self : t) (n : Z)
  : result (list SellRow) :=
  let df := players_df (player_analyzer self) in
  let df := List.filter (fun r => FPLClient.Qltb 10 (ownership r)) df in
  match team_loop self (difficulty_entry self) (Py.unique (map team df)) ∅ with
  | Raise e => Raise e
  | Ok fixture_scores =>
      let df := map (sell_columns fixture_scores) df in
      let df := Frame.sort_desc s_sell_score df in
      Ok (Py.head n df)
  end.

(** *** get_captaincy_picks *)

(** One value of the [fixture_scores] dict. *)
Record NextFixture : Type := {
  nf_difficulty : Z;
  nf_opponent : option string;
  nf_score : Z
}.

Record CaptainRow : Type := {
  c_web_name : string;
  c_team_name : option string;
  c_position : option string;
  c_opponent : option string;
  c_form : Q;
  c_points_per_game : Q;
  c_captain_score : num;
  c_selected_by_percent : Q
}.

(** The body of the loop.  [fixture] is a row of
    [get_upcoming_fixtures]; it has no [team_h] column, so
    [fixture.get('team_h', 0)] reads the default. *)
Definition next_fixture_entry (self : t) (team_id : Z) (team : Team.t)
  : result NextFixture :=
  let fixtures :=
    FixtureAnalyzer.get_upcoming_fixtures (fixture_analyzer self)
      (Team.name team) 1 in
  match fixtures with
  | fixture :: _ =>
      if team_id =? FixtureAnalyzer.get_int fixture "team_h" 0 then
        let difficulty := FixtureAnalyzer.u_team_h_difficulty fixture in
        Ok {| nf_difficulty := difficulty;
              nf_opponent := FixtureAnalyzer.u_away_short fixture;
              nf_score := 5 - difficulty |}
      else
        let difficulty := FixtureAnalyzer.u_team_a_difficulty fixture in
        Ok {| nf_difficulty := difficulty;
              nf_opponent := FixtureAnalyzer.u_home_short fixture;
              nf_score := 5 - difficulty |}
  | [] =>
      Ok {| nf_difficulty := 3; nf_opponent := Some "TBD"; nf_score := 2 |}
  end.

(** [fixture_scores.get(x, {}).get('score', 2)] and
    [fixture_scores.get(x, {}).get('opponent', 'TBD')] *)
Definition score_of (scores : gmap Z NextFixture) (team_id : Z) : Z :=
  match scores !! team_id with
  | Some nf => nf_score nf
  | None => 2
  end.

Definition opponent_of (scores : gmap Z NextFixture) (team_id : Z)
  : option string :=
  match scores !! team_id with
  | Some nf => nf_opponent nf
  | None => Some "TBD"
  end.

Definition captain_score (fixture_score : Z) (r : PlayerRow) : num :=
  xround2 (xadd (xadd (xmul (Fin (form r)) (Fin 5))
                      (xmul (Fin (inject_Z fixture_score)) (Fin 4)))
                (Fin (Element.points_per_game (element r)))).

Definition captain_columns (scores : gmap Z NextFixture) (r : PlayerRow)
  : CaptainRow :=
  {| c_web_name := Element.web_name (element r);
     c_team_name := team_name r;
     c_position := position r;
     c_opponent := opponent_of scores (team r);
     c_form := form r;
     c_points_per_game := Element.points_per_game (element r);
     c_captain_score := captain_score (score_of scores (team r)) r;
     c_selected_by_percent := ownership r |}.

Definition get_captaincy_picks (self : t) (n : Z) : result (list CaptainRow) :=
  let df := players_df (player_analyzer self) in
  let df := List.filter (fun r => is_available r
                                  && FPLClient.Qltb 15 (ownership r))%bool df in
  match team_loop self (next_fixture_entry self) (Py.unique (map team df)) ∅ with
  | Raise e => Raise e
  | Ok fixture_scores =>
      let df := map (captain_columns fixture_scores) df in
      let df := Frame.sort_desc c_captain_score df in
      Ok (Py.head n df)
  end.

(** *** __init__ *)

(** The two analyzers are built one after the other on the client of the
    advisor. *)
Definition init : FPLClient.M t :=
  FPLClient.bind PlayerAnalyzer._load_data (fun player_analyzer =>
  FPLClient.bind FixtureAnalyzer._load_data (fun fixture_analyzer =>
  FPLClient.ret {| player_analyzer := player_analyzer;
                   fixture_analyzer := fixture_analyzer |})).

(** *** get_budget_options and get_premium_options *)

Definition get_budget_options (self : t) (pos : string) (max_price : Q) (n : Z)
  : result (list TargetRow) :=
  get_transfer_targets self (Some pos) (Some max_price) n.

Record PremiumRow : Type := {
  p_web_name : string;
  p_team_name : option string;
  p_value : Q;
  p_form : Q;
  p_total_points : Z;
  p_points_per_game : Q;
  p_selected_by_percent : Q
}.

Definition premium_columns (r : PlayerRow) : PremiumRow :=
  {| p_web_name := Element.web_name (element r);
     p_team_name := team_name r;
     p_value := value r;
     p_form := form r;
     p_total_points := total_points r;
     p_points_per_game := Element.points_per_game (element r);
     p_selected_by_percent := ownership r |}.

(** [sort_values(['form_float', 'total_points'], ascending=False)]: by
    form, and by points among rows of equal form, both descending. *)
Definition form_then_points_b (a b : PlayerRow) : bool :=
  match (form a ?= form b)%Q with
  | Gt => true
  | Eq => total_points b <=? total_points a
  | Lt => false
  end.

Definition by_form_then_points : relation PlayerRow :=
  fun a b => Is_true (form_then_points_b a b).

#[export] Instance by_form_then_points_dec a b :
  Decision (by_form_then_points a b) := _.

Definition get_premium_options (self : t) (pos : string) (min_price : Q) (n : Z)
  : list PremiumRow :=
  let df := players_df (player_analyzer self) in
  let df := List.filter (fun r => position_is pos r
                                  && Qle_bool min_price (value r)
                                  && is_available r)%bool df in
  let df := merge_sort by_form_then_points df in
  Py.head n (map premium_columns df).

(** *** analyze_chip_strategy *)

(** [Series.mean()] of a column that is not empty. *)
Definition mean (l : list Q) : Q :=
  (fold_right Qplus 0 l / inject_Z (Z.of_nat (length l)))%Q.

Definition _assess_wildcard (self : t) : result string :=
  match FixtureAnalyzer.get_best_fixtures (fixture_analyzer self) 5 with
  | Raise e => Raise e
  | Ok fixture_df =>
      let avg_difficulty := mean (map FixtureAnalyzer.b_avg_difficulty fixture_df) in
      if FPLClient.Qltb (35 # 10) avg_difficulty then
        Ok "Consider Wildcard - Many teams have tough fixtures"
      else if FPLClient.Qltb avg_difficulty (25 # 10) then
        Ok "Good time for Wildcard - Many teams have easy fixtures"
      else
        Ok "Neutral - No strong signal for Wildcard"
  end.

Record ChipStrategy : Type := {
  current_gameweek : option Z;
  wildcard_recommendation : string;
  bench_boost_gameweeks : list (option Z);
  triple_captain_gameweeks : list (option Z);
  free_hit_gameweeks : list (option Z);
  best_fixture_teams : list string
}.

(** What [analyze_chip_strategy] makes of the tables once the client has
    given the current gameweek. *)
Definition chip_recommendations (self : t) (current_gw : option Z)
  : result ChipStrategy :=
  let dgw := FixtureAnalyzer.get_double_gameweeks (fixture_analyzer self) in
  let bgw := FixtureAnalyzer.get_blank_gameweeks (fixture_analyzer self) in
  match FixtureAnalyzer.get_best_fixtures (fixture_analyzer self) 5 with
  | Raise e => Raise e
  | Ok fixtures =>
      match _assess_wildcard self with
      | Raise e => Raise e
      | Ok wildcard =>
          Ok {| current_gameweek := current_gw;
                wildcard_recommendation := wildcard;
                bench_boost_gameweeks :=
                  Py.unique_opt (map FixtureAnalyzer.dgw_gameweek dgw);
                triple_captain_gameweeks :=
                  Py.unique_opt (map FixtureAnalyzer.dgw_gameweek dgw);
                free_hit_gameweeks :=
                  Py.unique_opt (map FixtureAnalyzer.bgw_gameweek bgw);
                best_fixture_teams :=
                  map FixtureAnalyzer.b_team (Py.head 3 fixtures) |}
      end
  end.

(** The one scoring function that asks the client: the current gameweek
    is fetched (from the cache or the network) at every call. *)
Definition analyze_chip_strategy (self : t) : FPLClient.M ChipStrategy :=
  FPLClient.bind FPLClient.get_current_gameweek (fun current_gw =>
  FPLClient.lift (chip_recommendations self current_gw)).

End TransferAdvisor.

(** ** The gameweek counts, in the words of the specification *)

Module GameweekSpec.

Import FixtureAnalyzer.

(** The sides [team_id] takes in a fixture: one for a team that plays
    in it, none for any other team. *)
Definition sides (team_id : Z) (r : FixtureRow) : Z :=
  (if team_h r =? team_id then 1 else 0) + (if team_a r =? team_id then 1 else 0).

(** The fixtures that count for gameweek [g]: those of gameweek [g] that
    are not finished. *)
Definition upcoming_in (g : Z) (r : FixtureRow) : bool :=
  negb (finished r) && bool_decide (event r = Some g).

(** The fixture count of a team in gameweek [g], over the whole fixture
    table. *)
Fixpoint fixture_count (table : list FixtureRow) (g : Z) (team_id : Z) : Z :=
  match table with
  | [] => 0
  | r :: table' =>
      (if upcoming_in g r then sides team_id r else 0)
      + fixture_count table' g team_id
  end.


End GameweekSpec.

(** ** Frames as objects of a store *)

(** The scoring methods work on DataFrame objects: they copy or filter a
    table of the analyzer, assign columns to the frame they hold, sort
    and return it.  Here the frames live in a store and the methods are
    written statement by statement, so that which object an assignment
    changes can be read off.  The modules above give the same methods as
    functions of the rows of the tables; [StoreFacts] relates the two.

    The frame a variable of a method holds ([df]) is an object of the
    store, and so are the tables of the analyzers.  [df.copy()], [df[mask]]
    and [df.sort_values(...)] make a new object; [df[column] = ...] and
    [df.loc[mask, column] *= ...] change the object [df] refers to.  The
    analyzers and the advisor are objects of the store as well: [self] is
    a reference, and [self.players_df] reads the reference the attribute
    holds.  What is made at the end and only handed back
    ([df[columns].head(n).reset_index(drop=True)], a frame built from a
    Python list) is given by its rows.  The client, whose state is the
    subject of [FPLClient], is not an object here. *)

Module Pandas.

(** A cell of a column that a method adds to a player frame. *)
Inductive cell : Type :=
| CNum (x : num)
| CStr (s : option string).

(** A row of a player frame: the row of the player table, and the
    columns assigned to the frame since, the latest first. *)
Record Row : Type := {
  base : PlayerAnalyzer.PlayerRow;
  added : list (string * cell)
}.

Definition of_player (r : PlayerAnalyzer.PlayerRow) : Row :=
  {| base := r; added := [] |}.

Fixpoint lookup_col (column : string) (cols : list (string * cell)) : option cell :=
  match cols with
  | [] => None
  | (name, c) :: cols' =>
      if (name =? column)%string then Some c else lookup_col column cols'
  end.

(** [row[column]] for an added column.  The methods read a column after
    it has been assigned; a column that is not there reads as [NaN] or as
    a missing text here. *)
Definition num_col (column : string) (row : Row) : num :=
  match lookup_col column (added row) with
  | Some (CNum x) => x
  | _ => NaN
  end.

Definition str_col (column : string) (row : Row) : option string :=
  match lookup_col column (added row) with
  | Some (CStr s) => s
  | _ => None
  end.

Definition set_col (column : string) (c : cell) (row : Row) : Row :=
  {| base := base row; added := (column, c) :: added row |}.

(** An object: a DataFrame, by the kind of its rows, or an instance of
    one of the three classes, by the references its attributes hold. *)
Inductive obj : Type :=
| Players (rows : list Row)
| Fixtures (rows : list FixtureAnalyzer.FixtureRow)
| Teams (rows : list Team.t)
| Instance (attributes : list (string * positive)).

Class Kind (X : Type) : Type := {
  inject : list X -> obj;
  project : obj -> option (list X);
  project_inject : forall rows, project (inject rows) = Some rows
}.

#[export] Instance players_kind : Kind Row := {|
  inject := Players;
  project := fun o => match o with Players rows => Some rows | _ => None end;
  project_inject := fun _ => eq_refl
|}.

#[export] Instance fixtures_kind : Kind FixtureAnalyzer.FixtureRow := {|
  inject := Fixtures;
  project := fun o => match o with Fixtures rows => Some rows | _ => None end;
  project_inject := fun _ => eq_refl
|}.

#[export] Instance teams_kind : Kind Team.t := {|
  inject := Teams;
  project := fun o => match o with Teams rows => Some rows | _ => None end;
  project_inject := fun _ => eq_refl
|}.

(** The store: the objects alive, by reference.  A variable or an
    attribute holds a reference; two of them may hold the same one. *)
Definition ref : Type := positive.
Definition store : Type := gmap positive obj.

(** A piece of a method: it may allocate and change objects, and returns
    or raises. *)
Definition P (A : Type) : Type := store -> result A * store.

Definition ret {A} (a : A) : P A := fun s => (Ok a, s).
Definition raise {A} (e : exn) : P A := fun s => (Raise e, s).
Definition bind {A B} (m : P A) (k : A -> P B) : P B := fun s =>
  match m s with
  | (Ok a, s') => k a s'
  | (Raise e, s') => (Raise e, s')
  end.

Module MonadNotation.
Notation "x <- m ;; k" := (bind m (fun x => k))
  (at level 100, m at next level, right associativity).
Notation "m ;;; k" := (bind m (fun _ => k))
  (at level 100, right associativity).
End MonadNotation.
Import MonadNotation.

(** A new object, at a reference no object has. *)
Definition alloc (o : obj) : P ref := fun s =>
  let r := fresh (dom s) in (Ok r, <[r := o]> s).

(** Reading the object a reference leads to ([AttributeError] stands for
    a reference without an object of the kind asked for, which no method
    below meets). *)
Definition read (r : ref) : P obj := fun s =>
  match s !! r with
  | Some o => (Ok o, s)
  | None => (Raise AttributeError, s)
  end.

Definition rows_of {X} `{Kind X} (r : ref) : P (list X) :=
  o <- read r ;;
  match project o with
  | Some rows => ret rows
  | None => raise AttributeError
  end.

(** Changing an object in place: every variable that holds the
    reference sees the new rows. *)
Definition write (r : ref) (o : obj) : P unit := fun s => (Ok tt, <[r := o]> s).

Fixpoint lookup_attribute (name : string) (attributes : list (string * positive))
  : option positive :=
  match attributes with
  | [] => None
  | (n, r) :: attributes' =>
      if (n =? name)%string then Some r else lookup_attribute name attributes'
  end.

(** [self.name]: the reference the attribute holds. *)
Definition attribute (self : ref) (name : string) : P ref :=
  o <- read self ;;
  match o with
  | Instance attributes =>
      match lookup_attribute name attributes with
      | Some r => ret r
      | None => raise AttributeError
      end
  | _ => raise AttributeError
  end.

(** [self.name = value]: the instance is changed in place.  [_load_data]
    does this; no scoring method does. *)
Definition set_attribute (self : ref) (name : string) (value : ref) : P unit :=
  o <- read self ;;
  match o with
  | Instance attributes => write self (Instance ((name, value) :: attributes))
  | _ => raise AttributeError
  end.

(** [df.copy()]: a new object with the same rows. *)
Definition copy (r : ref) : P ref :=
  o <- read r ;; alloc o.

(** [df[mask]]: a new object with the rows the mask keeps. *)
Definition select {X} `{Kind X} (mask : X -> bool) (r : ref) : P ref :=
  rows <- rows_of r ;; alloc (inject (List.filter mask rows)).

(** [df.sort_values(...)]: a new object with the rows in order. *)
Definition sort_values {X} `{Kind X} (R : relation X)
    `{forall a b, Decision (R a b)} (r : ref) : P ref :=
  rows <- rows_of r ;; alloc (inject (merge_sort R rows)).

(** [df[column] = values], the values computed row by row from the frame
    itself: the object [df] refers to is changed, no new one is made. *)
Definition assign (r : ref) (column : string) (values : Row -> cell) : P unit :=
  rows <- rows_of r ;;
  write r (Players (map (fun row => set_col column (values row) row) rows)).

(** [df.loc[mask, column] *= factor], in place as well. *)
Definition scale_where (r : ref) (mask : Row -> bool) (column : string)
    (factor : Q) : P unit :=
  rows <- rows_of r ;;
  write r (Players (map (fun row =>
    if mask row
    then set_col column (CNum (xmul (num_col column row) (Fin factor))) row
    else row) rows)).

(** A [for] loop that collects one value per item, left at the first
    exception. *)
Fixpoint for_each {A B} (body : A -> P B) (items : list A) : P (list B) :=
  match items with
  | [] => ret []
  | a :: items' =>
      b <- body a ;;
      bs <- for_each body items' ;;
      ret (b :: bs)
  end.

(** [if position: df = df[df['position'] == position.upper()]] and
    [if max_price: df = df[df['value'] <= max_price]]: the variable keeps
    its reference when the filter is skipped. *)
Definition filter_position (position : option string) (df : ref) : P ref :=
  match position with
  | Some p =>
      if Py.truthy_str position
      then select (fun row => PlayerAnalyzer.position_is p (base row)) df
      else ret df
  | None => ret df
  end.

Definition filter_price (max_price : option Q) (df : ref) : P ref :=
  match max_price with
  | Some m =>
      if Py.truthy_float max_price
      then select (fun row => PlayerAnalyzer.within_price m (base row)) df
      else ret df
  | None => ret df
  end.

(** *** What a call does to the store *)

(** The outcome of [m] in the store [s] satisfies [post]. *)
Definition wp {A} (m : P A) (s : store) (post : result A -> store -> Prop) : Prop :=
  post (fst (m s)) (snd (m s)).

(** Since the store was [s0], the object at [r] has been allocated, it
    is now [o], and the objects of [s0] are as they were. *)
Definition own (s0 s : store) (r : ref) (o : obj) : Prop :=
  s0 ⊆ s /\ s0 !! r = None /\ s !! r = Some o.

(** Run in [s], [m] gives [v] and leaves every object of [s] as it was;
    it may have added objects. *)
Definition returns {A} (m : P A) (s : store) (v : result A) : Prop :=
  exists s', m s = (v, s') /\ s ⊆ s'.

(** Called twice in a row from [s], [m] gives [v] both times, and neither
    call changes an object that was there before it. *)
Definition twice_returns {A} (m : P A) (s : store) (v : result A) : Prop :=
  exists s1 s2, m s = (v, s1) /\ m s1 = (v, s2) /\ s ⊆ s1 /\ s1 ⊆ s2.

End Pandas.

(** *** The methods of the player analyzer *)

Module PlayerMethods.

Import PlayerAnalyzer Pandas Pandas.MonadNotation.

(** [self] is a player analyzer whose tables hold the rows of [tables],
    as loaded: no column has been added to the player table. *)
Definition holds (s : store) (self : ref) (tables : PlayerAnalyzer.t) : Prop :=
  exists players teams,
    s !! self = Some (Instance [("players_df", players); ("teams_df", teams)]) /\
    s !! players
      = Some (Players (map of_player (PlayerAnalyzer.players_df tables))) /\
    s !! teams = Some (Teams (PlayerAnalyzer.teams_df tables)).

Definition get_top_form_players (self : ref) (n : Z) (position : option string)
  : P (list FormRow) :=
  players_df <- attribute self "players_df" ;;
  df <- copy players_df ;;
  df <- filter_position position df ;;
  df <- select (fun row : Row => is_available (base row)) df ;;
  assign df "form_float" (fun row => CNum (Fin (form (base row)))) ;;;
  df <- sort_values (Frame.by_desc (num_col "form_float")) df ;;
  rows <- rows_of df ;;
  ret (Py.head n (map (fun row : Row => form_columns (base row)) rows)).

Definition get_best_value_players (self : ref) (n : Z) (position : option string)
    (max_price : option Q) : P (list ValueRow) :=
  players_df <- attribute self "players_df" ;;
  df <- copy players_df ;;
  df <- filter_position position df ;;
  df <- filter_price max_price df ;;
  df <- select (fun row : Row =>
                  is_available (base row) && (0 <? total_points (base row)))%bool df ;;
  df <- sort_values
          (Frame.by_desc (fun row : Row => points_per_million (base row))) df ;;
  rows <- rows_of df ;;
  ret (Py.head n (map (fun row : Row => value_columns (base row)) rows)).

Definition diff_columns (row : Row) : DiffRow :=
  {| d_web_name := Element.web_name (element (base row));
     d_team_name := team_name (base row);
     d_position := position (base row);
     d_value := value (base row);
     d_total_points := total_points (base row);
     d_form := form (base row);
     d_selected_by_percent := ownership (base row);
     d_diff_score := num_col "diff_score" row;
     d_points_per_million := points_per_million (base row) |}.

Definition get_differential_picks (self : ref) (n : Z) (max_ownership : Q)
    (min_points : Z) : P (list DiffRow) :=
  players_df <- attribute self "players_df" ;;
  df <- copy players_df ;;
  df <- select (fun row : Row =>
                  is_available (base row)
                  && Qle_bool (ownership (base row)) max_ownership
                  && (min_points <=? total_points (base row)))%bool df ;;
  assign df "diff_score" (fun row =>
    CNum (xround2 (xmul (points_per_million (base row))
                        (Fin (form (base row)))))) ;;;
  df <- sort_values (Frame.by_desc (num_col "diff_score")) df ;;
  rows <- rows_of df ;;
  ret (Py.head n (map diff_columns rows)).

End PlayerMethods.

(** *** The methods of the fixture analyzer *)

Module FixtureMethods.

Import FixtureAnalyzer Pandas Pandas.MonadNotation.

(** [self] is a fixture analyzer whose tables hold the rows of
    [tables]. *)
Definition holds (s : store) (self : ref) (tables : FixtureAnalyzer.t) : Prop :=
  exists fixtures teams,
    s !! self = Some (Instance [("fixtures_df", fixtures); ("teams_df", teams)]) /\
    s !! fixtures = Some (Fixtures (FixtureAnalyzer.fixtures_df tables)) /\
    s !! teams = Some (Teams (FixtureAnalyzer.teams_df tables)).

Definition get_upcoming_fixtures (self : ref) (team_name : string) (n : Z)
  : P (list UpcomingRow) :=
  fixtures_df <- attribute self "fixtures_df" ;;
  df <- copy fixtures_df ;;
  df <- select (plays team_name) df ;;
  df <- select (fun r : FixtureRow => negb (finished r)) df ;;
  df <- sort_values (Frame.by_asc (fun r : FixtureRow => Frame.of_event (event r))) df ;;
  rows <- rows_of df ;;
  ret (Py.head n (map upcoming_columns rows)).

Definition get_fixture_difficulty (self : ref) (team_name : string) (n : Z)
  : P Difficulty :=
  fixtures <- get_upcoming_fixtures self team_name n ;;
  match fixtures with
  | [] => ret {| team := team_name; avg_difficulty := 0;
                 total_difficulty := None; fixtures := [] |}
  | _ :: _ =>
      match traverse (fixture_entry team_name) fixtures with
      | Raise e => raise e
      | Ok fixture_list =>
          let difficulties := map difficulty fixture_list in
          ret {| team := team_name;
                 avg_difficulty :=
                   round2 (inject_Z (sum difficulties)
                           / inject_Z (Z.of_nat (length difficulties)));
                 total_difficulty := Some (sum difficulties);
                 fixtures := fixture_list |}
      end
  end.

(** [self.fixtures_df[self.fixtures_df['finished'] == False].copy()] *)
Definition unfinished (self : ref) : P ref :=
  fixtures_df <- attribute self "fixtures_df" ;;
  df <- select (fun r : FixtureRow => negb (finished r)) fixtures_df ;;
  copy df.

(** The two frames the method makes by [groupby] and never reads
    ([home_counts], [away_counts]) are left out. *)
Definition get_double_gameweeks (self : ref) : P (list DoubleRow) :=
  df <- unfinished self ;;
  rows <- rows_of df ;;
  teams_df <- attribute self "teams_df" ;;
  teams <- rows_of teams_df ;;
  let dgw_data := flat_map (double_rows rows) teams in
  ret (Frame.sort_asc (fun r => Frame.of_event (dgw_gameweek r)) dgw_data).

Definition get_blank_gameweeks (self : ref) : P (list BlankRow) :=
  df <- unfinished self ;;
  rows <- rows_of df ;;
  teams_df <- attribute self "teams_df" ;;
  teams <- rows_of teams_df ;;
  let blank_data := flat_map (blank_rows rows) teams in
  ret (Frame.sort_asc (fun r => Frame.of_event (bgw_gameweek r)) blank_data).

(** The body of the loop of [get_best_fixtures]. *)
Definition best_row (self : ref) (n_gameweeks : Z) (team : Team.t) : P BestRow :=
  analysis <- get_fixture_difficulty self (Team.name team) n_gameweeks ;;
  ret {| b_team := Team.short_name team;
         b_team_name := Team.name team;
         b_avg_difficulty := avg_difficulty analysis;
         b_fixtures :=
           String.concat " " (map render_fixture (firstn 5 (fixtures analysis))) |}.

Definition get_best_fixtures (self : ref) (n_gameweeks : Z) : P (list BestRow) :=
  teams_df <- attribute self "teams_df" ;;
  teams <- rows_of teams_df ;;
  results <- for_each (best_row self n_gameweeks) teams ;;
  match results with
  | [] => raise (KeyError "avg_difficulty")
  | _ :: _ => ret (Frame.sort_asc (fun r => Fin (b_avg_difficulty r)) results)
  end.

Definition get_worst_fixtures (self : ref) (n_gameweeks : Z) : P (list BestRow) :=
  df <- get_best_fixtures self n_gameweeks ;;
  ret (Frame.sort_desc (fun r => Fin (b_avg_difficulty r)) df).

End FixtureMethods.

(** *** The methods of the transfer advisor *)

Module AdvisorMethods.

Import PlayerAnalyzer TransferAdvisor Pandas Pandas.MonadNotation.

(** [self] is an advisor whose two analyzers hold the tables of
    [tables]. *)
Definition holds (s : store) (self : ref) (tables : TransferAdvisor.t) : Prop :=
  exists players fixtures,
    s !! self = Some (Instance [("player_analyzer", players);
                                ("fixture_analyzer", fixtures)]) /\
    PlayerMethods.holds s players (TransferAdvisor.player_analyzer tables) /\
    FixtureMethods.holds s fixtures (TransferAdvisor.fixture_analyzer tables).

(** [self.player_analyzer.teams_df[teams_df['id'] == team_id].iloc[0]] *)
Definition team_of (self : ref) (team_id : Z) : P Team.t :=
  player_analyzer <- attribute self "player_analyzer" ;;
  teams_df <- attribute player_analyzer "teams_df" ;;
  found <- select (fun team => Team.id team =? team_id) teams_df ;;
  rows <- rows_of found ;;
  match rows with
  | team :: _ => ret team
  | [] => raise IndexError
  end.

(** The loops over [df['team'].unique()] that fill a dict. *)
Fixpoint team_loop {V} (self : ref) (entry : Z -> Team.t -> P V)
    (team_ids : list Z) (scores : gmap Z V) : P (gmap Z V) :=
  match team_ids with
  | [] => ret scores
  | team_id :: rest =>
      team <- team_of self team_id ;;
      v <- entry team_id team ;;
      team_loop self entry rest (<[team_id := v]> scores)
  end.

(** [df['team'].unique()] *)
Definition team_ids (df : ref) : P (list Z) :=
  rows <- rows_of df ;;
  ret (Py.unique (map (fun row : Row => team (base row)) rows)).

Definition fixture_score_entry (self : ref) (team_id : Z) (team : Team.t) : P Q :=
  fixture_analyzer <- attribute self "fixture_analyzer" ;;
  fixture_data <- FixtureMethods.get_fixture_difficulty fixture_analyzer
                    (Team.name team) 5 ;;
  ret (5 - FixtureAnalyzer.avg_difficulty fixture_data)%Q.

Definition target_columns (row : Row) : TargetRow :=
  {| t_web_name := Element.web_name (element (base row));
     t_team_name := team_name (base row);
     t_position := position (base row);
     t_value := value (base row);
     t_form := form (base row);
     t_points_per_million := points_per_million (base row);
     t_selected_by_percent := ownership (base row);
     t_transfer_score := num_col "transfer_score" row;
     t_total_points := total_points (base row) |}.

Definition get_transfer_targets (self : ref) (position : option string)
    (max_price : option Q) (n : Z) : P (list TargetRow) :=
  player_analyzer <- attribute self "player_analyzer" ;;
  players_df <- attribute player_analyzer "players_df" ;;
  df <- copy players_df ;;
  df <- filter_position position df ;;
  df <- filter_price max_price df ;;
  df <- select (fun row : Row =>
                  is_available (base row) && (20 <? total_points (base row)))%bool df ;;
  assign df "form_float" (fun row => CNum (Fin (form (base row)))) ;;;
  assign df "ownership_float" (fun row => CNum (Fin (ownership (base row)))) ;;;
  ids <- team_ids df ;;
  fixture_scores <- team_loop self (fixture_score_entry self) ids ∅ ;;
  assign df "fixture_score" (fun row =>
    CNum (map_score fixture_scores (team (base row)))) ;;;
  assign df "transfer_score" (fun row =>
    CNum (xround2
      (xadd (xadd (xmul (num_col "form_float" row) (Fin 4))
                  (xmul (points_per_million (base row)) (Fin (3 # 10))))
            (xmul (num_col "fixture_score" row) (Fin 3))))) ;;;
  df <- sort_values (Frame.by_desc (num_col "transfer_score")) df ;;
  rows <- rows_of df ;;
  ret (Py.head n (map target_columns rows)).

Definition difficulty_entry (self : ref) (team_id : Z) (team : Team.t) : P Q :=
  fixture_analyzer <- attribute self "fixture_analyzer" ;;
  fixture_data <- FixtureMethods.get_fixture_difficulty fixture_analyzer
                    (Team.name team) 5 ;;
  ret (FixtureAnalyzer.avg_difficulty fixture_data).

Definition sell_columns (row : Row) : SellRow :=
  {| s_web_name := Element.web_name (element (base row));
     s_team_name := team_name (base row);
     s_position := position (base row);
     s_value := value (base row);
     s_form := form (base row);
     s_status := status (base row);
     s_selected_by_percent := ownership (base row);
     s_fixture_difficulty := num_col "fixture_difficulty" row;
     s_sell_score := num_col "sell_score" row |}.

Definition get_transfer_out_candidates (self : ref) (n : Z) : P (list SellRow) :=
  player_analyzer <- attribute self "player_analyzer" ;;
  players_df <- attribute player_analyzer "players_df" ;;
  df <- copy players_df ;;
  df <- select (fun row : Row => FPLClient.Qltb 10 (ownership (base row))) df ;;
  assign df "form_float" (fun row => CNum (Fin (form (base row)))) ;;;
  ids <- team_ids df ;;
  fixture_scores <- team_loop self (difficulty_entry self) ids ∅ ;;
  assign df "fixture_difficulty" (fun row =>
    CNum (map_score fixture_scores (team (base row)))) ;;;
  assign df "sell_score" (fun row =>
    CNum (xround2
      (xadd (xadd (xmul (xsub (Fin 5) (num_col "form_float" row)) (Fin 2))
                  (xmul (num_col "fixture_difficulty" row) (Fin 2)))
            (xmul (Fin (value (base row))) (Fin (1 # 2)))))) ;;;
  scale_where df (fun row => negb (is_available (base row))) "sell_score" (3 # 2) ;;;
  df <- sort_values (Frame.by_desc (num_col "sell_score")) df ;;
  rows <- rows_of df ;;
  ret (Py.head n (map sell_columns rows)).

(** The body of the loop of [get_captaincy_picks]. *)
Definition next_fixture_entry (self : ref) (team_id : Z) (team : Team.t)
  : P NextFixture :=
  fixture_analyzer <- attribute self "fixture_analyzer" ;;
  fixtures <- FixtureMethods.get_upcoming_fixtures fixture_analyzer
                (Team.name team) 1 ;;
  match fixtures with
  | fixture :: _ =>
      if team_id =? FixtureAnalyzer.get_int fixture "team_h" 0 then
        let difficulty := FixtureAnalyzer.u_team_h_difficulty fixture in
        ret {| nf_difficulty := difficulty;
               nf_opponent := FixtureAnalyzer.u_away_short fixture;
               nf_score := 5 - difficulty |}
      else
        let difficulty := FixtureAnalyzer.u_team_a_difficulty fixture in
        ret {| nf_difficulty := difficulty;
               nf_opponent := FixtureAnalyzer.u_home_short fixture;
               nf_score := 5 - difficulty |}
  | [] =>
      ret {| nf_difficulty := 3; nf_opponent := Some "TBD"; nf_score := 2 |}
  end.

Definition captain_columns (row : Row) : CaptainRow :=
  {| c_web_name := Element.web_name (element (base row));
     c_team_name := team_name (base row);
     c_position := position (base row);
     c_opponent := str_col "opponent" row;
     c_form := form (base row);
     c_points_per_game := Element.points_per_game (element (base row));
     c_captain_score := num_col "captain_score" row;
     c_selected_by_percent := ownership (base row) |}.

Definition get_captaincy_picks (self : ref) (n : Z) : P (list CaptainRow) :=
  player_analyzer <- attribute self "player_analyzer" ;;
  players_df <- attribute player_analyzer "players_df" ;;
  df <- copy players_df ;;
  df <- select (fun row : Row =>
                  is_available (base row)
                  && FPLClient.Qltb 15 (ownership (base row)))%bool df ;;
  assign df "form_float" (fun row => CNum (Fin (form (base row)))) ;;;
  ids <- team_ids df ;;
  fixture_scores <- team_loop self (next_fixture_entry self) ids ∅ ;;
  assign df "fixture_score" (fun row =>
    CNum (Fin (inject_Z (score_of fixture_scores (team (base row)))))) ;;;
  assign df "opponent" (fun row =>
    CStr (opponent_of fixture_scores (team (base row)))) ;;;
  assign df "captain_score" (fun row =>
    CNum (xround2
      (xadd (xadd (xmul (num_col "form_float" row) (Fin 5))
                  (xmul (num_col "fixture_score" row) (Fin 4)))
            (Fin (Element.points_per_game (element (base row))))))) ;;;
  df <- sort_values (Frame.by_desc (num_col "captain_score")) df ;;
  rows <- rows_of df ;;
  ret (Py.head n (map captain_columns rows)).

Definition get_premium_options (self : ref) (position : string) (min_price : Q)
    (n : Z) : P (list PremiumRow) :=
  player_analyzer <- attribute self "player_analyzer" ;;
  players_df <- attribute player_analyzer "players_df" ;;
  df <- copy players_df ;;
  df <- select (fun row : Row =>
                  position_is position (base row)
                  && Qle_bool min_price (value (base row))
                  && is_available (base row))%bool df ;;
  assign df "form_float" (fun row => CNum (Fin (form (base row)))) ;;;
  df <- sort_values (fun a b : Row => by_form_then_points (base a) (base b)) df ;;
  rows <- rows_of df ;;
  ret (Py.head n (map (fun row : Row => premium_columns (base row)) rows)).

(** The three [__init__] and the two [_load_data], for the rows they
    get from the client: the four tables, the two analyzers and the
    advisor become objects of the store, each at a reference of its
    own. *)
Definition load (tables : TransferAdvisor.t) : P ref :=
  players <- alloc (Players (map of_player
               (PlayerAnalyzer.players_df (TransferAdvisor.player_analyzer tables)))) ;;
  teams <- alloc (Teams
             (PlayerAnalyzer.teams_df (TransferAdvisor.player_analyzer tables))) ;;
  fixtures <- alloc (Fixtures
                (FixtureAnalyzer.fixtures_df (TransferAdvisor.fixture_analyzer tables))) ;;
  fixture_teams <- alloc (Teams
                     (FixtureAnalyzer.teams_df (TransferAdvisor.fixture_analyzer tables))) ;;
  player_analyzer <- alloc (Instance [("players_df", players);
                                      ("teams_df", teams)]) ;;
  fixture_analyzer <- alloc (Instance [("fixtures_df", fixtures);
                                       ("teams_df", fixture_teams)]) ;;
  alloc (Instance [("player_analyzer", player_analyzer);
                   ("fixture_analyzer", fixture_analyzer)]).

Definition _assess_wildcard (self : ref) : P string :=
  fixture_analyzer <- attribute self "fixture_analyzer" ;;
  fixture_df <- FixtureMethods.get_best_fixtures fixture_analyzer 5 ;;
  let avg_difficulty := mean (map FixtureAnalyzer.b_avg_difficulty fixture_df) in
  if FPLClient.Qltb (35 # 10) avg_difficulty then
    ret "Consider Wildcard - Many teams have tough fixtures"
  else if FPLClient.Qltb avg_difficulty (25 # 10) then
    ret "Good time for Wildcard - Many teams have easy fixtures"
  else
    ret "Neutral - No strong signal for Wildcard".

(** [analyze_chip_strategy] after the client has given the current
    gameweek. *)
Definition chip_recommendations (self : ref) (current_gw : option Z)
  : P ChipStrategy :=
  fixture_analyzer <- attribute self "fixture_analyzer" ;;
  dgw <- FixtureMethods.get_double_gameweeks fixture_analyzer ;;
  fixture_analyzer <- attribute self "fixture_analyzer" ;;
  bgw <- FixtureMethods.get_blank_gameweeks fixture_analyzer ;;
  fixture_analyzer <- attribute self "fixture_analyzer" ;;
  fixtures <- FixtureMethods.get_best_fixtures fixture_analyzer 5 ;;
  wildcard <- _assess_wildcard self ;;
  ret {| current_gameweek := current_gw;
         wildcard_recommendation := wildcard;
         bench_boost_gameweeks :=
           Py.unique_opt (map FixtureAnalyzer.dgw_gameweek dgw);
         triple_captain_gameweeks :=
           Py.unique_opt (map FixtureAnalyzer.dgw_gameweek dgw);
         free_hit_gameweeks :=
           Py.unique_opt (map FixtureAnalyzer.bgw_gameweek bgw);
         best_fixture_teams :=
           map FixtureAnalyzer.b_team (Py.head 3 fixtures) |}.

End AdvisorMethods.

(** ** Sample data for the worked examples *)

Module Sample.

Definition arsenal : Team.t :=
  {| Team.id := 1; Team.name := "Arsenal"; Team.short_name := "ARS" |}.
Definition chelsea : Team.t :=
  {| Team.id := 2; Team.name := "Chelsea"; Team.short_name := "CHE" |}.
Definition spurs : Team.t :=
  {| Team.id := 3; Team.name := "Spurs"; Team.short_name := "TOT" |}.
Definition teams : list Team.t := [arsenal; chelsea; spurs].

(** Gameweek 1: Arsenal at home to Chelsea; gameweek 2: Arsenal away at
    Chelsea.  From Arsenal's side the difficulties are 2 and 4. *)
Definition arsenal_home : Fixture.t :=
  {| Fixture.id := 10; Fixture.event := Some 1;
     Fixture.team_h := 1; Fixture.team_a := 2;
     Fixture.team_h_difficulty := 2; Fixture.team_a_difficulty := 5;
     Fixture.finished := false |}.
Definition arsenal_away : Fixture.t :=
  {| Fixture.id := 11; Fixture.event := Some 2;
     Fixture.team_h := 2; Fixture.team_a := 1;
     Fixture.team_h_difficulty := 3; Fixture.team_a_difficulty := 4;
     Fixture.finished := false |}.

(** Arsenal away at Chelsea only, with away-side difficulty [d]. *)
Definition away_only (d : Z) : Fixture.t :=
  {| Fixture.id := 12; Fixture.event := Some 1;
     Fixture.team_h := 2; Fixture.team_a := 1;
     Fixture.team_h_difficulty := 2; Fixture.team_a_difficulty := d;
     Fixture.finished := false |}.

Definition player (id : Z) (name : string) (team : Z) (cost : Z) (form : Q)
  : Element.t :=
  {| Element.id := id; Element.web_name := name; Element.team := team;
     Element.element_type := 3; Element.now_cost := cost;
     Element.total_points := 60; Element.form := form;
     Element.points_per_game := 6; Element.selected_by_percent := 20;
     Element.status := "a" |}.

Definition saka : Element.t := player 100 "Saka" 1 70 5.
Definition son : Element.t := player 101 "Son" 3 70 5.
Definition free_agent : Element.t := player 103 "Free" 1 0 5.

Definition advisor (elements : list Element.t) (fixtures : list Fixture.t)
  : TransferAdvisor.t :=
  {| TransferAdvisor.player_analyzer := PlayerAnalyzer.frames elements teams;
     TransferAdvisor.fixture_analyzer := FixtureAnalyzer.frames fixtures teams |}.

(** A world in which every request is answered with the same object
    after a tenth of a second. *)
Definition live_payload : Payload.t := Payload.Object [("elements", "[]")].

Definition world (at_time : Q) : FPLClient.World :=
  {| FPLClient.clock := at_time; FPLClient.requests := [];
     FPLClient.respond := fun _ _ => Some live_payload;
     FPLClient.latency := fun _ => 1 # 10 |}.

(** A world that answers the two table endpoints. *)
Definition bootstrap : Payload.t := Payload.Bootstrap [saka; son] teams [].
Definition fixture_list : Payload.t := Payload.Fixtures [arsenal_home; arsenal_away].

Definition table_world (at_time : Q) : FPLClient.World :=
  {| FPLClient.clock := at_time; FPLClient.requests := [];
     FPLClient.respond := fun _ url =>
       if String.eqb url (FPLClient.BASE_URL +:+ "/fixtures/")
       then Some fixture_list else Some bootstrap;
     FPLClient.latency := fun _ => 1 # 10 |}.

(** A world whose fixture list is empty. *)
Definition preseason_world (at_time : Q) : FPLClient.World :=
  {| FPLClient.clock := at_time; FPLClient.requests := [];
     FPLClient.respond := fun _ _ => Some (Payload.Fixtures []);
     FPLClient.latency := fun _ => 1 # 10 |}.

(** A world in which [gw] is the current gameweek. *)
Definition gameweek_world (gw : Z) (at_time : Q) : FPLClient.World :=
  {| FPLClient.clock := at_time; FPLClient.requests := [];
     FPLClient.respond := fun _ _ =>
       Some (Payload.Bootstrap [saka; son] teams
               [{| Event.id := gw; Event.is_current := true;
                   Event.is_next := false |}]);
     FPLClient.latency := fun _ => 1 # 10 |}.

(** A match that has been played. *)
Definition played : Fixture.t :=
  {| Fixture.id := 9; Fixture.event := Some 1;
     Fixture.team_h := 1; Fixture.team_a := 3;
     Fixture.team_h_difficulty := 2; Fixture.team_a_difficulty := 4;
     Fixture.finished := true |}.

(** A world in which every request fails. *)
Definition dead_world (at_time : Q) : FPLClient.World :=
  {| FPLClient.clock := at_time; FPLClient.requests := [];
     FPLClient.respond := fun _ _ => None;
     FPLClient.latency := fun _ => 1 # 10 |}.

End Sample.

(** * Properties *)

(** ** Facts about the frame operations *)

Module FrameFacts.

Import Frame.

Lemma desc_b_total x y : desc_b x y = true \/ desc_b y x = true.
Proof.
  destruct x as [a| | |], y as [b| | |]; simpl; auto.
  destruct (Qlt_le_dec a b) as [H|H].
  - right. apply Qle_bool_iff. now apply Qlt_le_weak.
  - left. now apply Qle_bool_iff.
Qed.

Lemma desc_b_trans x y z :
  desc_b x y = true -> desc_b y z = true -> desc_b x z = true.
Proof.
  destruct x as [a| | |], y as [b| | |], z as [c| | |]; simpl; try congruence.
  rewrite !Qle_bool_iff. intros H1 H2. now apply Qle_trans with b.
Qed.

Lemma asc_b_total x y : asc_b x y = true \/ asc_b y x = true.
Proof.
  destruct x as [a| | |], y as [b| | |]; simpl; auto.
  destruct (Qlt_le_dec a b) as [H|H].
  - left. apply Qle_bool_iff. now apply Qlt_le_weak.
  - right. now apply Qle_bool_iff.
Qed.

Lemma asc_b_trans x y z :
  asc_b x y = true -> asc_b y z = true -> asc_b x z = true.
Proof.
  destruct x as [a| | |], y as [b| | |], z as [c| | |]; simpl; try congruence.
  rewrite !Qle_bool_iff. intros H1 H2. now apply Qle_trans with b.
Qed.

#[export] Instance by_desc_total {A} (key : A -> num) : Total (by_desc key).
Proof.
  intros a b. unfold by_desc.
  destruct (desc_b_total (key a) (key b)) as [H|H]; rewrite H; simpl; auto.
Qed.

#[export] Instance by_desc_trans {A} (key : A -> num) : Transitive (by_desc key).
Proof.
  intros a b c. unfold by_desc. rewrite !Is_true_true. apply desc_b_trans.
Qed.

#[export] Instance by_asc_total {A} (key : A -> num) : Total (by_asc key).
Proof.
  intros a b. unfold by_asc.
  destruct (asc_b_total (key a) (key b)) as [H|H]; rewrite H; simpl; auto.
Qed.

#[export] Instance by_asc_trans {A} (key : A -> num) : Transitive (by_asc key).
Proof.
  intros a b c. unfold by_asc. rewrite !Is_true_true. apply asc_b_trans.
Qed.

Section Sorting.
Context {A : Type} (key : A -> num).

Lemma sort_desc_In (df : list A) x : In x (sort_desc key df) <-> In x df.
Proof.
  unfold sort_desc. split; apply Permutation_in.
  - apply merge_sort_Permutation.
  - symmetry. apply merge_sort_Permutation.
Qed.

Lemma sort_asc_In (df : list A) x : In x (sort_asc key df) <-> In x df.
Proof.
  unfold sort_asc. split; apply Permutation_in.
  - apply merge_sort_Permutation.
  - symmetry. apply merge_sort_Permutation.
Qed.

Lemma sort_desc_sorted (df : list A) :
  StronglySorted (by_desc key) (sort_desc key df).
Proof. apply StronglySorted_merge_sort; apply _. Qed.

Lemma sort_asc_sorted (df : list A) :
  StronglySorted (by_asc key) (sort_asc key df).
Proof. apply StronglySorted_merge_sort; apply _. Qed.
End Sorting.

Lemma head_prefix {A} (n : Z) (l : list A) : exists rest, l = Py.head n l ++ rest.
Proof.
  unfold Py.head. destruct (0 <=? n).
  - exists (skipn (Z.to_nat n) l). symmetry. apply firstn_skipn.
  - exists (skipn (length l - Z.to_nat (- n)) l). symmetry. apply firstn_skipn.
Qed.

Lemma head_In {A} (n : Z) (l : list A) x : In x (Py.head n l) -> In x l.
Proof.
  destruct (head_prefix n l) as [rest E]. intros H. rewrite E.
  apply in_or_app. now left.
Qed.

Lemma head_sorted {A} (R : relation A) (n : Z) (l : list A) :
  StronglySorted R l -> StronglySorted R (Py.head n l).
Proof.
  destruct (head_prefix n l) as [rest E]. intros H. rewrite E in H.
  now apply StronglySorted_app_1_l in H.
Qed.

(** The whole frame is returned when [n] is at least its length. *)
Lemma head_all {A} (n : Z) (l : list A) :
  Z.of_nat (length l) <= n -> Py.head n l = l.
Proof.
  intros H. unfold Py.head.
  destruct (0 <=? n) eqn:E; [|apply Z.leb_gt in E; lia].
  apply firstn_all2. lia.
Qed.

Lemma unique_In (l : list Z) x : In x (Py.unique l) <-> In x l.
Proof.
  induction l as [|y l IH]; simpl; [tauto|].
  rewrite filter_In, IH, negb_true_iff, Z.eqb_neq.
  destruct (Z.eq_dec y x); intuition congruence.
Qed.

Lemma unique_opt_In (l : list (option Z)) x : In x (Py.unique_opt l) <-> In x l.
Proof.
  induction l as [|y l IH]; simpl; [tauto|].
  rewrite filter_In, IH, negb_true_iff, bool_decide_eq_false.
  destruct (decide (y = x)); intuition congruence.
Qed.

Lemma NoDup_filter {A} (f : A -> bool) (l : list A) :
  List.NoDup l -> List.NoDup (List.filter f l).
Proof.
  induction 1 as [|x l Hx Hl IH]; simpl; [constructor|].
  destruct (f x); [constructor|]; auto.
  rewrite filter_In. tauto.
Qed.

Lemma unique_opt_NoDup (l : list (option Z)) : List.NoDup (Py.unique_opt l).
Proof.
  induction l as [|y l IH]; simpl; constructor.
  - rewrite filter_In, negb_true_iff, bool_decide_eq_false. tauto.
  - now apply NoDup_filter.
Qed.

End FrameFacts.

(** ** Rounding *)

Module NumFacts.

Lemma round_half_even_lower (z : Z) (q : Q) :
  (inject_Z z <= q)%Q -> z <= round_half_even q.
Proof.
  intros H. unfold round_half_even.
  assert (Hf : z <= Qfloor q).
  { rewrite <- (Qfloor_Z z). now apply Qfloor_resp_le. }
  destruct (q - inject_Z (Qfloor q) ?= 1 # 2)%Q; [destruct (Z.even _)| |]; lia.
Qed.

Lemma round_half_even_upper (z : Z) (q : Q) :
  (q <= inject_Z z)%Q -> round_half_even q <= z.
Proof.
  intros H. unfold round_half_even.
  assert (Hf : Qfloor q <= z).
  { rewrite <- (Qfloor_Z z). now apply Qfloor_resp_le. }
  destruct (Z.eq_dec (Qfloor q) z) as [E|E].
  - assert (Hlt : (q - inject_Z (Qfloor q) < 1 # 2)%Q) by (rewrite E; lra).
    destruct (q - inject_Z (Qfloor q) ?= 1 # 2)%Q eqn:Ec.
    + apply Qeq_alt in Ec. lra.
    + lia.
    + apply Qgt_alt in Ec. lra.
  - destruct (q - inject_Z (Qfloor q) ?= 1 # 2)%Q; [destruct (Z.even _)| |]; lia.
Qed.

(** The nearest integer is at most a half away. *)
Lemma round_half_even_near (q : Q) :
  (q - (1 # 2) <= inject_Z (round_half_even q) <= q + (1 # 2))%Q.
Proof.
  unfold round_half_even.
  pose proof (Qfloor_le q) as Hlo. pose proof (Qlt_floor q) as Hhi.
  rewrite inject_Z_plus in Hhi. change (inject_Z 1) with 1%Q in Hhi.
  destruct (q - inject_Z (Qfloor q) ?= 1 # 2)%Q eqn:E.
  - apply Qeq_alt in E.
    destruct (Z.even _); rewrite ?inject_Z_plus; change (inject_Z 1) with 1%Q; lra.
  - apply Qlt_alt in E. lra.
  - apply Qgt_alt in E. rewrite inject_Z_plus. change (inject_Z 1) with 1%Q. lra.
Qed.

Lemma round2_value (q : Q) :
  (round2 q == inject_Z (round_half_even (q * 100)) / 100)%Q.
Proof. unfold round2. apply Qred_correct. Qed.

(** [round(q, 2)] stays between two integers that bound [q]. *)
Lemma round2_between (lo hi : Z) (q : Q) :
  (inject_Z lo <= q <= inject_Z hi)%Q ->
  (inject_Z lo <= round2 q <= inject_Z hi)%Q.
Proof.
  intros [Hlo Hhi]. rewrite round2_value.
  assert (H1 : lo * 100 <= round_half_even (q * 100)).
  { apply round_half_even_lower. rewrite inject_Z_mult.
    change (inject_Z 100) with 100%Q. lra. }
  assert (H2 : round_half_even (q * 100) <= hi * 100).
  { apply round_half_even_upper. rewrite inject_Z_mult.
    change (inject_Z 100) with 100%Q. lra. }
  rewrite Zle_Qle in H1, H2. rewrite inject_Z_mult in H1, H2.
  change (inject_Z 100) with 100%Q in H1, H2.
  split.
  - apply Qle_shift_div_l; [reflexivity|assumption].
  - apply Qle_shift_div_r; [reflexivity|assumption].
Qed.

(** [round(q, 2)] is at most 0.005 away from [q]. *)
Lemma round2_near (q : Q) :
  (q - (1 # 200) <= round2 q <= q + (1 # 200))%Q.
Proof.
  rewrite round2_value.
  pose proof (round_half_even_near (q * 100)) as [H1 H2].
  split.
  - apply Qle_shift_div_l; [reflexivity|lra].
  - apply Qle_shift_div_r; [reflexivity|lra].
Qed.

(** [round2] gives one of the roundings to two decimals. *)
Lemma round2_rounds_to (q : Q) : rounds_to q (Fin (round2 q)).
Proof.
  exists (round2 q). split; [reflexivity|]. split.
  - exists (round_half_even (q * 100)). apply round2_value.
  - apply round2_near.
Qed.

Lemma rounds_to_proper (q q' : Q) (x : num) :
  (q == q')%Q -> rounds_to q x -> rounds_to q' x.
Proof.
  intros E (s & -> & Hk & Hlo & Hhi). exists s.
  split; [reflexivity|]. split; [exact Hk|]. split; lra.
Qed.

(** A rounding of [q], times a factor [c] that is not negative, is within
    [c] times 0.005 of [c] times [q]. *)
Lemma rounds_to_scaled (q c : Q) (x : num) :
  (0 <= c)%Q -> rounds_to q x ->
  exists s, xmul x (Fin c) = Fin s /\
    (q * c - (1 # 200) * c <= s <= q * c + (1 # 200) * c)%Q.
Proof.
  intros Hc (s & -> & _ & Hlo & Hhi). exists (s * c)%Q.
  split; [reflexivity|]. split; nra.
Qed.

End NumFacts.

(** ** Double and blank gameweeks *)

Module GameweekFacts.

Import Frame FixtureAnalyzer FrameFacts.


(** With two distinct sides in every fixture, [total] is the number of
    the team's fixtures in the gameweek. *)
Lemma total_is_fixture_count df gw team_id :
  (forall r, In r df -> team_h r <> team_a r) ->
  total df gw team_id = Z.of_nat (fixture_count df gw team_id).
Proof.
  unfold total, home_count, away_count, fixture_count.
  induction df as [|r df IH]; simpl; intros Hwf; [reflexivity|].
  assert (Hr : team_h r <> team_a r) by (apply Hwf; now left).
  assert (IH' := IH (fun r' H => Hwf r' (or_intror H))).
  destruct (event_eqb (event r) gw); simpl; [|lia].
  destruct (Z.eqb_spec (team_h r) team_id), (Z.eqb_spec (team_a r) team_id);
    simpl; try lia; congruence.
Qed.

















(** A fixture that has been played counts for neither side: with
    Arsenal v Spurs of gameweek 1 finished and Chelsea v Arsenal of
    gameweek 1 still to play, Spurs have a blank gameweek 1. *)
Example played_fixture_not_counted :
  GameweekSpec.fixture_count
    (fixtures_df (frames [Sample.played; Sample.away_only 3] Sample.teams)) 1 3
  = 0 /\
  get_blank_gameweeks (frames [Sample.played; Sample.away_only 3] Sample.teams)
  = [{| bgw_gameweek := Some 1; bgw_team := "TOT" |}].
Proof. split; vm_compute; reflexivity. Qed.

(** Arsenal and Chelsea meet twice in gameweek 1 and once in gameweek
    2; Spurs do not play: two double gameweeks, both in gameweek 1, and
    two blank ones for Spurs. *)
Example double_blank_sample :
  get_double_gameweeks
    (frames [Sample.arsenal_home; Sample.away_only 3; Sample.arsenal_away]
            Sample.teams)
  = [{| dgw_gameweek := Some 1; dgw_team := "ARS"; dgw_fixtures := 2 |};
     {| dgw_gameweek := Some 1; dgw_team := "CHE"; dgw_fixtures := 2 |}] /\
  get_blank_gameweeks
    (frames [Sample.arsenal_home; Sample.away_only 3; Sample.arsenal_away]
            Sample.teams)
  = [{| bgw_gameweek := Some 1; bgw_team := "TOT" |};
     {| bgw_gameweek := Some 2; bgw_team := "TOT" |}].
Proof. split; vm_compute; reflexivity. Qed.

End GameweekFacts.

(** ** Fixture difficulty of one team *)

Module DifficultyFacts.

Import Frame FixtureAnalyzer FrameFacts.

(** A team none of whose fixtures is unfinished has no upcoming
    fixtures. *)
Lemma no_upcoming_fixtures (self : t) team_name n :
  (forall r, In r (fixtures_df self) -> plays team_name r = true ->
             finished r = true) ->
  get_upcoming_fixtures self team_name n = [].
Proof.
  intros H. unfold get_upcoming_fixtures.
  assert (E : List.filter (fun r => negb (finished r))
                (List.filter (plays team_name) (fixtures_df self)) = []).
  { destruct (List.filter _ (List.filter _ _)) as [|r l] eqn:E; [reflexivity|].
    assert (Hr : In r (r :: l)) by now left.
    rewrite <- E in Hr. apply filter_In in Hr. destruct Hr as [Hr Hf].
    apply filter_In in Hr. destruct Hr as [Hr Hp].
    rewrite (H r Hr Hp) in Hf. discriminate. }
  rewrite E. unfold sort_asc, Py.head.
  assert (S : merge_sort (by_asc (fun r : FixtureRow => of_event (event r))) [] = [])
    by reflexivity.
  rewrite S. simpl. destruct (0 <=? n); rewrite ?firstn_nil; reflexivity.
Qed.

(** Without upcoming fixtures the result is the empty one, with average
    0 and no fixture. *)
Lemma empty_difficulty (self : t) team_name n :
  get_upcoming_fixtures self team_name n = [] ->
  get_fixture_difficulty self team_name n =
    Ok {| team := team_name; avg_difficulty := 0;
          total_difficulty := None; fixtures := [] |}.
Proof. intros H. unfold get_fixture_difficulty. now rewrite H. Qed.

(** The test of the loop: the full name of a sample team is no part of
    its three-letter code, the code is part of the name. *)
Example name_not_in_short_name :
  Py.str_in (Py.lower "Arsenal") (Py.lower "ARS") = false /\
  Py.str_in (Py.lower "ARS") (Py.lower "Arsenal") = true.
Proof. split; reflexivity. Qed.

(** C4, at the failing input.  Arsenal has two upcoming fixtures: at
    home with home-side difficulty 2, away with away-side difficulty 4.
    Called with the team's name, as every caller does, the operation
    takes both fixtures for away fixtures: it reads the away-side
    difficulty 5 of the home fixture and returns the average 4.5, not
    3.0. *)
Theorem home_fixture_read_as_away :
  get_fixture_difficulty
    (frames [Sample.arsenal_home; Sample.arsenal_away] Sample.teams)
    "Arsenal" 5
  = Ok {| team := "Arsenal"; avg_difficulty := 9 # 2;
          total_difficulty := Some 9;
          fixtures :=
            [{| gameweek := Some 1; opponent := Some "ARS"; venue := "A";
                difficulty := 5 |};
             {| gameweek := Some 2; opponent := Some "CHE"; venue := "A";
                difficulty := 4 |}] |}
  /\ ~ (9 # 2 == 3)%Q.
Proof. split; [vm_compute; reflexivity|]. intros H. discriminate H. Qed.

(** Called with the three-letter code, the same fixtures give 3.0. *)
Example difficulty_by_short_name :
  option_map avg_difficulty
    (match get_fixture_difficulty
             (frames [Sample.arsenal_home; Sample.arsenal_away] Sample.teams)
             "ARS" 5 with
     | Ok d => Some d
     | Raise _ => None
     end) = Some 3%Q.
Proof. vm_compute. reflexivity. Qed.

End DifficultyFacts.

(** ** Transfer targets and captaincy picks *)

Module TransferFacts.

Import Frame PlayerAnalyzer TransferAdvisor FrameFacts.

Lemma is_available_status r : is_available r = true <-> status r = "a".
Proof. unfold is_available. apply String.eqb_eq. Qed.

Lemma filter_position_In pos df r :
  In r (filter_position pos df) ->
  In r df /\
  (forall p, pos = Some p -> p <> "" -> position r = Some (Py.upper p)).
Proof.
  unfold filter_position. destruct pos as [p|]; simpl.
  - destruct (String.eqb_spec p ""); simpl.
    + intros H. split; [assumption|]. intros p' [= <-] Hne. contradiction.
    + rewrite filter_In. intros [H Hp]. split; [assumption|].
      intros p' [= <-] _. unfold position_is in Hp.
      now apply bool_decide_eq_true in Hp.
  - intros H. split; [assumption|]. discriminate.
Qed.

Lemma filter_price_In max_price df r :
  In r (filter_price max_price df) ->
  In r df /\
  (forall m, max_price = Some m -> ~ (m == 0)%Q -> (value r <= m)%Q).
Proof.
  unfold filter_price. destruct max_price as [m|]; simpl.
  - destruct (Qeq_bool m 0) eqn:E; simpl.
    + intros H. split; [assumption|]. intros m' [= <-] Hne.
      apply Qeq_bool_iff in E. contradiction.
    + rewrite filter_In. intros [H Hp]. split; [assumption|].
      intros m' [= <-] _. now apply Qle_bool_iff.
  - intros H. split; [assumption|]. discriminate.
Qed.

Section TeamLoop.
Context {V : Type} (self : t) (entry : Z -> Team.t -> result V).

(** The loop leaves the entries of the other teams alone. *)
Lemma team_loop_other team_ids : forall scores scores' team_id,
  team_loop self entry team_ids scores = Ok scores' ->
  ~ In team_id team_ids ->
  scores' !! team_id = scores !! team_id.
Proof.
  induction team_ids as [|x rest IH]; simpl; intros scores scores' team_id H Hn.
  - now inversion H.
  - destruct (team_of self x) as [team|]; [|discriminate].
    destruct (entry x team) as [v|]; [|discriminate].
    rewrite (IH _ _ team_id H) by tauto.
    apply lookup_insert_ne. intros ->. apply Hn. now left.
Qed.

(** When the loop ends, every team of the list has the entry the body
    computes for it. *)
Lemma team_loop_lookup team_ids : forall scores scores' team_id,
  team_loop self entry team_ids scores = Ok scores' ->
  In team_id team_ids ->
  exists team v,
    team_of self team_id = Ok team /\ entry team_id team = Ok v /\
    scores' !! team_id = Some v.
Proof.
  induction team_ids as [|x rest IH]; simpl; intros scores scores' team_id H Hin.
  - destruct Hin.
  - destruct (team_of self x) as [team|] eqn:Et; [|discriminate].
    destruct (entry x team) as [v|] eqn:Ev; [|discriminate].
    destruct (in_dec Z.eq_dec team_id rest) as [Hr|Hr].
    + exact (IH _ _ team_id H Hr).
    + destruct Hin as [->|Hin]; [|contradiction].
      exists team, v. repeat split; try assumption.
      rewrite (team_loop_other _ _ _ _ H Hr). apply lookup_insert_eq.
Qed.
End TeamLoop.




End TransferFacts.

Module CaptaincyFacts.

Import Frame PlayerAnalyzer TransferAdvisor FrameFacts TransferFacts.

Lemma Qltb_lt a b : FPLClient.Qltb a b = true <-> (a < b)%Q.
Proof.
  unfold FPLClient.Qltb. rewrite Qlt_alt.
  destruct (a ?= b)%Q; split; congruence.
Qed.





(** The home side of a fixture is given the away side's difficulty as
    well: Arsenal's next fixture is at home with home-side difficulty 2,
    and the score is computed with the away-side difficulty 5 and the
    team itself as opponent. *)
Example captaincy_home_fixture :
  option_map (map (fun row => (c_opponent row, c_captain_score row)))
    (match get_captaincy_picks
             (Sample.advisor [Sample.saka] [Sample.arsenal_home]) 5 with
     | Ok rows => Some rows
     | Raise _ => None
     end)
  = Some [(Some "ARS", Fin 31)].
Proof. vm_compute. reflexivity. Qed.

End CaptaincyFacts.

(** ** Teams without fixtures among the transfer targets *)

Module NoFixtureFacts.

Import PlayerAnalyzer TransferAdvisor.

(** C3, at the failing input.  Son and Saka have the same figures.
    Son's team has no upcoming fixture: its difficulty is the empty result
    with average 0.  Saka's team has the easiest fixture there is
    (difficulty 1).  The transfer targets take the average 0 for a
    difficulty: Son gets the fixture score 5 - 0 = 5, more than any
    team with fixtures can get, and stands first. *)
Theorem team_without_fixtures_ranked_best :
  FixtureAnalyzer.get_fixture_difficulty
    (fixture_analyzer
       (Sample.advisor [Sample.saka; Sample.son] [Sample.away_only 1]))
    "Spurs" 5
  = Ok {| FixtureAnalyzer.team := "Spurs";
          FixtureAnalyzer.avg_difficulty := 0;
          FixtureAnalyzer.total_difficulty := None;
          FixtureAnalyzer.fixtures := [] |}
  /\ exists arsenal_data son_row saka_row,
       FixtureAnalyzer.get_fixture_difficulty
         (fixture_analyzer
            (Sample.advisor [Sample.saka; Sample.son] [Sample.away_only 1]))
         "Arsenal" 5 = Ok arsenal_data /\
       FixtureAnalyzer.avg_difficulty arsenal_data = 1%Q /\
       get_transfer_targets
         (Sample.advisor [Sample.saka; Sample.son] [Sample.away_only 1])
         None None 10 = Ok [son_row; saka_row] /\
       t_web_name son_row = "Son" /\
       t_transfer_score son_row = Fin (3757 # 100) /\
       t_web_name saka_row = "Saka" /\
       t_transfer_score saka_row = Fin (3457 # 100).
Proof.
  split; [vm_compute; reflexivity|].
  eexists _, _, _.
  split; [vm_compute; reflexivity|].
  split; [reflexivity|].
  split; [vm_compute; reflexivity|].
  repeat split.
Qed.

End NoFixtureFacts.

(** ** The price filter and the value per price *)

Module PriceFacts.

Import Frame PlayerAnalyzer TransferAdvisor FrameFacts TransferFacts.

(** Where the rows of the best-value players come from. *)
Lemma best_value_rows (self : PlayerAnalyzer.t) n pos max_price row :
  In row (get_best_value_players self n pos max_price) ->
  exists r,
    In r (players_df self) /\ row = value_columns r /\
    status r = "a" /\ 0 < total_points r /\
    (forall p, pos = Some p -> p <> "" -> position r = Some (Py.upper p)) /\
    (forall m, max_price = Some m -> ~ (m == 0)%Q -> (value r <= m)%Q).
Proof.
  unfold get_best_value_players. intros H.
  apply head_In, in_map_iff in H. destruct H as (r & <- & Hr).
  apply sort_desc_In, filter_In in Hr. destruct Hr as [Hr Hmask].
  apply andb_true_iff in Hmask. destruct Hmask as [Ha Hp].
  apply filter_price_In in Hr. destruct Hr as [Hr Hprice].
  apply filter_position_In in Hr. destruct Hr as [Hr Hpos].
  exists r. repeat split; try assumption.
  - now apply is_available_status.
  - now apply Z.ltb_lt.
Qed.

(** A maximal price other than zero is kept by every row. *)
Lemma best_value_within_price (self : PlayerAnalyzer.t) n pos m row :
  ~ (m == 0)%Q ->
  In row (get_best_value_players self n pos (Some m)) ->
  (v_value row <= m)%Q.
Proof.
  intros Hm H. apply best_value_rows in H.
  destruct H as (r & _ & -> & _ & _ & _ & Hprice). simpl. now apply Hprice.
Qed.

(** C7, at the failing input.  With the maximal price 0 the filter is
    not applied ([if max_price:] is false for 0): the best-value players
    and the transfer targets return a row of price 7.0. *)
Theorem zero_max_price_not_applied :
  (exists row,
     get_best_value_players (PlayerAnalyzer.frames [Sample.saka] Sample.teams)
       10 None (Some 0%Q) = [row] /\
     v_value row = 7%Q /\ ~ (v_value row <= 0)%Q) /\
  (exists row,
     get_transfer_targets (Sample.advisor [Sample.saka] [Sample.away_only 3])
       None (Some 0%Q) 10 = Ok [row] /\
     t_value row = 7%Q /\ ~ (t_value row <= 0)%Q).
Proof.
  split; eexists; (split; [vm_compute; reflexivity|]);
    (split; [reflexivity|]); intros H; apply Qle_bool_iff in H;
    discriminate H.
Qed.

(** The same call with a maximal price just below the price returns
    nothing. *)
Example max_price_applied :
  get_best_value_players (PlayerAnalyzer.frames [Sample.saka] Sample.teams)
    10 None (Some (69 # 10)) = [].
Proof. vm_compute. reflexivity. Qed.

Lemma player_row_In elements teams e :
  In e elements ->
  In (player_row teams e) (players_df (PlayerAnalyzer.frames elements teams)).
Proof. intros H. simpl. now apply in_map. Qed.

(** The price column is not zero when [now_cost] is not. *)
Lemma value_nonzero (z : Z) : z <> 0 -> ~ (inject_Z z / 10 == 0)%Q.
Proof.
  intros Hz H. apply Hz.
  assert (H' : (inject_Z z == 0)%Q).
  { rewrite <- (Qmult_div_r (inject_Z z) 10) by discriminate.
    rewrite H. reflexivity. }
  unfold Qeq in H'. simpl in H'. lia.
Qed.

(** C8, as the code has it.  Every player has a value per price, got by
    dividing the total points by the price (a tenth of [now_cost])
    whatever the price: for a price other than 0 it is a rounding of the
    quotient to two decimals, for the price 0 the division gives an
    infinity of the sign of the points, or NaN for 0 points.  The
    best-value players leave out a player for being unavailable or
    having no points, not for its price: without filters, and with [n]
    no less than the number of players, every available player with
    points is among them. *)
Theorem points_per_million_unguarded (elements : list Element.t)
    (teams : list Team.t) :
  (forall e, In e elements ->
     exists r,
       In r (players_df (PlayerAnalyzer.frames elements teams)) /\
       element r = e /\
       (value r == inject_Z (Element.now_cost e) / 10)%Q /\
       (Element.now_cost e <> 0 ->
        rounds_to (inject_Z (Element.total_points e)
                   / (inject_Z (Element.now_cost e) / 10))
                  (points_per_million r)) /\
       (Element.now_cost e = 0 ->
        points_per_million r =
          signed_inf (Qsign (inject_Z (Element.total_points e))))) /\
  (forall r n,
     In r (players_df (PlayerAnalyzer.frames elements teams)) ->
     Z.of_nat (length elements) <= n ->
     status r = "a" -> 0 < total_points r ->
     In (value_columns r)
        (get_best_value_players (PlayerAnalyzer.frames elements teams)
           n None None)).
Proof.
  split.
  - intros e He. exists (player_row teams e).
    split; [now apply player_row_In|]. split; [reflexivity|].
    assert (Hv : (Qred (inject_Z (Element.now_cost e) / 10)
                  == inject_Z (Element.now_cost e) / 10)%Q) by apply Qred_correct.
    split; [exact Hv|]. split.
    + intros Hcost. simpl. unfold xdiv.
      destruct (Qeq_bool _ 0) eqn:E.
      * apply Qeq_bool_iff in E. rewrite Hv in E.
        now apply value_nonzero in E.
      * simpl. eapply NumFacts.rounds_to_proper;
          [|apply NumFacts.round2_rounds_to].
        apply Qdiv_comp; [reflexivity|exact Hv].
    + intros Hz. simpl. rewrite Hz.
      replace (Qred (inject_Z 0 / 10)) with 0%Q by reflexivity.
      unfold xdiv.
      replace (Qeq_bool 0 0) with true by reflexivity.
      now destruct (Qsign (inject_Z (Element.total_points e))).
  - intros r n Hr Hn Ha Hp. unfold get_best_value_players.
    rewrite head_all.
    + apply in_map, sort_desc_In, filter_In. split; [exact Hr|].
      apply is_available_status in Ha. apply Z.ltb_lt in Hp.
      now rewrite Ha, Hp.
    + rewrite length_map. unfold sort_desc.
      rewrite (Permutation_length (merge_sort_Permutation _ _)).
      etransitivity; [|exact Hn]. apply inj_le.
      etransitivity; [apply filter_length_le|].
      simpl. now rewrite length_map.
Qed.

(** C8 as stated fails: a player of price 0 has a value per price, got
    by the division, and is not left out: it is the first of the
    best-value players. *)
Lemma zero_price_player_ranked_first :
  exists r rest,
    In r (players_df
            (PlayerAnalyzer.frames [Sample.saka; Sample.free_agent] Sample.teams)) /\
    value r = 0%Q /\
    points_per_million r = xround2 (xdiv (inject_Z (total_points r)) (value r)) /\
    points_per_million r = PInf /\
    get_best_value_players
      (PlayerAnalyzer.frames [Sample.saka; Sample.free_agent] Sample.teams)
      10 None None = value_columns r :: rest.
Proof.
  exists (player_row Sample.teams Sample.free_agent). eexists.
  split; [right; left; reflexivity|].
  split; [reflexivity|].
  split; [reflexivity|].
  split; [reflexivity|].
  vm_compute. reflexivity.
Qed.

End PriceFacts.

(** ** The cache of the client *)

Module CacheFacts.

Import FPLClient FPLClient.MonadNotation.

(** A fresh, non-empty cache entry answers the request: nothing is
    sent, and neither the client nor the world changes. *)
Lemma cache_hit (c : t) (w : World) endpoint data ts :
  cache c !! endpoint = Some (data, ts) ->
  (clock w - ts < cache_duration c)%Q ->
  Payload.truthy data = true ->
  _make_request endpoint true (c, w) = (Ok data, (c, w)).
Proof.
  intros Hc Ht Hd. apply CaptaincyFacts.Qltb_lt in Ht.
  unfold _make_request, _get_cached, bind, self, time_time, ret.
  rewrite Hc. simpl. rewrite Ht, Hd. reflexivity.
Qed.

(** A request that goes out with caching on stores its payload under
    the endpoint, with the time at which it returns. *)
Lemma fetch_stores (c : t) (w : World) endpoint data c1 w1 :
  fetch endpoint true (c, w) = (Ok data, (c1, w1)) ->
  cache c1 !! endpoint = Some (data, clock w1) /\
  cache_duration c1 = cache_duration c /\
  requests w1 = requests w ++ [BASE_URL +:+ endpoint].
Proof.
  unfold fetch, _rate_limit, _set_cache, bind, self, time_time, time_sleep,
    set_last_request_time, set_cache_field, session_get, ret, raise.
  simpl.
  destruct (Qltb _ _); simpl;
    destruct (respond w _ _); simpl; intros [= <- <- <-]; simpl;
    repeat split; apply lookup_insert_eq.
Qed.

(** C6, as the code has it.  When a fetch with caching on has returned a
    non-empty payload, the cache holds that payload with the time [ts] at
    which it was stored (the time the fetch returned, if it went to the
    network); a second fetch of the same endpoint with caching on, at any
    time [now] with [now - ts] below the time-to-live, returns the same
    payload, sends no request and changes nothing. *)
Theorem second_fetch_from_cache (c : t) (w : World) (endpoint : string)
    (data : Payload.t) (c1 : t) (w1 : World) :
  _make_request endpoint true (c, w) = (Ok data, (c1, w1)) ->
  Payload.truthy data = true ->
  exists ts,
    cache c1 !! endpoint = Some (data, ts) /\
    cache_duration c1 = cache_duration c /\
    (requests w1 <> requests w -> ts = clock w1) /\
    forall w2 : World,
      (clock w2 - ts < cache_duration c1)%Q ->
      _make_request endpoint true (c1, w2) = (Ok data, (c1, w2)) /\
      requests (snd (snd (_make_request endpoint true (c1, w2)))) = requests w2.
Proof.
  intros H Hd.
  assert (Hfetch : fetch endpoint true (c, w) = (Ok data, (c1, w1)) ->
    exists ts,
      cache c1 !! endpoint = Some (data, ts) /\
      cache_duration c1 = cache_duration c /\
      (requests w1 <> requests w -> ts = clock w1)).
  { intros Hf. apply fetch_stores in Hf. destruct Hf as (Hc & Hdur & _).
    exists (clock w1). auto. }
  assert (Hstored : exists ts,
      cache c1 !! endpoint = Some (data, ts) /\
      cache_duration c1 = cache_duration c /\
      (requests w1 <> requests w -> ts = clock w1)).
  { revert H. unfold _make_request, _get_cached, bind, self, time_time, ret.
    destruct (cache c !! endpoint) as [[cached ts]|] eqn:Ec; simpl; [|exact Hfetch].
    destruct (Qltb _ _); simpl; [|exact Hfetch].
    destruct (Payload.truthy cached) eqn:Et; [|exact Hfetch].
    intros [= <- <- <-]. exists ts. repeat split; [assumption|]. congruence. }
  destruct Hstored as (ts & Hc & Hdur & Hts).
  exists ts. repeat split; try assumption.
  - now apply cache_hit with ts.
  - rewrite (cache_hit c1 w2 endpoint data ts); auto.
Qed.

(** Two fetches in a sample world: the first goes to the network at
    time 1000 and returns at 1000.1. *)
Lemma second_fetch_from_cache_witness :
  exists c1 w1,
    _make_request "/event/1/live/" true (init 300, Sample.world 1000)
      = (Ok Sample.live_payload, (c1, w1)) /\
    Payload.truthy Sample.live_payload = true /\
    exists ts,
      cache c1 !! "/event/1/live/" = Some (Sample.live_payload, ts) /\
      cache_duration c1 = cache_duration (init 300) /\
      (requests w1 <> requests (Sample.world 1000) -> ts = clock w1) /\
      forall w2 : World,
        (clock w2 - ts < cache_duration c1)%Q ->
        _make_request "/event/1/live/" true (c1, w2)
          = (Ok Sample.live_payload, (c1, w2)) /\
        requests (snd (snd (_make_request "/event/1/live/" true (c1, w2))))
          = requests w2.
Proof.
  eexists _, _.
  split; [vm_compute; reflexivity|].
  split; [reflexivity|].
  apply (second_fetch_from_cache (init 300) (Sample.world 1000)
           "/event/1/live/" Sample.live_payload).
  - vm_compute. reflexivity.
  - reflexivity.
Defined.

(** C6 as stated fails for the live gameweek, which is fetched with
    caching off: the second fetch starts when the first has returned, well
    within the 300 seconds, and a second request goes out. *)
Lemma live_gameweek_fetched_twice :
  exists c1 w1 c2 w2,
    get_live_gameweek 1 false (init 300, Sample.world 1000)
      = (Ok Sample.live_payload, (c1, w1)) /\
    get_live_gameweek 1 false (c1, w1)
      = (Ok Sample.live_payload, (c2, w2)) /\
    (clock w2 - clock w1 < cache_duration c1)%Q /\
    requests w1 = [BASE_URL +:+ "/event/1/live/"] /\
    requests w2 = [BASE_URL +:+ "/event/1/live/"; BASE_URL +:+ "/event/1/live/"].
Proof.
  eexists _, _, _, _.
  split; [vm_compute; reflexivity|].
  split; [vm_compute; reflexivity|].
  split; [vm_compute; reflexivity|].
  split; vm_compute; reflexivity.
Qed.

(** An empty payload in the cache is not taken for a hit: an empty
    fixture list is fetched again at once, with caching on. *)
Example empty_payload_fetched_again :
  exists c1 w1 c2 w2,
    get_fixtures true (init 300, Sample.preseason_world 1000)
      = (Ok [], (c1, w1)) /\
    cache c1 !! "/fixtures/" = Some (Payload.Fixtures [], clock w1) /\
    get_fixtures true (c1, w1) = (Ok [], (c2, w2)) /\
    length (requests w2) = 2%nat.
Proof.
  eexists _, _, _, _.
  split; [vm_compute; reflexivity|].
  split; [vm_compute; reflexivity|].
  split; vm_compute; reflexivity.
Qed.

End CacheFacts.

(** ** Lookups by id *)

Module LookupFacts.

Import FPLClient FPLClient.MonadNotation.

Lemma first_match_none {A} (test : A -> bool) (l : list A) :
  (forall x, In x l -> test x = false) -> first_match test l = None.
Proof.
  unfold first_match. induction l as [|a l IH]; simpl; intros H; [reflexivity|].
  rewrite (H a) by now left. apply IH. intros x Hx. apply H. now right.
Qed.

(** C10.  When the players (teams) have been fetched and none has the id
    asked for, the lookup of a player (team) returns [None] and raises
    nothing; when the fixtures have been fetched and none has the id
    asked for, the lookup of a fixture raises the not-found error. *)
Theorem absent_id_lookups :
  (forall s s' players player_id,
     get_all_players s = (Ok players, s') ->
     (forall p, In p players -> Element.id p <> player_id) ->
     get_player_by_id player_id s = (Ok None, s')) /\
  (forall s s' teams team_id,
     get_all_teams s = (Ok teams, s') ->
     (forall team, In team teams -> Team.id team <> team_id) ->
     get_team_by_id team_id s = (Ok None, s')) /\
  (forall s s' fixtures fixture_id use_cache,
     get_fixtures use_cache s = (Ok fixtures, s') ->
     (forall f, In f fixtures -> Fixture.id f <> fixture_id) ->
     get_fixture fixture_id use_cache s = (Raise (ValueError fixture_id), s')).
Proof.
  split; [|split].
  - intros s s' players player_id H Hno.
    unfold get_player_by_id, bind. rewrite H. unfold ret.
    rewrite first_match_none; [reflexivity|].
    intros p Hp. apply Z.eqb_neq. now apply Hno.
  - intros s s' teams team_id H Hno.
    unfold get_team_by_id, bind. rewrite H. unfold ret.
    rewrite first_match_none; [reflexivity|].
    intros p Hp. apply Z.eqb_neq. now apply Hno.
  - intros s s' fixtures fixture_id use_cache H Hno.
    unfold get_fixture. unfold bind at 1. rewrite H.
    rewrite first_match_none; [reflexivity|].
    intros p Hp. apply Z.eqb_neq. now apply Hno.
Qed.

(** The three lookups in a sample world, for an id nobody has. *)
Example absent_id_lookups_sample :
  fst (get_player_by_id 999 (init 300, Sample.table_world 1000)) = Ok None /\
  fst (get_team_by_id 999 (init 300, Sample.table_world 1000)) = Ok None /\
  fst (get_fixture 999 true (init 300, Sample.table_world 1000))
    = Raise (ValueError 999) /\
  fst (get_fixture 11 true (init 300, Sample.table_world 1000))
    = Ok Sample.arsenal_away.
Proof. repeat split; vm_compute; reflexivity. Qed.

End LookupFacts.

(** ** The store: what a call reads and changes *)

Module StoreFacts.

Import Pandas.

Lemma wp_ret {A} (a : A) s (post : result A -> store -> Prop) :
  post (Ok a) s -> wp (ret a) s post.
Proof. exact (fun H => H). Qed.

Lemma wp_raise {A} (e : exn) s (post : result A -> store -> Prop) :
  post (Raise e) s -> wp (raise e) s post.
Proof. exact (fun H => H). Qed.

Lemma wp_bind {A B} (m : P A) (k : A -> P B) s (post : result B -> store -> Prop) :
  wp m s (fun v s' =>
            match v with
            | Ok a => wp (k a) s' post
            | Raise e => post (Raise e) s'
            end) ->
  wp (bind m k) s post.
Proof.
  unfold wp, bind. destruct (m s) as [[a|e] s']; simpl; exact (fun H => H).
Qed.

Lemma wp_returns {A} (m : P A) s (v : result A) :
  wp m s (fun v' s' => v' = v /\ s ⊆ s') -> returns m s v.
Proof.
  unfold wp, returns. destruct (m s) as [v' s']; simpl.
  intros [-> H]. eauto.
Qed.

(** A call that returns, within a larger piece. *)
Lemma wp_call {A} (m : P A) s (v : result A) (post : result A -> store -> Prop) :
  returns m s v -> (forall s', s ⊆ s' -> post v s') -> wp m s post.
Proof.
  unfold wp. intros (s' & E & Hsub) H. rewrite E. simpl. now apply H.
Qed.

Lemma own_weaken s0 s s' r o : own s0 s r o -> s ⊆ s' -> own s0 s' r o.
Proof.
  intros (Hsub & Hnew & Hr) H. repeat split.
  - now transitivity s.
  - exact Hnew.
  - eapply lookup_weaken; eassumption.
Qed.

Lemma wp_read r o s (post : result obj -> store -> Prop) :
  s !! r = Some o -> post (Ok o) s -> wp (read r) s post.
Proof. unfold wp, read. intros ->. exact (fun H => H). Qed.

Lemma wp_rows_of {X} `{Kind X} r (rows : list X) s
    (post : result (list X) -> store -> Prop) :
  s !! r = Some (inject rows) -> post (Ok rows) s -> wp (rows_of r) s post.
Proof.
  intros Hr Hpost. unfold rows_of. apply wp_bind, (wp_read r (inject rows)); [exact Hr|].
  rewrite project_inject. now apply wp_ret.
Qed.

Lemma wp_attribute self attributes name r s (post : result ref -> store -> Prop) :
  s !! self = Some (Instance attributes) ->
  lookup_attribute name attributes = Some r ->
  post (Ok r) s -> wp (attribute self name) s post.
Proof.
  intros Hself Hname Hpost. unfold attribute.
  apply wp_bind, (wp_read self (Instance attributes)); [exact Hself|].
  rewrite Hname. now apply wp_ret.
Qed.

(** A new object is none of the objects there were. *)
Lemma wp_alloc s0 o s (post : result ref -> store -> Prop) :
  s0 ⊆ s -> (forall r s', own s0 s' r o -> post (Ok r) s') -> wp (alloc o) s post.
Proof.
  intros Hsub Hpost. unfold wp, alloc. simpl. apply Hpost.
  assert (Hfresh : s !! fresh (dom s) = None).
  { apply not_elem_of_dom, is_fresh. }
  repeat split.
  - etransitivity; [exact Hsub|]. now apply insert_subseteq.
  - eapply lookup_weaken_None; eassumption.
  - apply lookup_insert_eq.
Qed.

Lemma wp_copy s0 r o s (post : result ref -> store -> Prop) :
  s0 ⊆ s -> s !! r = Some o ->
  (forall r' s', own s0 s' r' o -> post (Ok r') s') -> wp (copy r) s post.
Proof.
  intros Hsub Hr Hpost. unfold copy.
  apply wp_bind, (wp_read r o); [exact Hr|]. now apply (wp_alloc s0).
Qed.

Lemma wp_select {X} `{Kind X} s0 (mask : X -> bool) r (rows : list X) s
    (post : result ref -> store -> Prop) :
  s0 ⊆ s -> s !! r = Some (inject rows) ->
  (forall r' s', own s0 s' r' (inject (List.filter mask rows)) -> post (Ok r') s') ->
  wp (select mask r) s post.
Proof.
  intros Hsub Hr Hpost. unfold select.
  apply wp_bind, (wp_rows_of r rows); [exact Hr|]. now apply (wp_alloc s0).
Qed.

Lemma wp_sort_values {X} `{Kind X} s0 (R : relation X)
    `{forall a b, Decision (R a b)} r (rows : list X) s
    (post : result ref -> store -> Prop) :
  s0 ⊆ s -> s !! r = Some (inject rows) ->
  (forall r' s', own s0 s' r' (inject (merge_sort R rows)) -> post (Ok r') s') ->
  wp (sort_values R r) s post.
Proof.
  intros Hsub Hr Hpost. unfold sort_values.
  apply wp_bind, (wp_rows_of r rows); [exact Hr|]. now apply (wp_alloc s0).
Qed.

(** Writing to an object allocated since [s0] leaves the objects of [s0]
    as they were. *)
Lemma wp_write s0 r o o' s (post : result unit -> store -> Prop) :
  own s0 s r o -> (forall s', own s0 s' r o' -> post (Ok tt) s') ->
  wp (write r o') s post.
Proof.
  intros (Hsub & Hnew & Hr) Hpost. unfold wp, write. simpl. apply Hpost.
  repeat split.
  - now apply insert_subseteq_r.
  - exact Hnew.
  - apply lookup_insert_eq.
Qed.

Lemma wp_assign s0 r (rows : list Row) column (values : Row -> cell) s
    (post : result unit -> store -> Prop) :
  own s0 s r (Players rows) ->
  (forall s', own s0 s' r
     (Players (map (fun row => set_col column (values row) row) rows)) ->
     post (Ok tt) s') ->
  wp (assign r column values) s post.
Proof.
  intros Hown Hpost. unfold assign.
  apply wp_bind, (wp_rows_of r rows); [apply Hown|].
  now apply (wp_write s0 r (Players rows)).
Qed.

Lemma wp_scale_where s0 r (rows : list Row) (mask : Row -> bool) column factor s
    (post : result unit -> store -> Prop) :
  own s0 s r (Players rows) ->
  (forall s', own s0 s' r
     (Players (map (fun row =>
        if mask row
        then set_col column (CNum (xmul (num_col column row) (Fin factor))) row
        else row) rows)) ->
     post (Ok tt) s') ->
  wp (scale_where r mask column factor) s post.
Proof.
  intros Hown Hpost. unfold scale_where.
  apply wp_bind, (wp_rows_of r rows); [apply Hown|].
  now apply (wp_write s0 r (Players rows)).
Qed.


(** *** Sorting and the rows of a frame *)

Section MergeSortMap.
Context {A B : Type} (RA : relation A) (RB : relation B).
Context `{forall a b, Decision (RA a b)} `{forall a b, Decision (RB a b)}.
Context (f : A -> B) (Hf : forall a b, RA a b <-> RB (f a) (f b)).

Lemma list_merge_map (l1 l2 : list A) :
  list_merge RB (map f l1) (map f l2) = map f (list_merge RA l1 l2).
Proof.
  revert l2. induction l1 as [|x1 l1 IH1]; intros l2.
  - destruct l2; reflexivity.
  - induction l2 as [|x2 l2 IH2]; [reflexivity|].
    cbn [map]. rewrite !list_merge_cons.
    destruct (decide (RB (f x1) (f x2))) as [HB|HB],
             (decide (RA x1 x2)) as [HA|HA].
    + cbn [map]. f_equal. exact (IH1 (x2 :: l2)).
    + exfalso. apply HA. now apply Hf.
    + exfalso. apply HB. now apply Hf.
    + cbn [map]. f_equal. exact IH2.
Qed.

Local Abbreviation on_stack st := (map (option_map (map f)) st).

Lemma merge_list_to_stack_map st l :
  merge_list_to_stack RB (on_stack st) (map f l)
  = on_stack (merge_list_to_stack RA st l).
Proof.
  revert l. induction st as [|[l'|] st IH]; intros l; [reflexivity| |reflexivity].
  cbn. f_equal. rewrite list_merge_map. apply IH.
Qed.

Lemma merge_stack_map st :
  merge_stack RB (on_stack st) = map f (merge_stack RA st).
Proof.
  induction st as [|[l'|] st IH]; [reflexivity| |exact IH].
  cbn. rewrite IH. apply list_merge_map.
Qed.

Lemma merge_sort_aux_map l : forall st,
  merge_sort_aux RB (on_stack st) (map f l) = map f (merge_sort_aux RA st l).
Proof.
  induction l as [|x l IH]; intros st; [apply merge_stack_map|].
  cbn [map merge_sort_aux]. rewrite <- IH. f_equal.
  exact (merge_list_to_stack_map st [x]).
Qed.

(** Sorting the images of the rows is taking the images of the rows
    sorted, when the two orders agree. *)
Lemma merge_sort_map (l : list A) :
  merge_sort RB (map f l) = map f (merge_sort RA l).
Proof. exact (merge_sort_aux_map l []). Qed.

End MergeSortMap.

Lemma filter_map {A B} (f : A -> B) (p : B -> bool) (l : list A) :
  List.filter p (map f l) = map f (List.filter (fun a => p (f a)) l).
Proof.
  induction l as [|a l IH]; [reflexivity|]. simpl.
  destruct (p (f a)); simpl; now rewrite IH.
Qed.

Import PlayerAnalyzer.

(** The rows of every player frame a method holds are the rows of a part
    [l] of the player table, each with the columns added so far: its rows
    are [map g l] for a [g] that keeps the row of the table. *)
Lemma wp_select_players s0 (g : PlayerRow -> Row) (p : PlayerRow -> bool) l r s
    (post : result ref -> store -> Prop) :
  own s0 s r (Players (map g l)) ->
  (forall x, base (g x) = x) ->
  (forall r' s', own s0 s' r' (Players (map g (List.filter p l))) ->
                 post (Ok r') s') ->
  wp (select (fun row : Row => p (base row)) r) s post.
Proof.
  intros Hown Hg Hpost.
  apply (wp_select s0 _ r (map g l)); [apply Hown|apply Hown|].
  intros r' s' H'. apply Hpost. cbn [inject players_kind] in H'.
  rewrite filter_map in H'.
  erewrite (List.filter_ext _ p) in H'; [exact H'|].
  intros x. now rewrite Hg.
Qed.

Lemma wp_filter_position s0 (g : PlayerRow -> Row) pos l r s (post : result ref -> store -> Prop) :
  own s0 s r (Players (map g l)) ->
  (forall x, base (g x) = x) ->
  (forall r' s', own s0 s' r' (Players (map g (filter_position pos l))) ->
                 post (Ok r') s') ->
  wp (Pandas.filter_position pos r) s post.
Proof.
  intros Hown Hg Hpost. unfold Pandas.filter_position, filter_position in *.
  destruct pos as [p|]; [|apply wp_ret, Hpost; exact Hown].
  destruct (Py.truthy_str (Some p)); [|apply wp_ret, Hpost; exact Hown].
  now apply (wp_select_players s0 g (position_is p) l).
Qed.

Lemma wp_filter_price s0 (g : PlayerRow -> Row) max_price l r s (post : result ref -> store -> Prop) :
  own s0 s r (Players (map g l)) ->
  (forall x, base (g x) = x) ->
  (forall r' s', own s0 s' r' (Players (map g (filter_price max_price l))) ->
                 post (Ok r') s') ->
  wp (Pandas.filter_price max_price r) s post.
Proof.
  intros Hown Hg Hpost. unfold Pandas.filter_price, filter_price in *.
  destruct max_price as [m|]; [|apply wp_ret, Hpost; exact Hown].
  destruct (Py.truthy_float (Some m)); [|apply wp_ret, Hpost; exact Hown].
  now apply (wp_select_players s0 g (within_price m) l).
Qed.

Lemma wp_assign_players s0 (g : PlayerRow -> Row) column (values : Row -> cell) l r s
    (post : result unit -> store -> Prop) :
  own s0 s r (Players (map g l)) ->
  (forall s', own s0 s' r
     (Players (map (fun x => set_col column (values (g x)) (g x)) l)) ->
     post (Ok tt) s') ->
  wp (assign r column values) s post.
Proof.
  intros Hown Hpost. apply (wp_assign s0 r (map g l)); [exact Hown|].
  intros s' H'. apply Hpost. now rewrite map_map in H'.
Qed.

Lemma wp_scale_players s0 (g : PlayerRow -> Row) (mask : Row -> bool) column factor l r s
    (post : result unit -> store -> Prop) :
  own s0 s r (Players (map g l)) ->
  (forall s', own s0 s' r
     (Players (map (fun x =>
        if mask (g x)
        then set_col column (CNum (xmul (num_col column (g x)) (Fin factor))) (g x)
        else g x) l)) ->
     post (Ok tt) s') ->
  wp (scale_where r mask column factor) s post.
Proof.
  intros Hown Hpost. apply (wp_scale_where s0 r (map g l)); [exact Hown|].
  intros s' H'. apply Hpost. now rewrite map_map in H'.
Qed.

Lemma wp_sort_players s0 (g : PlayerRow -> Row) (R : relation Row) `{forall a b, Decision (R a b)}
    (R' : relation PlayerRow) `{forall a b, Decision (R' a b)} l r s
    (post : result ref -> store -> Prop) :
  own s0 s r (Players (map g l)) ->
  (forall a b, R' a b <-> R (g a) (g b)) ->
  (forall r' s', own s0 s' r' (Players (map g (merge_sort R' l))) ->
                 post (Ok r') s') ->
  wp (sort_values R r) s post.
Proof.
  intros Hown HR Hpost.
  apply (wp_sort_values s0 R r (map g l)); [apply Hown|apply Hown|].
  intros r' s' H'. apply Hpost. cbn [inject players_kind] in H'.
  now rewrite (merge_sort_map R' R g HR) in H'.
Qed.

Lemma wp_rows_players s0 (g : PlayerRow -> Row) l r s (post : result (list Row) -> store -> Prop) :
  own s0 s r (Players (map g l)) -> post (Ok (map g l)) s ->
  wp (rows_of r) s post.
Proof. intros Hown. apply (wp_rows_of r (map g l)), Hown. Qed.

(** One statement of a method on its player frame. *)
Ltac frame_step H :=
  apply wp_bind;
  first
    [ eapply wp_filter_position; [exact H|reflexivity|]
    | eapply wp_filter_price; [exact H|reflexivity|]
    | eapply wp_assign_players; [exact H|]
    | eapply wp_scale_players; [exact H|]
    | eapply wp_rows_players; [exact H|] ];
  clear H.

Ltac frame_select H p :=
  apply wp_bind; eapply (wp_select_players _ _ p); [exact H|reflexivity|];
  clear H.

Ltac frame_sort H rel :=
  apply wp_bind; eapply wp_sort_players with (R' := rel);
  [exact H|intros; reflexivity|]; clear H.

(** *** The methods of the player analyzer *)





(** *** The methods of the fixture analyzer *)

Import FixtureAnalyzer.

Lemma get_upcoming_fixtures_returns s self tables team_name n :
  FixtureMethods.holds s self tables ->
  returns (FixtureMethods.get_upcoming_fixtures self team_name n) s
    (Ok (get_upcoming_fixtures tables team_name n)).
Proof.
  intros (fixtures & teams & Hself & Hf & _). apply wp_returns.
  unfold FixtureMethods.get_upcoming_fixtures.
  apply wp_bind. eapply wp_attribute; [exact Hself|reflexivity|].
  apply wp_bind, (wp_copy s _ _ s _ (reflexivity s) Hf). intros df s1 H.
  apply wp_bind. eapply (wp_select s); [apply H|apply H|]. clear H.
  intros df1 s2 H.
  apply wp_bind. eapply (wp_select s); [apply H|apply H|]. clear H.
  intros df2 s3 H.
  apply wp_bind. eapply (wp_sort_values s); [apply H|apply H|]. clear H.
  intros df3 s4 H.
  apply wp_bind. eapply wp_rows_of; [apply H|]. apply wp_ret.
  split; [reflexivity|apply H].
Qed.

Lemma get_fixture_difficulty_returns s self tables team_name n :
  FixtureMethods.holds s self tables ->
  returns (FixtureMethods.get_fixture_difficulty self team_name n) s
    (get_fixture_difficulty tables team_name n).
Proof.
  intros Hs. apply wp_returns. unfold FixtureMethods.get_fixture_difficulty.
  apply wp_bind.
  apply (wp_call _ _ _ _ (get_upcoming_fixtures_returns s self tables team_name n Hs)).
  intros s1 H1. unfold get_fixture_difficulty.
  destruct (get_upcoming_fixtures tables team_name n) as [|row rows].
  - apply wp_ret. auto.
  - destruct (traverse _ _) as [fixture_list|e].
    + apply wp_ret. auto.
    + apply wp_raise. auto.
Qed.


Lemma holds_weaken s s' self tables :
  FixtureMethods.holds s self tables -> s ⊆ s' ->
  FixtureMethods.holds s' self tables.
Proof.
  intros (fixtures & teams & Hself & Hf & Ht) Hsub. exists fixtures, teams.
  repeat split; eapply lookup_weaken; eassumption.
Qed.



(** A piece made of calls that return is a call that returns. *)
Lemma returns_bind {A B} (m : P A) (k : A -> P B) s (v : result A) (w : result B) :
  returns m s v ->
  (forall s', s ⊆ s' ->
     match v with
     | Ok a => returns (k a) s' w
     | Raise e => w = Raise e
     end) ->
  returns (bind m k) s w.
Proof.
  intros (s1 & E & Hsub) Hk. unfold returns, bind. rewrite E.
  specialize (Hk s1 Hsub). destruct v as [a|e].
  - destruct Hk as (s2 & E2 & Hsub2). exists s2. split; [exact E2|].
    now transitivity s1.
  - subst w. eauto.
Qed.

Lemma returns_ret {A} (a : A) s : returns (ret a) s (Ok a).
Proof. exists s. split; reflexivity. Qed.







(** *** The methods of the transfer advisor *)

Import TransferAdvisor.

Lemma player_holds_weaken s s' self tables :
  PlayerMethods.holds s self tables -> s ⊆ s' ->
  PlayerMethods.holds s' self tables.
Proof.
  intros (players & teams & Hself & Hp & Ht) Hsub. exists players, teams.
  repeat split; eapply lookup_weaken; eassumption.
Qed.

Lemma advisor_holds_weaken s s' self tables :
  AdvisorMethods.holds s self tables -> s ⊆ s' ->
  AdvisorMethods.holds s' self tables.
Proof.
  intros (pa & fa & Hself & Hp & Hf) Hsub. exists pa, fa. split; [|split].
  - eapply lookup_weaken; eassumption.
  - eapply player_holds_weaken; eassumption.
  - eapply holds_weaken; eassumption.
Qed.

Lemma first_match_filter {A} (test : A -> bool) (l : list A) :
  FPLClient.first_match test l
  = match List.filter test l with
    | a :: _ => Some a
    | [] => None
    end.
Proof.
  unfold FPLClient.first_match.
  induction l as [|a l IH]; [reflexivity|]. simpl.
  destruct (test a); [reflexivity|exact IH].
Qed.

Lemma team_of_returns s self tables team_id :
  AdvisorMethods.holds s self tables ->
  returns (AdvisorMethods.team_of self team_id) s (team_of tables team_id).
Proof.
  intros (pa & fa & Hself & (players & teams & Hpa & _ & Ht) & _).
  apply wp_returns.
  unfold AdvisorMethods.team_of, team_of. rewrite first_match_filter.
  apply wp_bind. eapply wp_attribute; [exact Hself|reflexivity|].
  apply wp_bind. eapply wp_attribute; [exact Hpa|reflexivity|].
  apply wp_bind. eapply (wp_select s); [reflexivity|exact Ht|].
  intros found s1 H.
  apply wp_bind. eapply wp_rows_of; [apply H|].
  destruct (List.filter _ _) as [|team rest].
  - apply wp_raise. split; [reflexivity|apply H].
  - apply wp_ret. split; [reflexivity|apply H].
Qed.

Lemma team_loop_returns {V} self tables (entry : Z -> Team.t -> P V)
    (entry' : Z -> Team.t -> result V) team_ids : forall scores s,
  AdvisorMethods.holds s self tables ->
  (forall team_id team s', s ⊆ s' ->
     returns (entry team_id team) s' (entry' team_id team)) ->
  returns (AdvisorMethods.team_loop self entry team_ids scores) s
    (team_loop tables entry' team_ids scores).
Proof.
  induction team_ids as [|team_id rest IH]; intros scores s Hs Hentry;
    [apply returns_ret|].
  cbn [AdvisorMethods.team_loop team_loop].
  eapply returns_bind; [apply team_of_returns; exact Hs|]. intros s1 H1.
  destruct (team_of tables team_id) as [team|e]; [|reflexivity].
  eapply returns_bind; [apply Hentry; exact H1|]. intros s2 H2.
  destruct (entry' team_id team) as [v|e]; [|reflexivity].
  apply IH.
  - eapply advisor_holds_weaken; [exact Hs|]. now transitivity s1.
  - intros id tm s' Hs'. apply Hentry. transitivity s1; [exact H1|].
    now transitivity s2.
Qed.

Lemma wp_team_ids s0 (g : PlayerRow -> Row) l r s
    (post : result (list Z) -> store -> Prop) :
  own s0 s r (Players (map g l)) ->
  (forall x, base (g x) = x) ->
  post (Ok (Py.unique (map PlayerAnalyzer.team l))) s ->
  wp (AdvisorMethods.team_ids r) s post.
Proof.
  intros Hown Hg Hpost. unfold AdvisorMethods.team_ids.
  apply wp_bind. eapply wp_rows_players; [exact Hown|]. apply wp_ret.
  rewrite map_map. erewrite map_ext; [exact Hpost|].
  intros x. simpl. now rewrite Hg.
Qed.

Lemma fixture_score_entry_returns s self tables team_id team :
  AdvisorMethods.holds s self tables ->
  returns (AdvisorMethods.fixture_score_entry self team_id team) s
    (fixture_score_entry tables team_id team).
Proof.
  intros (pa & fa & Hself & _ & Hf). unfold AdvisorMethods.fixture_score_entry, fixture_score_entry.
  eapply returns_bind.
  { apply wp_returns. eapply wp_attribute; [exact Hself|reflexivity|].
    split; reflexivity. }
  intros s0 H0.
  eapply returns_bind.
  { apply get_fixture_difficulty_returns. eapply holds_weaken; eassumption. }
  intros s1 H1. destruct (FixtureAnalyzer.get_fixture_difficulty _ _ _);
    [apply returns_ret|reflexivity].
Qed.



(** The call of the loop from a method that holds a frame of its own. *)
Ltac frame_loop H Hs entry_returns :=
  apply wp_bind; eapply wp_call;
  [ eapply team_loop_returns;
    [ eapply advisor_holds_weaken; [exact Hs|apply H]
    | let s' := fresh "s" in
      let Hs' := fresh "Hs" in
      intros ? ? s' Hs'; apply entry_returns;
      eapply advisor_holds_weaken; [exact Hs|];
      etransitivity; [apply H|exact Hs'] ]
  | let s' := fresh "s" in
    let Hs' := fresh "Hs" in
    intros s' Hs'; apply (own_weaken _ _ _ _ _ H) in Hs'; clear H;
    rename Hs' into H ].

Lemma get_transfer_targets_returns s self tables pos max_price n :
  AdvisorMethods.holds s self tables ->
  returns (AdvisorMethods.get_transfer_targets self pos max_price n) s
    (get_transfer_targets tables pos max_price n).
Proof.
  intros Hs.
  pose proof Hs as (pa & fa & Hself & (players & teams & Hpa & Hp & _) & _).
  apply wp_returns.
  unfold AdvisorMethods.get_transfer_targets, get_transfer_targets.
  apply wp_bind. eapply wp_attribute; [exact Hself|reflexivity|].
  apply wp_bind. eapply wp_attribute; [exact Hpa|reflexivity|].
  apply wp_bind, (wp_copy s _ _ s _ (reflexivity s) Hp). intros df s1 H.
  frame_step H. intros df1 s2 H.
  frame_step H. intros df2 s3 H.
  frame_select H (fun r => is_available r && (20 <? total_points r))%bool.
  intros df3 s4 H.
  frame_step H. intros s5 H.
  frame_step H. intros s6 H.
  apply wp_bind. eapply wp_team_ids; [exact H|reflexivity|].
  frame_loop H Hs fixture_score_entry_returns.
  destruct (team_loop tables _ _ _) as [scores|e]; [|split; [reflexivity|apply H]].
  frame_step H. intros s8 H.
  frame_step H. intros s9 H.
  frame_sort H (Frame.by_desc
                  (fun r => transfer_score (map_score scores (PlayerAnalyzer.team r)) r)).
  intros df4 s10 H.
  apply wp_bind. eapply wp_rows_players; [exact H|]. apply wp_ret.
  split; [|apply H]. unfold Frame.sort_desc. rewrite map_map.
  rewrite (merge_sort_map
             (Frame.by_desc (fun r => transfer_score (map_score scores (PlayerAnalyzer.team r)) r))
             (Frame.by_desc t_transfer_score) (target_columns scores))
    by (intros; reflexivity).
  reflexivity.
Qed.







(** *** Two calls in a row *)

(** A call that returns, for every store in which the tables are held,
    returns the same when it is made a second time. *)
Lemma returns_twice {A} (holds : store -> Prop) (m : P A) (v : result A) :
  (forall s s', holds s -> s ⊆ s' -> holds s') ->
  (forall s, holds s -> returns m s v) ->
  forall s, holds s -> twice_returns m s v.
Proof.
  intros Hmono Hm s Hs.
  destruct (Hm s Hs) as (s1 & E1 & H1).
  destruct (Hm s1 (Hmono s s1 Hs H1)) as (s2 & E2 & H2).
  exists s1, s2. auto.
Qed.

(** *** The objects of an advisor *)

Lemma load_holds s tables :
  exists self s',
    AdvisorMethods.load tables s = (Ok self, s') /\ s ⊆ s' /\
    AdvisorMethods.holds s' self tables.
Proof.
  assert (H : wp (AdvisorMethods.load tables) s (fun v s' =>
            exists self, v = Ok self /\ s ⊆ s' /\
                         AdvisorMethods.holds s' self tables)).
  { unfold AdvisorMethods.load.
    apply wp_bind, (wp_alloc s _ s _ (reflexivity s)). intros r1 s1 H1.
    apply wp_bind, (wp_alloc s1 _ s1 _ (reflexivity s1)). intros r2 s2 H2.
    apply wp_bind, (wp_alloc s2 _ s2 _ (reflexivity s2)). intros r3 s3 H3.
    apply wp_bind, (wp_alloc s3 _ s3 _ (reflexivity s3)). intros r4 s4 H4.
    apply wp_bind, (wp_alloc s4 _ s4 _ (reflexivity s4)). intros r5 s5 H5.
    apply wp_bind, (wp_alloc s5 _ s5 _ (reflexivity s5)). intros r6 s6 H6.
    apply (wp_alloc s6 _ s6 _ (reflexivity s6)). intros r7 s7 H7.
    destruct H1 as (S1 & _ & L1), H2 as (S2 & _ & L2),
             H3 as (S3 & _ & L3), H4 as (S4 & _ & L4),
             H5 as (S5 & _ & L5), H6 as (S6 & _ & L6), H7 as (S7 & _ & L7).
    assert (S27 : s2 ⊆ s7).
    { transitivity s3; [exact S3|]. transitivity s4; [exact S4|].
      transitivity s5; [exact S5|]. now transitivity s6. }
    assert (S47 : s4 ⊆ s7).
    { transitivity s5; [exact S5|]. now transitivity s6. }
    eexists. split; [reflexivity|]. split.
    - transitivity s1; [exact S1|]. now transitivity s2.
    - exists r5, r6. split; [exact L7|]. split.
      + exists r1, r2. split; [|split].
        * eapply lookup_weaken; [exact L5|]. now transitivity s6.
        * eapply lookup_weaken; [|exact S27]. eapply lookup_weaken; eassumption.
        * eapply lookup_weaken; eassumption.
      + exists r3, r4. split; [|split].
        * eapply lookup_weaken; eassumption.
        * eapply lookup_weaken; [|exact S47]. eapply lookup_weaken; eassumption.
        * eapply lookup_weaken; eassumption. }
  unfold wp in H. destruct (AdvisorMethods.load tables s) as [v s'].
  simpl in H. destruct H as (self & -> & Hsub & Hholds). eauto.
Qed.

End StoreFacts.

(** ** Determinism *)

Module DeterminismFacts.

Import Pandas StoreFacts.


(** The objects of the sample advisor, and its transfer targets asked for
    twice. *)
Example transfer_targets_twice :
  exists self s,
    AdvisorMethods.load (Sample.advisor [Sample.saka] [Sample.away_only 3]) ∅
      = (Ok self, s) /\
    AdvisorMethods.holds s self (Sample.advisor [Sample.saka] [Sample.away_only 3]) /\
    twice_returns (AdvisorMethods.get_transfer_targets self None None 10) s
      (Ok [{| TransferAdvisor.t_web_name := "Saka";
              TransferAdvisor.t_team_name := Some "Arsenal";
              TransferAdvisor.t_position := Some "MID";
              TransferAdvisor.t_value := 7;
              TransferAdvisor.t_form := 5;
              TransferAdvisor.t_points_per_million := Fin (857 # 100);
              TransferAdvisor.t_selected_by_percent := 20;
              TransferAdvisor.t_transfer_score := Fin (2857 # 100);
              TransferAdvisor.t_total_points := 60 |}]).
Proof.
  destruct (load_holds ∅ (Sample.advisor [Sample.saka] [Sample.away_only 3]))
    as (self & s & E & _ & Hs).
  exists self, s. split; [exact E|]. split; [exact Hs|].
  replace (Ok _) with (TransferAdvisor.get_transfer_targets
                         (Sample.advisor [Sample.saka] [Sample.away_only 3])
                         None None 10)
    by (vm_compute; reflexivity).
  apply (returns_twice
           (fun s => AdvisorMethods.holds s self
                       (Sample.advisor [Sample.saka] [Sample.away_only 3]))).
  - intros. eapply advisor_holds_weaken; eassumption.
  - intros. now apply get_transfer_targets_returns.
  - exact Hs.
Qed.

(** What the copy is for.  The assignment of [get_top_form_players],
    made on the player table itself and not on a copy of it, changes the
    table, and the analyzer does not hold the rows it held: the store
    tells the two apart. *)
Example assignment_without_copy :
  exists self s players s',
    AdvisorMethods.load (Sample.advisor [Sample.saka] [Sample.away_only 3]) ∅
      = (Ok self, s) /\
    bind (attribute self "player_analyzer")
         (fun analyzer => attribute analyzer "players_df") s
      = (Ok players, s) /\
    assign players "form_float"
      (fun row => CNum (Fin (PlayerAnalyzer.form (base row)))) s
      = (Ok tt, s') /\
    s !! players
      = Some (Players [of_player
                         (PlayerAnalyzer.player_row Sample.teams Sample.saka)]) /\
    s' !! players
      = Some (Players [set_col "form_float" (CNum (Fin 5))
                         (of_player
                            (PlayerAnalyzer.player_row Sample.teams Sample.saka))]).
Proof.
  eexists _, _, _, _. split; [reflexivity|].
  split; [vm_compute; reflexivity|].
  split; [reflexivity|]. split; vm_compute; reflexivity.
Qed.

(** An assignment to an attribute changes the instance: after
    [self.players_df = teams_df] on the player analyzer, the attribute
    leads to the other table. *)
Example attribute_assignment :
  exists self s analyzer teams s',
    AdvisorMethods.load (Sample.advisor [Sample.saka] [Sample.away_only 3]) ∅
      = (Ok self, s) /\
    attribute self "player_analyzer" s = (Ok analyzer, s) /\
    attribute analyzer "teams_df" s = (Ok teams, s) /\
    set_attribute analyzer "players_df" teams s = (Ok tt, s') /\
    attribute analyzer "players_df" s' = (Ok teams, s') /\
    s !! analyzer <> s' !! analyzer.
Proof.
  eexists _, _, _, _, _. split; [reflexivity|].
  split; [vm_compute; reflexivity|]. split; [vm_compute; reflexivity|].
  split; [reflexivity|]. split; [vm_compute; reflexivity|].
  vm_compute. discriminate.
Qed.

(** The player table of the sample payload, fetched from the network:
    60 points at the price 7.0 give 8.57 points per million. *)
Example load_data_sample :
  fst (PlayerAnalyzer._load_data
         (FPLClient.init 300, Sample.table_world 1000))
    = Ok (PlayerAnalyzer.frames [Sample.saka; Sample.son] Sample.teams) /\
  map PlayerAnalyzer.points_per_million
      (PlayerAnalyzer.players_df
         (PlayerAnalyzer.frames [Sample.saka; Sample.son] Sample.teams))
    = [Fin (857 # 100); Fin (857 # 100)].
Proof. split; vm_compute; reflexivity. Qed.

(** The chip strategy of one advisor in two worlds that differ in the
    current gameweek only. *)
Example chip_strategy_reads_client :
  option_map TransferAdvisor.current_gameweek
    (match fst (TransferAdvisor.analyze_chip_strategy
                  (Sample.advisor [Sample.saka] [Sample.away_only 3])
                  (FPLClient.init 300, Sample.gameweek_world 1 1000)) with
     | Ok chips => Some chips
     | Raise _ => None
     end) = Some (Some 1) /\
  option_map TransferAdvisor.current_gameweek
    (match fst (TransferAdvisor.analyze_chip_strategy
                  (Sample.advisor [Sample.saka] [Sample.away_only 3])
                  (FPLClient.init 300, Sample.gameweek_world 2 1000)) with
     | Ok chips => Some chips
     | Raise _ => None
     end) = Some (Some 2).
Proof. split; vm_compute; reflexivity. Qed.

End DeterminismFacts.

(** ** More on the client: rate limit, failures, expiry *)

Module ClientFacts.

Import FPLClient FPLClient.MonadNotation.

(** [_rate_limit] returns when at least [min_request_interval] has passed
    since the time it stamped last, stamps the time at which it returns,
    never turns the clock back, sends nothing and leaves the cache alone. *)
Theorem rate_limit_spacing (c : t) (w : World) :
  fst (_rate_limit (c, w)) = Ok tt /\
  last_request_time (client_after (_rate_limit (c, w)))
    = clock (world_after (_rate_limit (c, w))) /\
  (last_request_time c + min_request_interval c
     <= clock (world_after (_rate_limit (c, w))))%Q /\
  (clock w <= clock (world_after (_rate_limit (c, w))))%Q /\
  requests (world_after (_rate_limit (c, w))) = requests w /\
  cache (client_after (_rate_limit (c, w))) = cache c.
Proof.
  unfold _rate_limit, bind, self, time_time, time_sleep, set_last_request_time,
    ret, client_after, world_after.
  simpl.
  destruct (Qltb _ _) eqn:E; simpl.
  - apply CaptaincyFacts.Qltb_lt in E. repeat split; lra.
  - assert (H : ~ (clock w - last_request_time c < min_request_interval c)%Q).
    { intros H. apply CaptaincyFacts.Qltb_lt in H. congruence. }
    repeat split; lra.
Qed.

(** A fetch with caching off never looks at the cache and never writes
    it: one request goes out to the endpoint's URL, the answer of the
    server is the result, and a failure of the request is the
    [RequestFailed] error. *)
Theorem uncached_request (c : t) (w : World) (endpoint : string) :
  requests (world_after (_make_request endpoint false (c, w)))
    = requests w ++ [BASE_URL +:+ endpoint] /\
  cache (client_after (_make_request endpoint false (c, w))) = cache c /\
  fst (_make_request endpoint false (c, w))
    = match respond w (length (requests w)) (BASE_URL +:+ endpoint) with
      | Some data => Ok data
      | None => Raise (RequestFailed endpoint)
      end.
Proof.
  unfold _make_request, fetch, _rate_limit, bind, self, time_time, time_sleep,
    set_last_request_time, session_get, ret, raise, client_after, world_after.
  simpl.
  destruct (Qltb _ _); simpl; destruct (respond w _ _); simpl; auto.
Qed.

(** The only error of a fetch is the failure of its request: then one
    request was sent, the server gave no answer, and the cache is what it
    was (an expired entry stays, nothing is stored). *)
Theorem failed_request (c : t) (w : World) (endpoint : string)
    (use_cache : bool) (e : exn) (c' : t) (w' : World) :
  _make_request endpoint use_cache (c, w) = (Raise e, (c', w')) ->
  e = RequestFailed endpoint /\
  respond w (length (requests w)) (BASE_URL +:+ endpoint) = None /\
  requests w' = requests w ++ [BASE_URL +:+ endpoint] /\
  cache c' = cache c.
Proof.
  assert (Hfetch : forall uc,
    fetch endpoint uc (c, w) = (Raise e, (c', w')) ->
    e = RequestFailed endpoint /\
    respond w (length (requests w)) (BASE_URL +:+ endpoint) = None /\
    requests w' = requests w ++ [BASE_URL +:+ endpoint] /\
    cache c' = cache c).
  { intros uc.
    unfold fetch, _rate_limit, _set_cache, bind, self, time_time, time_sleep,
      set_last_request_time, set_cache_field, session_get, ret, raise.
    simpl.
    destruct (Qltb _ _); simpl; destruct (respond w _ _) eqn:Er; simpl;
      destruct uc; simpl; intros H; try discriminate H;
      injection H as <- <- <-; auto. }
  unfold _make_request. destruct use_cache; [|apply Hfetch].
  unfold _get_cached, bind, self, time_time, ret.
  destruct (cache c !! endpoint) as [[cached ts]|]; simpl; [|apply Hfetch].
  destruct (Qltb _ _); simpl; [|apply Hfetch].
  destruct (Payload.truthy cached); [discriminate|apply Hfetch].
Qed.

(** A failed fetch in a world without server. *)
Lemma failed_request_witness :
  exists c' w',
    _make_request "/fixtures/" true (init 300, Sample.dead_world 1000)
      = (Raise (RequestFailed "/fixtures/"), (c', w')) /\
    cache c' = cache (init 300).
Proof.
  eexists _, _. split; [vm_compute; reflexivity|].
  eapply (failed_request (init 300) (Sample.dead_world 1000) "/fixtures/" true).
  vm_compute. reflexivity.
Defined.

(** An entry as old as the time-to-live or older is not used: the fetch
    sends a request, and the answer replaces the entry, with the time at
    which it came. *)
Theorem expired_entry_refetched (c : t) (w : World) (endpoint : string)
    (old : Payload.t) (ts : Q) :
  cache c !! endpoint = Some (old, ts) ->
  (cache_duration c <= clock w - ts)%Q ->
  requests (world_after (_make_request endpoint true (c, w)))
    = requests w ++ [BASE_URL +:+ endpoint] /\
  forall data,
    respond w (length (requests w)) (BASE_URL +:+ endpoint) = Some data ->
    fst (_make_request endpoint true (c, w)) = Ok data /\
    cache (client_after (_make_request endpoint true (c, w))) !! endpoint
      = Some (data, clock (world_after (_make_request endpoint true (c, w)))).
Proof.
  intros Hc Hold.
  assert (E : Qltb (clock w - ts) (cache_duration c) = false).
  { destruct (Qltb _ _) eqn:E; [|reflexivity].
    apply CaptaincyFacts.Qltb_lt in E. lra. }
  unfold _make_request, _get_cached, bind, self, time_time, ret.
  rewrite Hc. simpl. rewrite E. clear E.
  unfold fetch, _rate_limit, _set_cache, bind, self, time_time, time_sleep,
    set_last_request_time, set_cache_field, session_get, ret, raise,
    client_after, world_after.
  simpl.
  destruct (Qltb _ _); simpl; destruct (respond w _ _); simpl;
    (split; [reflexivity|]); intros data [= <-]; try discriminate;
    (split; [reflexivity|]); apply lookup_insert_eq.
Qed.

(** An entry stored at time 0 and read at time 1000, with 300 seconds to
    live. *)
Lemma expired_entry_refetched_witness :
  requests (world_after
    (_make_request "/fixtures/" true
       ({| cache := <["/fixtures/" := (Sample.fixture_list, 0%Q)]> ∅;
           cache_duration := 300; last_request_time := 0;
           min_request_interval := 1 |}, Sample.table_world 1000)))
  = [BASE_URL +:+ "/fixtures/"].
Proof.
  apply (expired_entry_refetched
           {| cache := <["/fixtures/" := (Sample.fixture_list, 0%Q)]> ∅;
              cache_duration := 300; last_request_time := 0;
              min_request_interval := 1 |}
           (Sample.table_world 1000) "/fixtures/" Sample.fixture_list 0).
  - vm_compute. reflexivity.
  - vm_compute. discriminate.
Defined.

(** After [clear_cache] every fetch goes to the network, whatever the
    cache held. *)
Theorem cleared_cache_refetches (c : t) (w : World) (endpoint : string) :
  cache (client_after (clear_cache (c, w))) = ∅ /\
  requests (world_after
    (_make_request endpoint true
       (client_after (clear_cache (c, w)), world_after (clear_cache (c, w)))))
  = requests w ++ [BASE_URL +:+ endpoint].
Proof.
  unfold clear_cache, set_cache_field, client_after, world_after. simpl.
  split; [reflexivity|].
  unfold _make_request, _get_cached, bind, self, time_time, ret. simpl.
  rewrite lookup_empty. simpl.
  unfold fetch, _rate_limit, _set_cache, bind, self, time_time, time_sleep,
    set_last_request_time, set_cache_field, session_get, ret, raise.
  simpl.
  destruct (Qltb _ _); simpl; destruct (respond w _ _); reflexivity.
Qed.

(** A fetch touches the cache entry of its own endpoint only, and never
    the settings of the client. *)
Theorem other_entries_kept (c : t) (w : World) (endpoint other : string)
    (use_cache : bool) :
  other <> endpoint ->
  cache (client_after (_make_request endpoint use_cache (c, w))) !! other
    = cache c !! other /\
  cache_duration (client_after (_make_request endpoint use_cache (c, w)))
    = cache_duration c /\
  min_request_interval (client_after (_make_request endpoint use_cache (c, w)))
    = min_request_interval c.
Proof.
  intros Hne.
  assert (Hfetch : forall uc,
    cache (client_after (fetch endpoint uc (c, w))) !! other = cache c !! other /\
    cache_duration (client_after (fetch endpoint uc (c, w))) = cache_duration c /\
    min_request_interval (client_after (fetch endpoint uc (c, w)))
      = min_request_interval c).
  { intros uc.
    unfold fetch, _rate_limit, _set_cache, bind, self, time_time, time_sleep,
      set_last_request_time, set_cache_field, session_get, ret, raise,
      client_after.
    simpl.
    destruct (Qltb _ _); simpl; destruct (respond w _ _); simpl;
      destruct uc; simpl; repeat split; try reflexivity;
      apply lookup_insert_ne; congruence. }
  unfold _make_request. destruct use_cache; [|apply Hfetch].
  unfold _get_cached, bind, self, time_time, ret.
  destruct (cache c !! endpoint) as [[cached ts]|]; simpl; [|apply Hfetch].
  destruct (Qltb _ _); simpl; [|apply Hfetch].
  destruct (Payload.truthy cached); [|apply Hfetch].
  unfold client_after. simpl. auto.
Qed.

(** The fixtures are fetched while the bootstrap data is in the cache. *)
Lemma other_entries_kept_witness :
  cache (client_after
    (_make_request "/fixtures/" true
       ({| cache := <["/bootstrap-static/" := (Sample.bootstrap, 999%Q)]> ∅;
           cache_duration := 300; last_request_time := 999;
           min_request_interval := 1 |}, Sample.table_world 1000)))
    !! "/bootstrap-static/"
  = Some (Sample.bootstrap, 999%Q).
Proof.
  etransitivity.
  - apply (other_entries_kept
             {| cache := <["/bootstrap-static/" := (Sample.bootstrap, 999%Q)]> ∅;
                cache_duration := 300; last_request_time := 999;
                min_request_interval := 1 |}
             (Sample.table_world 1000) "/fixtures/" "/bootstrap-static/" true).
    discriminate.
  - vm_compute. reflexivity.
Defined.

End ClientFacts.

(** ** More on the lookups *)

Module FoundFacts.

Import FPLClient FPLClient.MonadNotation.

Lemma first_match_some {A} (test : A -> bool) (l : list A) a :
  first_match test l = Some a -> In a l /\ test a = true.
Proof. apply find_some. Qed.

Lemma first_match_found {A} (test : A -> bool) (l : list A) a :
  In a l -> test a = true -> exists b, first_match test l = Some b.
Proof.
  intros Hin Ht. destruct (first_match test l) as [b|] eqn:E; [eauto|].
  unfold first_match in E. rewrite (find_none _ _ E a Hin) in Ht. discriminate.
Qed.

(** Once the records are fetched, a lookup by id returns a record of the
    list that has the id asked for, and it finds one whenever there is
    one: the player and team lookups answer [None], and the fixture lookup
    raises, only when no record has the id. *)
Theorem lookups_return_the_id :
  (forall s s' players player_id,
     get_all_players s = (Ok players, s') ->
     exists found,
       get_player_by_id player_id s = (Ok found, s') /\
       (forall p, found = Some p -> In p players /\ Element.id p = player_id) /\
       (forall p, In p players -> Element.id p = player_id -> found <> None)) /\
  (forall s s' teams team_id,
     get_all_teams s = (Ok teams, s') ->
     exists found,
       get_team_by_id team_id s = (Ok found, s') /\
       (forall tm, found = Some tm -> In tm teams /\ Team.id tm = team_id) /\
       (forall tm, In tm teams -> Team.id tm = team_id -> found <> None)) /\
  (forall s s' fixtures fixture_id use_cache,
     get_fixtures use_cache s = (Ok fixtures, s') ->
     (forall f, fst (get_fixture fixture_id use_cache s) = Ok f ->
                In f fixtures /\ Fixture.id f = fixture_id) /\
     (forall f, In f fixtures -> Fixture.id f = fixture_id ->
                exists g, get_fixture fixture_id use_cache s = (Ok g, s'))).
Proof.
  split; [|split].
  - intros s s' players player_id H.
    exists (first_match (fun player => Element.id player =? player_id) players).
    split; [unfold get_player_by_id, bind; now rewrite H|]. split.
    + intros p Hp. apply first_match_some in Hp. destruct Hp as [Hin Hid].
      split; [assumption|]. now apply Z.eqb_eq.
    + intros p Hin Hid.
      destruct (first_match_found (fun player => Element.id player =? player_id)
                  players p Hin) as [b Hb]; [now apply Z.eqb_eq|].
      rewrite Hb. discriminate.
  - intros s s' teams team_id H.
    exists (first_match (fun team => Team.id team =? team_id) teams).
    split; [unfold get_team_by_id, bind; now rewrite H|]. split.
    + intros p Hp. apply first_match_some in Hp. destruct Hp as [Hin Hid].
      split; [assumption|]. now apply Z.eqb_eq.
    + intros p Hin Hid.
      destruct (first_match_found (fun team => Team.id team =? team_id)
                  teams p Hin) as [b Hb]; [now apply Z.eqb_eq|].
      rewrite Hb. discriminate.
  - intros s s' fixtures fixture_id use_cache H. split.
    + intros f. unfold get_fixture. unfold bind at 1. rewrite H.
      destruct (first_match _ fixtures) as [g|] eqn:E; simpl; [|discriminate].
      intros [= <-]. apply first_match_some in E. destruct E as [Hin Hid].
      split; [assumption|]. now apply Z.eqb_eq.
    + intros f Hin Hid.
      destruct (first_match_found (fun f => Fixture.id f =? fixture_id)
                  fixtures f Hin) as [g Hg]; [now apply Z.eqb_eq|].
      exists g. unfold get_fixture. unfold bind at 1. rewrite H, Hg. reflexivity.
Qed.

(** The current (next) gameweek is the id of the first event flagged
    current (next); without such an event the answer is [None], not an
    error; a payload that is not the bootstrap object gives a [KeyError]. *)
Theorem current_and_next_gameweek :
  (forall s s' elements teams events,
     get_bootstrap_static true s
       = (Ok (Payload.Bootstrap elements teams events), s') ->
     exists current next,
       get_current_gameweek s = (Ok current, s') /\
       get_next_gameweek s = (Ok next, s') /\
       (forall gw, current = Some gw ->
          exists ev, In ev events /\ Event.is_current ev = true /\ Event.id ev = gw) /\
       (current = None <-> forall ev, In ev events -> Event.is_current ev = false) /\
       (forall gw, next = Some gw ->
          exists ev, In ev events /\ Event.is_next ev = true /\ Event.id ev = gw) /\
       (next = None <-> forall ev, In ev events -> Event.is_next ev = false)) /\
  (forall s s' data,
     get_bootstrap_static true s = (Ok data, s') ->
     Payload.events data = Raise (KeyError "events") ->
     get_current_gameweek s = (Raise (KeyError "events"), s')).
Proof.
  assert (Hflag : forall (flag : Event.t -> bool) events,
    (forall gw, option_map Event.id (first_match flag events) = Some gw ->
       exists ev, In ev events /\ flag ev = true /\ Event.id ev = gw) /\
    (option_map Event.id (first_match flag events) = None <->
       forall ev, In ev events -> flag ev = false)).
  { intros flag events. split.
    - intros gw H. destruct (first_match flag events) as [ev|] eqn:E;
        [|discriminate]. injection H as <-.
      apply first_match_some in E. exists ev. tauto.
    - destruct (first_match flag events) as [ev|] eqn:E; simpl.
      + apply first_match_some in E. destruct E as [Hin Hf]. split; [discriminate|].
        intros H. rewrite (H ev Hin) in Hf. discriminate.
      + split; [|reflexivity]. intros _. now apply find_none. }
  split.
  - intros s s' elements teams events H.
    eexists _, _.
    split; [unfold get_current_gameweek, bind; rewrite H; reflexivity|].
    split; [unfold get_next_gameweek, bind; rewrite H; reflexivity|].
    destruct (Hflag Event.is_current events) as [H1 H2].
    destruct (Hflag Event.is_next events) as [H3 H4].
    auto.
  - intros s s' data H He.
    unfold get_current_gameweek, bind, lift. rewrite H, He. reflexivity.
Qed.

End FoundFacts.

(** ** More on the fixture table *)

Module UpcomingFacts.

Import Frame FixtureAnalyzer FrameFacts.

Lemma StronglySorted_map {A B} (f : A -> B) (R : relation B) (l : list A) :
  StronglySorted (fun a b => R (f a) (f b)) l -> StronglySorted R (map f l).
Proof.
  induction 1 as [|a l Hl IH Ha]; simpl; constructor; [assumption|].
  rewrite List.Forall_forall in *. intros b Hb. apply in_map_iff in Hb.
  destruct Hb as (x & <- & Hx). now apply Ha.
Qed.

Lemma upcoming_row_origin (self : t) (team_name : string) (n : Z) row :
  In row (get_upcoming_fixtures self team_name n) ->
  exists r, In r (fixtures_df self) /\ row = upcoming_columns r /\
            finished r = false /\ plays team_name r = true.
Proof.
  unfold get_upcoming_fixtures. intros H.
  apply head_In, in_map_iff in H. destruct H as (r & <- & Hr).
  apply sort_asc_In, filter_In in Hr. destruct Hr as [Hr Hf].
  apply filter_In in Hr. destruct Hr as [Hr Hp].
  exists r. repeat split; try assumption. now apply negb_true_iff.
Qed.

Lemma Forall2_In_r {A B} (P : A -> B -> Prop) (l : list A) (l' : list B) b :
  Forall2 P l l' -> In b l' -> exists a, In a l /\ P a b.
Proof.
  induction 1 as [|x y l l' Hxy Hl IH]; intros Hb; [destruct Hb|].
  destruct Hb as [<-|Hb].
  - exists x. split; [now left|assumption].
  - destruct (IH Hb) as (a & Ha & Hp). exists a. split; [now right|assumption].
Qed.

Lemma head_length {A} (n : Z) (l : list A) :
  0 <= n -> Z.of_nat (length (Py.head n l)) <= n.
Proof.
  intros Hn. unfold Py.head. apply Z.leb_le in Hn. rewrite Hn.
  apply Z.leb_le in Hn. pose proof (firstn_le_length (Z.to_nat n) l). lia.
Qed.

(** The upcoming fixtures of a team are taken from fixtures of the table
    that are not finished, of which they show the gameweek, the two short
    names and the two difficulties; they are in ascending order of the
    gameweek (fixtures without gameweek last), and at most [n] for an [n]
    that is not negative. *)
Theorem upcoming_fixtures_rows (self : t) (team_name : string) (n : Z) :
  (forall row, In row (get_upcoming_fixtures self team_name n) ->
     exists r, In r (fixtures_df self) /\
               Fixture.finished (fixture r) = false /\
               u_event row = Fixture.event (fixture r) /\
               u_home_short row = home_short r /\
               u_away_short row = away_short r /\
               u_team_h_difficulty row = Fixture.team_h_difficulty (fixture r) /\
               u_team_a_difficulty row = Fixture.team_a_difficulty (fixture r)) /\
  StronglySorted (by_asc (fun row => of_event (u_event row)))
    (get_upcoming_fixtures self team_name n) /\
  (0 <= n -> Z.of_nat (length (get_upcoming_fixtures self team_name n)) <= n).
Proof.
  split; [|split].
  - intros row Hrow.
    destruct (upcoming_row_origin self team_name n row Hrow)
      as (r & Hr & -> & Hf & _).
    exists r. repeat split; assumption.
  - unfold get_upcoming_fixtures. apply head_sorted. apply StronglySorted_map.
    apply (sort_asc_sorted (fun r => of_event (event r))).
  - apply head_length.
Qed.

Lemma traverse_Forall2 {A B} (f : A -> result B) (l : list A) (bs : list B) :
  traverse f l = Ok bs -> Forall2 (fun a b => f a = Ok b) l bs.
Proof.
  revert bs. induction l as [|a l IH]; simpl; intros bs H.
  - injection H as <-. constructor.
  - destruct (f a) as [b|] eqn:Ea; [|discriminate].
    destruct (traverse f l) as [bs'|]; [|discriminate].
    injection H as <-. constructor; auto.
Qed.

Lemma traverse_defined {A B} (f : A -> result B) (l : list A) :
  (forall a, In a l -> exists b, f a = Ok b) -> exists bs, traverse f l = Ok bs.
Proof.
  induction l as [|a l IH]; simpl; intros H; [eauto|].
  destruct (H a (or_introl eq_refl)) as [b Hb]. rewrite Hb.
  destruct IH as [bs Hbs]; [intros x Hx; apply H; now right|].
  rewrite Hbs. eauto.
Qed.

Lemma sum_between (lo hi : Z) (l : list Z) :
  (forall x, In x l -> lo <= x <= hi) ->
  lo * Z.of_nat (length l) <= sum l <= hi * Z.of_nat (length l).
Proof.
  unfold sum. induction l as [|x l IH]; intros H; [simpl; lia|].
  assert (Hx := H x (or_introl eq_refl)).
  assert (IH' := IH (fun y Hy => H y (or_intror Hy))).
  cbn [fold_right length]. lia.
Qed.

(** The difficulty of an entry is one of the two difficulties of its
    row. *)
Lemma fixture_entry_difficulty team_name row e :
  fixture_entry team_name row = Ok e ->
  gameweek e = u_event row /\
  (difficulty e = u_team_h_difficulty row \/
   difficulty e = u_team_a_difficulty row).
Proof.
  unfold fixture_entry. destruct (u_home_short row); [|discriminate].
  destruct (Py.str_in _ _); intros [= <-]; simpl; auto.
Qed.

(** What the fixture difficulty of a team holds when it is returned: one
    entry per upcoming fixture; without fixtures the average 0 and no
    total; with fixtures the total of the entries' difficulties and their
    mean rounded to two decimals, which lies between any two integers that
    bound the difficulties of the fixture table.  So with difficulties
    from 1 to 5 an average of 0 is returned for a team without fixtures
    only. *)
Theorem fixture_difficulty_average (self : t) (team_name : string) (n : Z)
    (d : Difficulty) :
  get_fixture_difficulty self team_name n = Ok d ->
  team d = team_name /\
  length (fixtures d) = length (get_upcoming_fixtures self team_name n) /\
  (fixtures d = [] -> avg_difficulty d = 0%Q /\ total_difficulty d = None) /\
  (fixtures d <> [] ->
   total_difficulty d = Some (sum (map difficulty (fixtures d))) /\
   avg_difficulty d =
     round2 (inject_Z (sum (map difficulty (fixtures d)))
             / inject_Z (Z.of_nat (length (fixtures d))))) /\
  (forall lo hi : Z,
     (forall r, In r (fixtures_df self) ->
        lo <= Fixture.team_h_difficulty (fixture r) <= hi /\
        lo <= Fixture.team_a_difficulty (fixture r) <= hi) ->
     fixtures d <> [] ->
     (inject_Z lo <= avg_difficulty d <= inject_Z hi)%Q).
Proof.
  unfold get_fixture_difficulty.
  destruct (get_upcoming_fixtures self team_name n) as [|row rows] eqn:Eu.
  - intros [= <-]. simpl. repeat split; congruence.
  - destruct (traverse _ _) as [entries|] eqn:Et; [|discriminate].
    intros [= <-]. simpl.
    apply traverse_Forall2 in Et.
    assert (Hlen : length entries = length (row :: rows)).
    { symmetry. eapply Forall2_length. exact Et. }
    split; [reflexivity|]. split; [exact Hlen|].
    split; [intros ->; discriminate Hlen|].
    split; [now rewrite length_map|].
    intros lo hi Hb _. rewrite length_map.
    assert (Hin : forall x, In x (map difficulty entries) -> lo <= x <= hi).
    { intros x Hx. apply in_map_iff in Hx. destruct Hx as (e & <- & He).
      destruct (Forall2_In_r _ _ _ _ Et He) as (r0 & Hr0 & Hf).
      rewrite <- Eu in Hr0.
      destruct (upcoming_row_origin self team_name n r0 Hr0) as (r & Hr & -> & _).
      apply fixture_entry_difficulty in Hf. destruct Hf as [_ [Hd|Hd]];
        rewrite Hd; simpl; apply (Hb r Hr). }
    apply sum_between in Hin. rewrite length_map in Hin.
    apply NumFacts.round2_between.
    assert (Hpos : (0 < inject_Z (Z.of_nat (length entries)))%Q).
    { rewrite Hlen. simpl length. change 0%Q with (inject_Z 0).
      rewrite <- Zlt_Qlt. lia. }
    destruct Hin as [H1 H2]. rewrite Zle_Qle, inject_Z_mult in H1, H2.
    split.
    + now apply Qle_shift_div_l.
    + now apply Qle_shift_div_r.
Qed.

(** Arsenal's two fixtures, asked for by the three-letter code. *)
Lemma fixture_difficulty_average_witness :
  exists d,
    get_fixture_difficulty
      (frames [Sample.arsenal_home; Sample.arsenal_away] Sample.teams) "ARS" 5
    = Ok d /\
    (inject_Z 1 <= avg_difficulty d <= inject_Z 5)%Q.
Proof.
  eexists. split; [vm_compute; reflexivity|].
  eapply (fixture_difficulty_average
            (frames [Sample.arsenal_home; Sample.arsenal_away] Sample.teams)
            "ARS" 5).
  - vm_compute. reflexivity.
  - intros r [<-|[<-|[]]]; vm_compute; intuition discriminate.
  - discriminate.
Defined.

End UpcomingFacts.

(** ** The joins with the team table *)

Module JoinFacts.

Import Frame FixtureAnalyzer FrameFacts UpcomingFacts.

Lemma find_app {A} (test : A -> bool) (l1 l2 : list A) :
  List.find test (l1 ++ l2)
  = match List.find test l1 with
    | Some a => Some a
    | None => List.find test l2
    end.
Proof.
  induction l1 as [|a l1 IH]; simpl; [reflexivity|].
  destruct (test a); [reflexivity|exact IH].
Qed.

(** A dict filled from a list of teams holds, for an id, the value of
    the last team with that id. *)
Lemma dict_zip_lookup {V} (val : Team.t -> V) (teams : list Team.t) :
  forall (m : gmap Z V) (k : Z),
    foldl (fun m team => <[Team.id team := val team]> m) m teams !! k
    = match Py.last_match (fun team => Team.id team =? k) teams with
      | Some team => Some (val team)
      | None => m !! k
      end.
Proof.
  unfold Py.last_match.
  induction teams as [|a teams IH]; intros m k; simpl; [reflexivity|].
  rewrite IH, find_app. simpl.
  destruct (List.find _ (rev teams)); [reflexivity|].
  destruct (Z.eqb_spec (Team.id a) k) as [->|Hne].
  - apply lookup_insert_eq.
  - now apply lookup_insert_ne.
Qed.

Lemma last_match_some {A} (test : A -> bool) (l : list A) a :
  Py.last_match test l = Some a -> In a l /\ test a = true.
Proof.
  unfold Py.last_match. intros H. apply find_some in H.
  rewrite <- in_rev in H. exact H.
Qed.

Lemma last_match_found {A} (test : A -> bool) (l : list A) a :
  In a l -> test a = true -> exists b, Py.last_match test l = Some b.
Proof.
  unfold Py.last_match. intros Hin Ht.
  destruct (List.find test (rev l)) as [b|] eqn:E; [eauto|].
  rewrite (find_none _ _ E a) in Ht; [discriminate|]. now rewrite <- in_rev.
Qed.

(** With distinct ids, the first and the last team with an id are the
    same team. *)
Lemma unique_id_match (teams : list Team.t) (k : Z) a b :
  List.NoDup (map Team.id teams) ->
  FPLClient.first_match (fun team => Team.id team =? k) teams = Some a ->
  Py.last_match (fun team => Team.id team =? k) teams = Some b ->
  a = b.
Proof.
  intros Hnd Ha Hb.
  apply find_some in Ha. apply last_match_some in Hb.
  destruct Ha as [Ha Hka], Hb as [Hb Hkb].
  apply Z.eqb_eq in Hka, Hkb.
  clear -Hnd Ha Hb Hka Hkb. subst k.
  induction teams as [|x teams IH]; [destruct Ha|].
  simpl in Hnd. inversion_clear Hnd as [|? ? Hx Hnd'].
  destruct Ha as [->|Ha], Hb as [->|Hb]; auto.
  - exfalso. apply Hx. rewrite <- Hkb. now apply in_map.
  - exfalso. apply Hx. rewrite Hkb. now apply in_map.
Qed.

(** The team name of a player row is the name of the last team of the
    team table that has the player's team id, and is missing when no team
    has it.  When the ids of the team table are distinct, it is the name
    of the team the transfer advisor looks up for the player. *)
Theorem player_team_name (teams : list Team.t) (e : Element.t) :
  PlayerAnalyzer.team_name (PlayerAnalyzer.player_row teams e)
    = option_map Team.name
        (Py.last_match (fun team => Team.id team =? Element.team e) teams) /\
  ((forall team, In team teams -> Team.id team <> Element.team e) ->
   PlayerAnalyzer.team_name (PlayerAnalyzer.player_row teams e) = None) /\
  (List.NoDup (map Team.id teams) ->
   forall self team,
     PlayerAnalyzer.teams_df (TransferAdvisor.player_analyzer self) = teams ->
     TransferAdvisor.team_of self (Element.team e) = Ok team ->
     PlayerAnalyzer.team_name (PlayerAnalyzer.player_row teams e)
       = Some (Team.name team)).
Proof.
  assert (E : PlayerAnalyzer.team_name (PlayerAnalyzer.player_row teams e)
    = option_map Team.name
        (Py.last_match (fun team => Team.id team =? Element.team e) teams)).
  { simpl. unfold PlayerAnalyzer.team_map. rewrite dict_zip_lookup.
    destruct (Py.last_match _ teams); [reflexivity|apply lookup_empty]. }
  split; [exact E|]. split.
  - intros Hno. rewrite E.
    destruct (Py.last_match _ teams) as [b|] eqn:Eb; [|reflexivity].
    apply last_match_some in Eb. destruct Eb as [Hin Hk].
    apply Z.eqb_eq in Hk. now apply Hno in Hin.
  - intros Hnd self team Hteams Hof. rewrite E.
    unfold TransferAdvisor.team_of in Hof. rewrite Hteams in Hof.
    destruct (FPLClient.first_match _ teams) as [a|] eqn:Ea; [|discriminate].
    injection Hof as ->.
    pose proof Ea as Ea'. apply find_some in Ea'. destruct Ea' as [Hin Hk].
    destruct (last_match_found (fun team => Team.id team =? Element.team e)
                teams team Hin Hk) as [b Hb].
    rewrite Hb. simpl. now rewrite (unique_id_match teams _ team b Hnd Ea Hb).
Qed.

(** For a fixture list that is not empty, with the two teams of every
    fixture in the team table, the fixture difficulty of a team is
    returned for every name that is a literal pattern: the operation
    raises for a missing short name only, and the search for such a name
    cannot fail. *)
Theorem fixture_difficulty_defined (fixtures : list Fixture.t)
    (teams : list Team.t) (team_name : string) (n : Z) :
  fixtures <> [] ->
  Py.literal_pattern team_name = true ->
  (forall f, In f fixtures ->
     In (Fixture.team_h f) (map Team.id teams) /\
     In (Fixture.team_a f) (map Team.id teams)) ->
  exists d, get_fixture_difficulty (frames fixtures teams) team_name n = Ok d.
Proof.
  intros _ _ Hwf. unfold get_fixture_difficulty.
  destruct (get_upcoming_fixtures _ _ _) as [|row rows] eqn:Eu; [eauto|].
  destruct (traverse_defined (fixture_entry team_name) (row :: rows)) as [es Hes].
  - intros r0 Hr0. rewrite <- Eu in Hr0.
    destruct (upcoming_row_origin _ _ _ _ Hr0) as (r & Hr & -> & _).
    simpl in Hr. apply in_map_iff in Hr. destruct Hr as (f & <- & Hf).
    unfold fixture_entry. simpl. unfold short_map. rewrite dict_zip_lookup.
    apply Hwf in Hf. destruct Hf as [Hf _].
    apply in_map_iff in Hf. destruct Hf as (tm & Hid & Htm).
    destruct (last_match_found (fun team => Team.id team =? Fixture.team_h f)
                teams tm Htm) as [b Hb]; [now apply Z.eqb_eq|].
    rewrite Hb. destruct (Py.str_in _ _); eauto.
  - rewrite Hes. eauto.
Qed.

(** The sample fixtures, whose teams are in the sample team table. *)
Lemma fixture_difficulty_defined_witness :
  exists d,
    get_fixture_difficulty
      (frames [Sample.arsenal_home; Sample.arsenal_away] Sample.teams)
      "Chelsea" 5 = Ok d.
Proof.
  apply (fixture_difficulty_defined [Sample.arsenal_home; Sample.arsenal_away]
           Sample.teams "Chelsea" 5).
  - discriminate.
  - vm_compute. reflexivity.
  - intros f [<-|[<-|[]]]; vm_compute; tauto.
Defined.

End JoinFacts.

(** ** Venues and rankings of the fixtures *)

Module RankingFacts.

Import Frame FixtureAnalyzer FrameFacts UpcomingFacts.

Lemma prefix_length (p s : string) :
  String.prefix p s = true -> (String.length p <= String.length s)%nat.
Proof.
  revert s. induction p as [|a p IH]; intros s H; simpl; [lia|].
  destruct s as [|b s]; simpl in H; [discriminate|].
  destruct (ascii_dec a b); [|discriminate].
  apply IH in H. simpl. lia.
Qed.

Lemma str_in_length (p s : string) :
  Py.str_in p s = true -> (String.length p <= String.length s)%nat.
Proof.
  induction s as [|b s IH]; intros H; cbn [Py.str_in] in H;
    apply orb_true_iff in H; destruct H as [H|H].
  - now apply prefix_length in H.
  - discriminate.
  - now apply prefix_length in H.
  - apply IH in H. simpl. lia.
Qed.

Lemma lower_length (s : string) : String.length (Py.lower s) = String.length s.
Proof. induction s as [|a s IH]; simpl; congruence. Qed.

(** Asked for by a name that is longer than every home short name of the
    fixture table, the fixture difficulty takes every fixture for an away
    fixture: each entry has the venue "A", the away-side difficulty of its
    row, and the home side as opponent, the team's home fixtures
    included. *)
Theorem long_name_always_away (self : t) (team_name : string) (n : Z)
    (d : Difficulty) :
  get_fixture_difficulty self team_name n = Ok d ->
  (forall r code, In r (fixtures_df self) -> home_short r = Some code ->
     (String.length code < String.length team_name)%nat) ->
  Forall2 (fun row e =>
             venue e = "A" /\ difficulty e = u_team_a_difficulty row /\
             opponent e = u_home_short row /\ gameweek e = u_event row)
    (get_upcoming_fixtures self team_name n) (fixtures d).
Proof.
  unfold get_fixture_difficulty. intros H Hlong.
  assert (Hrows : forall row, In row (get_upcoming_fixtures self team_name n) ->
            forall e, fixture_entry team_name row = Ok e ->
            venue e = "A" /\ difficulty e = u_team_a_difficulty row /\
            opponent e = u_home_short row /\ gameweek e = u_event row).
  { intros row Hrow e He.
    destruct (upcoming_row_origin _ _ _ _ Hrow) as (r & Hr & -> & _).
    unfold fixture_entry in He. simpl in He.
    destruct (home_short r) as [code|] eqn:Ec; [|discriminate].
    destruct (Py.str_in _ _) eqn:Es.
    - apply str_in_length in Es. rewrite !lower_length in Es.
      specialize (Hlong r code Hr Ec). lia.
    - injection He as <-. simpl. rewrite Ec. auto. }
  destruct (get_upcoming_fixtures self team_name n) as [|row rows] eqn:Eu.
  - injection H as <-. constructor.
  - destruct (traverse _ _) as [entries|] eqn:Et; [|discriminate].
    injection H as <-. simpl. apply traverse_Forall2 in Et.
    clear Eu. induction Et as [|a b l l' Hab Hl IH]; constructor.
    + apply Hrows; [now left|assumption].
    + apply IH. intros row0 Hrow0. apply Hrows. now right.
Qed.

(** Arsenal's home fixture, asked for by the team's name. *)
Lemma long_name_always_away_witness :
  exists d,
    get_fixture_difficulty (frames [Sample.arsenal_home] Sample.teams)
      "Arsenal" 5 = Ok d /\
    Forall2 (fun row e =>
               venue e = "A" /\ difficulty e = u_team_a_difficulty row /\
               opponent e = u_home_short row /\ gameweek e = u_event row)
      (get_upcoming_fixtures (frames [Sample.arsenal_home] Sample.teams)
         "Arsenal" 5)
      (fixtures d).
Proof.
  eexists. split; [vm_compute; reflexivity|].
  apply (long_name_always_away (frames [Sample.arsenal_home] Sample.teams)
           "Arsenal" 5).
  - vm_compute. reflexivity.
  - intros r code [<-|[]] [= <-]. vm_compute. lia.
Defined.

Lemma traverse_length {A B} (f : A -> result B) (l : list A) (bs : list B) :
  traverse f l = Ok bs -> length bs = length l.
Proof.
  intros H. apply traverse_Forall2 in H. symmetry.
  eapply Forall2_length. exact H.
Qed.

(** The ranking of the teams by fixtures has one row per team of the team
    table, with the team's names and the average its fixture difficulty
    reports, in ascending order of the average; the ranking of the worst
    fixtures is the same rows in descending order.  A team table without
    teams gives a [KeyError]. *)
Theorem best_and_worst_fixtures (self : t) (n : Z) :
  (forall rows,
     get_best_fixtures self n = Ok rows ->
     length rows = length (teams_df self) /\
     StronglySorted (by_asc (fun r => Fin (b_avg_difficulty r))) rows /\
     (forall r, In r rows ->
        exists team d,
          In team (teams_df self) /\
          get_fixture_difficulty self (Team.name team) n = Ok d /\
          b_team r = Team.short_name team /\
          b_team_name r = Team.name team /\
          b_avg_difficulty r = avg_difficulty d) /\
     exists worst,
       get_worst_fixtures self n = Ok worst /\
       Permutation rows worst /\
       StronglySorted (by_desc (fun r => Fin (b_avg_difficulty r))) worst) /\
  (teams_df self = [] ->
   get_best_fixtures self n = Raise (KeyError "avg_difficulty")).
Proof.
  split.
  - intros rows H. unfold get_worst_fixtures. rewrite H.
    unfold get_best_fixtures in H.
    destruct (traverse _ _) as [results|] eqn:Et; [|discriminate].
    assert (Hrows : rows = sort_asc (fun r => Fin (b_avg_difficulty r)) results).
    { destruct results; [discriminate|]. now injection H as <-. }
    clear H. subst rows.
    assert (Hperm : Permutation
              (sort_asc (fun r => Fin (b_avg_difficulty r)) results) results)
      by apply merge_sort_Permutation.
    split; [|split; [|split]].
    + rewrite (Permutation_length Hperm). now apply traverse_length in Et.
    + apply sort_asc_sorted.
    + intros r Hr. apply sort_asc_In in Hr.
      apply traverse_Forall2 in Et.
      destruct (Forall2_In_r _ _ _ _ Et Hr) as (team & Hteam & Hrow).
      unfold best_row in Hrow.
      destruct (get_fixture_difficulty _ _ _) as [d|] eqn:Ed; [|discriminate].
      injection Hrow as <-. exists team, d. simpl. auto.
    + eexists. split; [reflexivity|]. split.
      * symmetry. apply merge_sort_Permutation.
      * apply sort_desc_sorted.
  - intros H. unfold get_best_fixtures. rewrite H. reflexivity.
Qed.

End RankingFacts.

(** ** More on the player rankings *)

Module PlayerFacts.

Import Frame PlayerAnalyzer TransferAdvisor FrameFacts TransferFacts UpcomingFacts.

(** The top-form players are available players, of the position asked
    for when one is given, in descending order of form. *)
Theorem top_form_rows (self : PlayerAnalyzer.t) (n : Z) (pos : option string) :
  (forall row, In row (get_top_form_players self n pos) ->
     exists r, In r (players_df self) /\ row = form_columns r /\
               status r = "a" /\
               (forall p, pos = Some p -> p <> "" ->
                          position r = Some (Py.upper p))) /\
  StronglySorted (by_desc (fun row => Fin (f_form row)))
    (get_top_form_players self n pos).
Proof.
  unfold get_top_form_players. split.
  - intros row H. apply head_In, in_map_iff in H. destruct H as (r & <- & Hr).
    apply sort_desc_In, filter_In in Hr. destruct Hr as [Hr Ha].
    apply filter_position_In in Hr. destruct Hr as [Hr Hpos].
    exists r. repeat split; try assumption. now apply is_available_status.
  - apply head_sorted, StronglySorted_map.
    apply (sort_desc_sorted (fun r => Fin (form r))).
Qed.

(** The differential picks are available players owned by at most
    [max_ownership] percent with at least [min_points] points, shown with
    their columns; the score of a player with a finite value per price is
    a rounding to two decimals of that value times form, and the rows are
    in descending order of the score. *)
Theorem differential_rows (self : PlayerAnalyzer.t) (n : Z) (max_ownership : Q)
    (min_points : Z) :
  (forall row, In row (get_differential_picks self n max_ownership min_points) ->
     exists r, In r (players_df self) /\
               status r = "a" /\
               (ownership r <= max_ownership)%Q /\
               min_points <= total_points r /\
               d_web_name row = Element.web_name (element r) /\
               d_team_name row = team_name r /\
               d_position row = position r /\
               d_value row = value r /\
               d_total_points row = total_points r /\
               d_form row = form r /\
               d_selected_by_percent row = ownership r /\
               d_points_per_million row = points_per_million r /\
               (forall p, points_per_million r = Fin p ->
                          rounds_to (p * form r) (d_diff_score row))) /\
  StronglySorted (by_desc d_diff_score)
    (get_differential_picks self n max_ownership min_points).
Proof.
  unfold get_differential_picks. split.
  - intros row H. apply head_In, in_map_iff in H. destruct H as (r & <- & Hr).
    apply sort_desc_In, filter_In in Hr. destruct Hr as [Hr Hmask].
    apply andb_true_iff in Hmask. destruct Hmask as [Hmask Hp].
    apply andb_true_iff in Hmask. destruct Hmask as [Ha Ho].
    exists r. split; [assumption|]. split; [now apply is_available_status|].
    split; [now apply Qle_bool_iff|]. split; [now apply Z.leb_le|].
    do 8 (split; [reflexivity|]).
    intros p Hppm. simpl. unfold diff_score. rewrite Hppm. simpl.
    apply NumFacts.round2_rounds_to.
  - apply head_sorted, StronglySorted_map. apply (sort_desc_sorted diff_score).
Qed.

(** No ranking has more than [n] rows, for an [n] that is not negative. *)
Theorem at_most_n_rows (n : Z) :
  0 <= n ->
  (forall self pos,
     Z.of_nat (length (get_top_form_players self n pos)) <= n) /\
  (forall self pos max_price,
     Z.of_nat (length (get_best_value_players self n pos max_price)) <= n) /\
  (forall self max_ownership min_points,
     Z.of_nat (length (get_differential_picks self n max_ownership min_points))
       <= n) /\
  (forall self pos min_price,
     Z.of_nat (length (get_premium_options self pos min_price n)) <= n) /\
  (forall self pos max_price rows,
     get_transfer_targets self pos max_price n = Ok rows ->
     Z.of_nat (length rows) <= n) /\
  (forall self rows,
     get_transfer_out_candidates self n = Ok rows -> Z.of_nat (length rows) <= n) /\
  (forall self rows,
     get_captaincy_picks self n = Ok rows -> Z.of_nat (length rows) <= n).
Proof.
  intros Hn. repeat split; intros.
  - now apply head_length.
  - now apply head_length.
  - now apply head_length.
  - now apply head_length.
  - unfold get_transfer_targets in H. destruct (team_loop _ _ _ _); [|discriminate].
    injection H as <-. now apply head_length.
  - unfold get_transfer_out_candidates in H.
    destruct (team_loop _ _ _ _); [|discriminate].
    injection H as <-. now apply head_length.
  - unfold get_captaincy_picks in H. destruct (team_loop _ _ _ _); [|discriminate].
    injection H as <-. now apply head_length.
Qed.

(** Two available players and the one best of them. *)
Lemma at_most_n_rows_witness :
  Z.of_nat (length (get_top_form_players
                      (PlayerAnalyzer.frames [Sample.saka; Sample.son] Sample.teams)
                      1 None)) <= 1.
Proof.
  apply (at_most_n_rows 1). lia.
Defined.

(** The transfer-out candidates are players owned by more than 10
    percent.  The fixture difficulty of a row is the average the
    fixture-difficulty operation reports for the player's team; the sell
    score of an available player is a rounding to two decimals of
    (5 - form) x 2 + difficulty x 2 + price x 0.5, that of any other
    player one and a half times such a rounding (not rounded again), so
    within 0.0075 of one and a half times the sum; the rows are in
    descending order of the score. *)
Theorem transfer_out_rows (self : TransferAdvisor.t) (n : Z)
    (rows : list SellRow) :
  get_transfer_out_candidates self n = Ok rows ->
  StronglySorted (by_desc s_sell_score) rows /\
  forall row, In row rows ->
    exists r team_row fixture_data,
      In r (players_df (player_analyzer self)) /\
      (10 < ownership r)%Q /\
      team_of self (team r) = Ok team_row /\
      FixtureAnalyzer.get_fixture_difficulty (fixture_analyzer self)
        (Team.name team_row) 5 = Ok fixture_data /\
      s_web_name row = Element.web_name (element r) /\
      s_status row = status r /\
      s_value row = value r /\
      s_fixture_difficulty row
        = Fin (FixtureAnalyzer.avg_difficulty fixture_data) /\
      (status r = "a" ->
       rounds_to ((5 - form r) * 2
                  + FixtureAnalyzer.avg_difficulty fixture_data * 2
                  + value r * (1 # 2))
                 (s_sell_score row)) /\
      (status r <> "a" ->
       exists s, s_sell_score row = Fin s /\
         (((5 - form r) * 2
           + FixtureAnalyzer.avg_difficulty fixture_data * 2
           + value r * (1 # 2)) * (3 # 2) - (3 # 400) <= s
          <= ((5 - form r) * 2
              + FixtureAnalyzer.avg_difficulty fixture_data * 2
              + value r * (1 # 2)) * (3 # 2) + (3 # 400))%Q).
Proof.
  unfold get_transfer_out_candidates. intros H.
  destruct (team_loop _ _ _ _) as [scores|] eqn:Eloop; [|discriminate].
  injection H as <-. split.
  - apply head_sorted, sort_desc_sorted.
  - intros row Hrow.
    apply head_In, sort_desc_In, in_map_iff in Hrow.
    destruct Hrow as (r & <- & Hr).
    assert (Hteam : In (team r) (Py.unique (map team
              (List.filter (fun r => FPLClient.Qltb 10 (ownership r))
                 (players_df (player_analyzer self)))))).
    { now apply unique_In, in_map. }
    apply filter_In in Hr. destruct Hr as [Hr Ho].
    destruct (team_loop_lookup _ _ _ _ _ _ Eloop Hteam) as (tm & v & Ht & Hv & Hs).
    unfold difficulty_entry in Hv.
    destruct (FixtureAnalyzer.get_fixture_difficulty _ _ _) as [fd|] eqn:Efd;
      [|discriminate].
    injection Hv as <-.
    exists r, tm, fd.
    split; [assumption|]. split; [now apply CaptaincyFacts.Qltb_lt|].
    split; [assumption|]. split; [assumption|].
    do 3 (split; [reflexivity|]).
    split; [simpl; unfold map_score; now rewrite Hs|].
    simpl. unfold sell_score, map_score, is_available. rewrite Hs. split.
    + intros Ha. rewrite Ha. simpl. apply NumFacts.round2_rounds_to.
    + intros Ha. apply String.eqb_neq in Ha. rewrite Ha.
      destruct (NumFacts.rounds_to_scaled _ (3 # 2) _ ltac:(discriminate)
                  (NumFacts.round2_rounds_to
                     ((5 - form r) * 2 + FixtureAnalyzer.avg_difficulty fd * 2
                      + value r * (1 # 2)))) as (s & Hs' & Hlo & Hhi).
      exists s. split; [exact Hs'|]. split; lra.
Qed.

(** The candidates of a sample with one player. *)
Lemma transfer_out_rows_witness :
  exists rows,
    get_transfer_out_candidates
      (Sample.advisor [Sample.saka] [Sample.away_only 3]) 10 = Ok rows /\
    StronglySorted (by_desc s_sell_score) rows.
Proof.
  eexists. split; [vm_compute; reflexivity|].
  apply (transfer_out_rows (Sample.advisor [Sample.saka] [Sample.away_only 3]) 10).
  vm_compute. reflexivity.
Defined.

End PlayerFacts.

(** ** More on the transfer advisor *)

Module AdvisorFacts.

Import Frame PlayerAnalyzer TransferAdvisor FrameFacts TransferFacts UpcomingFacts.

Lemma form_then_points_spec (a b : PlayerRow) :
  form_then_points_b a b = true <->
  (form b < form a)%Q \/ ((form a == form b)%Q /\ total_points b <= total_points a).
Proof.
  unfold form_then_points_b.
  destruct (form a ?= form b)%Q eqn:E.
  - apply Qeq_alt in E. rewrite Z.leb_le. split; [auto|].
    intros [H|[_ H]]; [lra|assumption].
  - apply Qlt_alt in E. split; [discriminate|]. intros [H|[H _]]; lra.
  - apply Qgt_alt in E. split; [auto|reflexivity].
Qed.

#[export] Instance by_form_then_points_total : Total by_form_then_points.
Proof.
  intros a b. unfold by_form_then_points. rewrite !Is_true_true.
  rewrite !form_then_points_spec.
  destruct (Qlt_le_dec (form b) (form a)) as [H|H]; [auto|].
  destruct (Qlt_le_dec (form a) (form b)) as [H'|H']; [auto|].
  assert (E : (form a == form b)%Q) by lra.
  destruct (Z.le_ge_cases (total_points a) (total_points b)).
  - right. right. split; [lra|assumption].
  - left. right. split; [assumption|lia].
Qed.

#[export] Instance by_form_then_points_trans : Transitive by_form_then_points.
Proof.
  intros a b c. unfold by_form_then_points. rewrite !Is_true_true.
  rewrite !form_then_points_spec.
  intros [H1|[H1 H1']] [H2|[H2 H2']].
  - left. lra.
  - left. lra.
  - left. lra.
  - right. split; [lra|lia].
Qed.

Lemma StronglySorted_impl {A} (R R' : relation A) (l : list A) :
  (forall a b, R a b -> R' a b) -> StronglySorted R l -> StronglySorted R' l.
Proof.
  intros HR. induction 1 as [|a l Hl IH Ha]; constructor; [assumption|].
  rewrite List.Forall_forall in *. auto.
Qed.

(** The premium options are available players of the position asked for
    whose price is at least [min_price], in descending order of form and,
    among players of equal form, of total points. *)
Theorem premium_rows (self : TransferAdvisor.t) (pos : string) (min_price : Q)
    (n : Z) :
  (forall row, In row (get_premium_options self pos min_price n) ->
     exists r, In r (players_df (player_analyzer self)) /\
               row = premium_columns r /\
               position r = Some (Py.upper pos) /\
               (min_price <= value r)%Q /\
               status r = "a") /\
  StronglySorted
    (fun a b => (p_form b < p_form a)%Q \/
                ((p_form a == p_form b)%Q /\ p_total_points b <= p_total_points a))
    (get_premium_options self pos min_price n).
Proof.
  unfold get_premium_options. split.
  - intros row H. apply head_In, in_map_iff in H. destruct H as (r & <- & Hr).
    eapply Permutation_in in Hr; [|apply (merge_sort_Permutation by_form_then_points)].
    apply filter_In in Hr. destruct Hr as [Hr Hmask].
    apply andb_true_iff in Hmask. destruct Hmask as [Hmask Ha].
    apply andb_true_iff in Hmask. destruct Hmask as [Hp Hv].
    exists r. repeat split; try assumption.
    + unfold position_is in Hp. now apply bool_decide_eq_true in Hp.
    + now apply Qle_bool_iff.
    + now apply is_available_status.
  - apply head_sorted, StronglySorted_map.
    apply StronglySorted_impl with (R := by_form_then_points).
    + intros a b H. apply Is_true_true, form_then_points_spec in H. exact H.
    + apply StronglySorted_merge_sort; apply _.
Qed.

(** A player on sale for more than nothing has a finite value per price,
    within 0.005 of points divided by price; the transfer score of such a
    player is within 0.005 of form x 4 + value per price x 0.3 + fixture
    score x 3, and every captain score within 0.005 of form x 5 + fixture
    score x 4 + points per game. *)
Theorem scores_near_formula :
  (forall teams e,
     Element.now_cost e <> 0 ->
     exists p,
       points_per_million (player_row teams e) = Fin p /\
       (inject_Z (Element.total_points e) / (inject_Z (Element.now_cost e) / 10)
          - (1 # 200) <= p
        <= inject_Z (Element.total_points e) / (inject_Z (Element.now_cost e) / 10)
          + (1 # 200))%Q) /\
  (forall fixture_score r p,
     points_per_million r = Fin p ->
     exists s,
       transfer_score (Fin fixture_score) r = Fin s /\
       (form r * 4 + p * (3 # 10) + fixture_score * 3 - (1 # 200) <= s
        <= form r * 4 + p * (3 # 10) + fixture_score * 3 + (1 # 200))%Q) /\
  (forall fixture_score r,
     exists s,
       captain_score fixture_score r = Fin s /\
       (form r * 5 + inject_Z fixture_score * 4
          + Element.points_per_game (element r) - (1 # 200) <= s
        <= form r * 5 + inject_Z fixture_score * 4
          + Element.points_per_game (element r) + (1 # 200))%Q).
Proof.
  split; [|split].
  - intros teams e Hcost. simpl. unfold xdiv.
    assert (Hv : (Qred (inject_Z (Element.now_cost e) / 10)
                  == inject_Z (Element.now_cost e) / 10)%Q) by apply Qred_correct.
    assert (Hnz : ~ (inject_Z (Element.now_cost e) / 10 == 0)%Q).
    { intros H. apply Hcost.
      assert (H' : (inject_Z (Element.now_cost e) == 0)%Q).
      { rewrite <- (Qmult_div_r (inject_Z (Element.now_cost e)) 10) by discriminate.
        rewrite H. reflexivity. }
      unfold Qeq in H'. simpl in H'. lia. }
    destruct (Qeq_bool _ 0) eqn:E.
    + apply Qeq_bool_iff in E. rewrite Hv in E. contradiction.
    + eexists. split; [reflexivity|].
      pose proof (NumFacts.round2_near
        (inject_Z (Element.total_points e)
         / Qred (inject_Z (Element.now_cost e) / 10))) as Hn.
      assert (HXY : (inject_Z (Element.total_points e)
                       / Qred (inject_Z (Element.now_cost e) / 10)
                     == inject_Z (Element.total_points e)
                       / (inject_Z (Element.now_cost e) / 10))%Q).
      { apply Qdiv_comp; [reflexivity|exact Hv]. }
      set (x := (inject_Z (Element.total_points e)
                 / Qred (inject_Z (Element.now_cost e) / 10))%Q) in *.
      set (y := (inject_Z (Element.total_points e)
                 / (inject_Z (Element.now_cost e) / 10))%Q) in *.
      set (z := round2 x) in *. clearbody x y z.
      destruct Hn. split; lra.
  - intros fs r p Hp. unfold transfer_score. rewrite Hp. simpl.
    eexists. split; [reflexivity|]. apply NumFacts.round2_near.
  - intros fs r. unfold captain_score. simpl.
    eexists. split; [reflexivity|]. apply NumFacts.round2_near.
Qed.

Lemma Qltb_false a b : (b <= a)%Q -> FPLClient.Qltb a b = false.
Proof.
  intros H. destruct (FPLClient.Qltb a b) eqn:E; [|reflexivity].
  apply CaptaincyFacts.Qltb_lt in E. lra.
Qed.

Lemma sum_of_zeros (l : list Q) :
  (forall q, In q l -> q = 0%Q) -> (fold_right Qplus 0 l == 0)%Q.
Proof.
  induction l as [|q l IH]; intros H; simpl; [reflexivity|].
  rewrite (H q (or_introl eq_refl)), IH; [reflexivity|].
  intros x Hx. apply H. now right.
Qed.

(** When no fixture is left unfinished, every team has the empty
    difficulty with average 0, and the wildcard assessment reads the
    league-wide mean 0 as easy fixtures. *)
Theorem wildcard_without_fixtures (self : TransferAdvisor.t) :
  FixtureAnalyzer.teams_df (fixture_analyzer self) <> [] ->
  (forall r, In r (FixtureAnalyzer.fixtures_df (fixture_analyzer self)) ->
             FixtureAnalyzer.finished r = true) ->
  _assess_wildcard self
    = Ok "Good time for Wildcard - Many teams have easy fixtures".
Proof.
  intros Hteams Hfin. unfold _assess_wildcard, FixtureAnalyzer.get_best_fixtures.
  set (fa := fixture_analyzer self) in *.
  assert (Hrow : forall team,
    FixtureAnalyzer.best_row fa 5 team
    = Ok {| FixtureAnalyzer.b_team := Team.short_name team;
            FixtureAnalyzer.b_team_name := Team.name team;
            FixtureAnalyzer.b_avg_difficulty := 0;
            FixtureAnalyzer.b_fixtures := "" |}).
  { intros team. unfold FixtureAnalyzer.best_row.
    rewrite DifficultyFacts.empty_difficulty; [reflexivity|].
    apply DifficultyFacts.no_upcoming_fixtures. intros r Hr _. now apply Hfin. }
  destruct (FixtureAnalyzer.traverse _ _) as [results|] eqn:Et.
  - pose proof (traverse_Forall2 _ _ _ Et) as HF.
    assert (Hzero : forall b, In b results -> FixtureAnalyzer.b_avg_difficulty b = 0%Q).
    { intros b Hb. destruct (Forall2_In_r _ _ _ _ HF Hb) as (team & _ & Hb').
      rewrite Hrow in Hb'. injection Hb' as <-. reflexivity. }
    destruct results as [|b results'] eqn:Er.
    + apply Forall2_length in HF.
      destruct (FixtureAnalyzer.teams_df fa); [contradiction|discriminate].
    + rewrite <- Er in *. clear Er.
      set (sorted := sort_asc _ results).
      assert (Hmean : (mean (map FixtureAnalyzer.b_avg_difficulty sorted) == 0)%Q).
      { unfold mean. rewrite sum_of_zeros; [reflexivity|].
        intros q Hq. apply in_map_iff in Hq. destruct Hq as (x & <- & Hx).
        apply Hzero. now apply sort_asc_In in Hx. }
      rewrite Qltb_false by (rewrite Hmean; discriminate).
      assert (Hlt : FPLClient.Qltb (mean (map FixtureAnalyzer.b_avg_difficulty sorted))
                      (25 # 10) = true).
      { apply CaptaincyFacts.Qltb_lt. rewrite Hmean. reflexivity. }
      now rewrite Hlt.
  - exfalso.
    destruct (traverse_defined (FixtureAnalyzer.best_row fa 5)
                (FixtureAnalyzer.teams_df fa)) as [bs Hbs].
    + intros team _. rewrite Hrow. eauto.
    + congruence.
Qed.

(** An advisor whose only fixture has been played. *)
Lemma wildcard_without_fixtures_witness :
  _assess_wildcard (Sample.advisor [Sample.saka] [Sample.played])
    = Ok "Good time for Wildcard - Many teams have easy fixtures".
Proof.
  apply (wildcard_without_fixtures (Sample.advisor [Sample.saka] [Sample.played])).
  - discriminate.
  - intros r [<-|[]]. reflexivity.
Defined.

End AdvisorFacts.

(** ** Building the advisor on one client *)

Module InitFacts.

Import FPLClient FPLClient.MonadNotation.

Lemma bind_ok {A B} (m : M A) (k : A -> M B) s a s' :
  m s = (Ok a, s') -> bind m k s = k a s'.
Proof. unfold bind. now intros ->. Qed.

Lemma miss_is_fetch (c : t) (w : World) endpoint :
  cache c !! endpoint = None ->
  _make_request endpoint true (c, w) = fetch endpoint true (c, w).
Proof.
  intros H. unfold _make_request, _get_cached, bind, self.
  simpl. now rewrite H.
Qed.

(** A request that is answered, with caching on. *)
Lemma fetch_answered (c : t) (w : World) endpoint data :
  respond w (length (requests w)) (BASE_URL +:+ endpoint) = Some data ->
  fetch endpoint true (c, w)
  = (Ok data,
     ({| cache := <[endpoint := (data, (send_time c w
                                        + latency w (length (requests w)))%Q)]>
                    (cache c);
         cache_duration := cache_duration c;
         last_request_time := send_time c w;
         min_request_interval := min_request_interval c |},
      {| clock := (send_time c w + latency w (length (requests w)))%Q;
         requests := requests w ++ [BASE_URL +:+ endpoint];
         respond := respond w;
         latency := latency w |})).
Proof.
  intros H.
  unfold fetch, _rate_limit, _set_cache, bind, self, time_time, time_sleep,
    set_last_request_time, set_cache_field, session_get, ret, raise, send_time.
  simpl.
  destruct (Qltb _ _); simpl; rewrite H; reflexivity.
Qed.

(** The advisor built on a client with an empty cache.  When the server
    answers the bootstrap request and then the fixtures request, with
    tables that are not empty, and the cached bootstrap data is still
    fresh when the fixtures have arrived, two requests are sent and no
    more: the fixture analyzer takes the teams from the cache.  Both
    analyzers hold the tables of these answers. *)
Theorem advisor_built_with_two_requests (c : t) (w : World)
    (e : Element.t) (elements : list Element.t)
    (tm : Team.t) (teams : list Team.t) (events : list Event.t)
    (f : Fixture.t) (fixtures : list Fixture.t) :
  cache c = ∅ ->
  respond w (length (requests w)) (BASE_URL +:+ "/bootstrap-static/")
    = Some (Payload.Bootstrap (e :: elements) (tm :: teams) events) ->
  respond w (S (length (requests w))) (BASE_URL +:+ "/fixtures/")
    = Some (Payload.Fixtures (f :: fixtures)) ->
  (0 <= latency w (length (requests w)))%Q ->
  (0 <= min_request_interval c)%Q ->
  (min_request_interval c + latency w (S (length (requests w)))
     < cache_duration c)%Q ->
  fst (TransferAdvisor.init (c, w))
    = Ok {| TransferAdvisor.player_analyzer :=
              PlayerAnalyzer.frames (e :: elements) (tm :: teams);
            TransferAdvisor.fixture_analyzer :=
              FixtureAnalyzer.frames (f :: fixtures) (tm :: teams) |} /\
  requests (world_after (TransferAdvisor.init (c, w)))
    = requests w ++ [BASE_URL +:+ "/bootstrap-static/"; BASE_URL +:+ "/fixtures/"].
Proof.
  intros Hc Hboot Hfix Hlat Hint Hfresh.
  set (k := length (requests w)) in *.
  (* the player analyzer: one request *)
  assert (H1 : get_bootstrap_static true (c, w)
               = fetch "/bootstrap-static/" true (c, w)).
  { apply miss_is_fetch. rewrite Hc. apply lookup_empty. }
  rewrite (fetch_answered c w "/bootstrap-static/" _ Hboot) in H1.
  fold k in H1.
  set (t1 := (send_time c w + latency w k)%Q) in *.
  set (boot := Payload.Bootstrap (e :: elements) (tm :: teams) events) in *.
  set (c1 := {| cache := <["/bootstrap-static/" := (boot, t1)]> (cache c);
                cache_duration := cache_duration c;
                last_request_time := send_time c w;
                min_request_interval := min_request_interval c |}) in *.
  set (w1 := {| clock := t1;
                requests := requests w ++ [BASE_URL +:+ "/bootstrap-static/"];
                respond := respond w; latency := latency w |}) in *.
  (* the fixture analyzer: the fixtures are fetched *)
  assert (Hlen1 : length (requests w1) = S k).
  { simpl. rewrite length_app. simpl. unfold k. lia. }
  assert (H2 : _make_request "/fixtures/" true (c1, w1)
               = fetch "/fixtures/" true (c1, w1)).
  { apply miss_is_fetch. simpl. rewrite lookup_insert_ne by discriminate.
    rewrite Hc. apply lookup_empty. }
  rewrite (fetch_answered c1 w1 "/fixtures/" (Payload.Fixtures (f :: fixtures)))
    in H2 by (rewrite Hlen1; exact Hfix).
  rewrite Hlen1 in H2.
  set (t2 := (send_time c1 w1 + latency w1 (S k))%Q) in *.
  set (c2 := {| cache := <["/fixtures/" := (Payload.Fixtures (f :: fixtures), t2)]>
                           (cache c1);
                cache_duration := cache_duration c1;
                last_request_time := send_time c1 w1;
                min_request_interval := min_request_interval c1 |}) in *.
  set (w2 := {| clock := t2;
                requests := requests w1 ++ [BASE_URL +:+ "/fixtures/"];
                respond := respond w1; latency := latency w1 |}) in *.
  (* and the bootstrap data comes from the cache *)
  assert (H3 : get_bootstrap_static true (c2, w2) = (Ok boot, (c2, w2))).
  { apply CacheFacts.cache_hit with t1.
    - simpl. rewrite lookup_insert_ne by discriminate. apply lookup_insert_eq.
    - simpl. unfold t2, send_time. simpl.
      destruct (Qltb (t1 - send_time c w) (min_request_interval c)) eqn:E.
      + unfold t1 in *. lra.
      + assert (Hge : ~ (t1 - send_time c w < min_request_interval c)%Q).
        { intros H. apply CaptaincyFacts.Qltb_lt in H. congruence. }
        unfold t1 in *. lra.
    - reflexivity. }
  assert (HPA : PlayerAnalyzer._load_data (c, w)
                = (Ok (PlayerAnalyzer.frames (e :: elements) (tm :: teams)),
                   (c1, w1))).
  { unfold PlayerAnalyzer._load_data. rewrite (bind_ok _ _ _ _ _ H1).
    reflexivity. }
  assert (Hgf : get_fixtures true (c1, w1) = (Ok (f :: fixtures), (c2, w2))).
  { unfold get_fixtures. rewrite (bind_ok _ _ _ _ _ H2). reflexivity. }
  assert (HFA : FixtureAnalyzer._load_data (c1, w1)
                = (Ok (FixtureAnalyzer.frames (f :: fixtures) (tm :: teams)),
                   (c2, w2))).
  { unfold FixtureAnalyzer._load_data.
    rewrite (bind_ok _ _ _ _ _ Hgf), (bind_ok _ _ _ _ _ H3). reflexivity. }
  unfold TransferAdvisor.init.
  rewrite (bind_ok _ _ _ _ _ HPA), (bind_ok _ _ _ _ _ HFA).
  split; [reflexivity|].
  unfold world_after, ret. simpl. now rewrite <- app_assoc.
Qed.

(** A fresh client in the sample world that answers both endpoints. *)
Lemma advisor_built_with_two_requests_witness :
  requests (world_after (TransferAdvisor.init (init 300, Sample.table_world 1000)))
  = [BASE_URL +:+ "/bootstrap-static/"; BASE_URL +:+ "/fixtures/"].
Proof.
  apply (advisor_built_with_two_requests (init 300) (Sample.table_world 1000)
           Sample.saka [Sample.son] Sample.arsenal
           [Sample.chelsea; Sample.spurs] []
           Sample.arsenal_home [Sample.arsenal_away]).
  - reflexivity.
  - reflexivity.
  - reflexivity.
  - vm_compute. discriminate.
  - vm_compute. discriminate.
  - vm_compute. reflexivity.
Defined.

End InitFacts.

(** ** What the cache never does, and the lists of the chip strategy *)

Module ChipFacts.

Import FPLClient FPLClient.MonadNotation.

Lemma fetch_sends (c : t) (w : World) endpoint use_cache r c' w' :
  fetch endpoint use_cache (c, w) = (r, (c', w')) ->
  requests w' = requests w ++ [BASE_URL +:+ endpoint].
Proof.
  unfold fetch, _rate_limit, _set_cache, bind, self, time_time, time_sleep,
    set_last_request_time, set_cache_field, session_get, ret, raise.
  simpl.
  destruct (Qltb _ _); simpl; destruct (respond w _ _); simpl;
    destruct use_cache; simpl; intros [= <- <- <-]; reflexivity.
Qed.

(** The cache never serves an expired or an empty entry: a fetch that
    returns without having sent a request returns the payload of a cache
    entry that is not empty and younger than the time-to-live, and changes
    nothing. *)
Theorem no_request_means_fresh_entry (c : t) (w : World) (endpoint : string)
    (use_cache : bool) (data : Payload.t) (c' : t) (w' : World) :
  _make_request endpoint use_cache (c, w) = (Ok data, (c', w')) ->
  requests w' = requests w ->
  use_cache = true /\
  (exists ts, cache c !! endpoint = Some (data, ts) /\
              (clock w - ts < cache_duration c)%Q) /\
  Payload.truthy data = true /\
  c' = c /\ w' = w.
Proof.
  intros H Hreq.
  assert (Hfetch : forall uc, fetch endpoint uc (c, w) = (Ok data, (c', w')) -> False).
  { intros uc Hf. apply fetch_sends in Hf. rewrite Hf in Hreq.
    apply (f_equal (@length string)) in Hreq. rewrite length_app in Hreq.
    simpl in Hreq. lia. }
  unfold _make_request in H. destruct use_cache; [|now apply Hfetch in H].
  unfold _get_cached, bind, self, time_time, ret in H.
  destruct (cache c !! endpoint) as [[cached ts]|] eqn:Ec; simpl in H;
    [|now apply Hfetch in H].
  destruct (Qltb _ _) eqn:Et; simpl in H; [|now apply Hfetch in H].
  destruct (Payload.truthy cached) eqn:Etr; [|now apply Hfetch in H].
  injection H as <- <- <-.
  apply CaptaincyFacts.Qltb_lt in Et. repeat split; eauto.
Qed.

(** A second fetch of the bootstrap data, a second after the first. *)
Lemma no_request_means_fresh_entry_witness :
  exists ts,
    cache {| cache := <["/bootstrap-static/" := (Sample.bootstrap, 999%Q)]> ∅;
             cache_duration := 300; last_request_time := 999;
             min_request_interval := 1 |} !! "/bootstrap-static/"
      = Some (Sample.bootstrap, ts) /\
    (clock (Sample.table_world 1000) - ts < 300)%Q.
Proof.
  apply (no_request_means_fresh_entry
           {| cache := <["/bootstrap-static/" := (Sample.bootstrap, 999%Q)]> ∅;
              cache_duration := 300; last_request_time := 999;
              min_request_interval := 1 |}
           (Sample.table_world 1000) "/bootstrap-static/" true Sample.bootstrap
           {| cache := <["/bootstrap-static/" := (Sample.bootstrap, 999%Q)]> ∅;
              cache_duration := 300; last_request_time := 999;
              min_request_interval := 1 |}
           (Sample.table_world 1000)).
  - vm_compute. reflexivity.
  - reflexivity.
Defined.

Import TransferAdvisor.

(** In the chip strategy the bench-boost and the triple-captain gameweeks
    are the same list, the gameweeks of the double-gameweek rows, each
    once; the free-hit gameweeks are the gameweeks of the blank-gameweek
    rows, each once; at most three teams are named for their fixtures; and
    the current gameweek is the one the client gave. *)
Theorem chip_lists (self : TransferAdvisor.t) (current_gw : option Z)
    (chips : ChipStrategy) :
  chip_recommendations self current_gw = Ok chips ->
  current_gameweek chips = current_gw /\
  bench_boost_gameweeks chips = triple_captain_gameweeks chips /\
  List.NoDup (bench_boost_gameweeks chips) /\
  List.NoDup (free_hit_gameweeks chips) /\
  (forall gw, In gw (bench_boost_gameweeks chips) <->
     exists row,
       In row (FixtureAnalyzer.get_double_gameweeks (fixture_analyzer self)) /\
       FixtureAnalyzer.dgw_gameweek row = gw) /\
  (forall gw, In gw (free_hit_gameweeks chips) <->
     exists row,
       In row (FixtureAnalyzer.get_blank_gameweeks (fixture_analyzer self)) /\
       FixtureAnalyzer.bgw_gameweek row = gw) /\
  (length (best_fixture_teams chips) <= 3)%nat.
Proof.
  unfold chip_recommendations.
  destruct (FixtureAnalyzer.get_best_fixtures _ _) as [best|]; [|discriminate].
  destruct (_assess_wildcard self); [|discriminate].
  intros [= <-]. simpl.
  split; [reflexivity|]. split; [reflexivity|].
  split; [apply FrameFacts.unique_opt_NoDup|].
  split; [apply FrameFacts.unique_opt_NoDup|].
  split; [|split].
  - intros gw. rewrite FrameFacts.unique_opt_In, in_map_iff.
    split; intros (row & H1 & H2); exists row; auto.
  - intros gw. rewrite FrameFacts.unique_opt_In, in_map_iff.
    split; intros (row & H1 & H2); exists row; auto.
  - rewrite length_map. pose proof (UpcomingFacts.head_length 3 best). lia.
Qed.

(** The chip strategy of a sample advisor in gameweek 1. *)
Lemma chip_lists_witness :
  exists chips,
    chip_recommendations
      (Sample.advisor [Sample.saka]
         [Sample.arsenal_home; Sample.away_only 3; Sample.arsenal_away])
      (Some 1) = Ok chips /\
    bench_boost_gameweeks chips = triple_captain_gameweeks chips /\
    bench_boost_gameweeks chips = [Some 1].
Proof.
  eexists. split; [vm_compute; reflexivity|]. split; [|reflexivity].
  eapply (chip_lists
            (Sample.advisor [Sample.saka]
               [Sample.arsenal_home; Sample.away_only 3; Sample.arsenal_away])
            (Some 1)).
  vm_compute. reflexivity.
Defined.

End ChipFacts.
